(** * The STM transaction controller of PyPy (stmgcintf.c)

    A shallow embedding of [rpython/translator/stm/src_stm/stmgcintf.c]:
    the thread-local mode counter and nursery budget, the budget
    computation, the commit-soon callback, the escalation to inevitable,
    the foreign-call bridge and the perform-transaction retry loop.

    Modelling conventions.
    - [long] and [uintptr_t] are 64 bits wide; a value is a [Z] kept in
      the range of its type, an operation that may leave the range is
      followed by the wrap-around ([to_long], [to_uintptr]).  [>>] on a
      [long] is the arithmetic shift of gcc, [Z.shiftr].
    - [double] is IEEE 754 binary64, as specified by [SpecFloat]
      ([prec = 53], [emax = 1024]).
    - The STM engine (stmgc.c) is an external collaborator.  A call to it
      is appended to the [events] of the state, and its effect on the data
      the engine owns is given by an arbitrary function [engine] of the
      history, the call and the engine's data.
    - A conflict abort is a jump to the checkpoint the engine holds
      ([STM_SEGMENT->jmpbuf_ptr]).  It is modelled where the retry loop
      meets it, as an outcome of the callback; a call to the engine
      returns.  (An abort during the commit of line 192 that resumes at
      the checkpoint of the loop goes on as a commit that returns does:
      the checkpoint is the next statement.)
    - [assert] is compiled in unless [NDEBUG] is defined; the build flag is
      the variable [NDEBUG].
    - [HTM_INFO_AVAILABLE] is defined nowhere in the sources: the [#else]
      branch of [_pypy_stm_initialize_nursery_low_fill_mark] is the one
      embedded.
    - The callbacks of lines 17-36, which forward the tracing of objects
      to the collector, and the saving of [errno] around calls are left
      out: they touch neither the mode nor the budget. *)

From Stdlib Require Import ZArith List String Bool Lia Floats.SpecFloat.
Import ListNotations.

Local Open Scope Z_scope.

(** ** Machine integers *)

Module Int64.

Definition modulus : Z := 2 ^ 64.
Definition half_modulus : Z := 2 ^ 63.

(** Conversion to [uintptr_t] (unsigned, 64 bits). *)
Definition to_uintptr (z : Z) : Z := z mod modulus.

(** Conversion to [long] (two's complement, 64 bits). *)
Definition to_long (z : Z) : Z := (z + half_modulus) mod modulus - half_modulus.

(** Conversion to [int] (two's complement, 32 bits). *)
Definition to_int (z : Z) : Z := (z + 2 ^ 31) mod 2 ^ 32 - 2 ^ 31.

Definition is_long (z : Z) : Prop := - half_modulus <= z < half_modulus.
Definition is_uintptr (z : Z) : Prop := 0 <= z < modulus.

(** [(uintptr_t)-1], the budget of an atomic section. *)
Definition UNLIMITED : Z := modulus - 1.

End Int64.
Import Int64.

(** ** Doubles *)

Module Double.

Definition prec : Z := 53.
Definition emax : Z := 1024.

Definition double : Type := spec_float.

Definition valid (d : double) : Prop := valid_binary prec emax d = true.

(** Conversion of an integer constant to [double]. *)
Definition of_int (z : Z) : double := binary_normalize prec emax z 0 false.

Definition mul (x y : double) : double := SFmul prec emax x y.
Definition opp (x : double) : double := SFopp x.
Definition leb (x y : double) : bool := SFleb x y.

Definition zero : double := S754_zero false.
Definition one : double := of_int 1.

(** [(long)d]: the fractional part is discarded.  A value that does not
    fit (or an infinity, or a NaN) is undefined in C; the conversion
    instruction of x86-64 gives [LONG_MIN] for it. *)
Definition to_long (d : double) : Z :=
  match d with
  | S754_zero _ => 0
  | S754_finite s m e =>
      let a := Z.shiftl (Zpos m) e in
      let v := if s then - a else a in
      if (- Int64.half_modulus <=? v) && (v <? Int64.half_modulus)
      then v else - Int64.half_modulus
  | _ => - Int64.half_modulus
  end.

End Double.

(** ** Calls to the engine and the history of a thread *)

(** A checkpoint ([stm_jmpbuf_t *]) is named by its address. *)
Definition jmpbuf := Z.

(** A root ([object_t *]) is named by its address. *)
Definition object_t := Z.

Inductive event : Type :=
| Ev_stm_setup
| Ev_register_thread_local
| Ev_unregister_thread_local
| Ev_stm_commit_transaction
| Ev_stm_start_transaction (jmpbuf_ptr : jmpbuf)
| Ev_stm_start_inevitable_transaction
| Ev_stm_become_inevitable (msg : string)
| Ev_stm_become_globally_unique_transaction (msg : string)
| Ev_callback (arg : object_t) (counter : Z).

(** The data of the engine that stmgcintf.c reads or writes directly. *)
Record engine_state : Type := {
  _stm_nursery_start : Z;              (* uintptr_t _stm_nursery_start *)
  last_abort__bytes_in_nursery : Z;    (* long, in stm_thread_local *)
  segment_jmpbuf_ptr : option jmpbuf;  (* STM_SEGMENT->jmpbuf_ptr, NULL = None *)
  shadowstack : Z;                     (* stm_thread_local.shadowstack, in entries *)
  shadowstack_ss : Z -> object_t       (* the entries of the shadow stack *)
}.

(** The thread-local and static variables of stmgcintf.c, with the data
    of the engine and the history of the calls made so far. *)
Record State : Type := {
  pypy_stm_ready_atomic : Z;                 (* __thread long *)
  pypy_stm_nursery_low_fill_mark : Z;        (* __thread uintptr_t *)
  pypy_stm_nursery_low_fill_mark_saved : Z;  (* __thread uintptr_t *)
  pypy_transaction_length : Z;               (* static long *)
  eng : engine_state;
  events : list event
}.

Definition set_ready_atomic (v : Z) (st : State) : State :=
  {| pypy_stm_ready_atomic := v;
     pypy_stm_nursery_low_fill_mark := pypy_stm_nursery_low_fill_mark st;
     pypy_stm_nursery_low_fill_mark_saved := pypy_stm_nursery_low_fill_mark_saved st;
     pypy_transaction_length := pypy_transaction_length st;
     eng := eng st; events := events st |}.

Definition set_low_fill_mark (v : Z) (st : State) : State :=
  {| pypy_stm_ready_atomic := pypy_stm_ready_atomic st;
     pypy_stm_nursery_low_fill_mark := v;
     pypy_stm_nursery_low_fill_mark_saved := pypy_stm_nursery_low_fill_mark_saved st;
     pypy_transaction_length := pypy_transaction_length st;
     eng := eng st; events := events st |}.

Definition set_low_fill_mark_saved (v : Z) (st : State) : State :=
  {| pypy_stm_ready_atomic := pypy_stm_ready_atomic st;
     pypy_stm_nursery_low_fill_mark := pypy_stm_nursery_low_fill_mark st;
     pypy_stm_nursery_low_fill_mark_saved := v;
     pypy_transaction_length := pypy_transaction_length st;
     eng := eng st; events := events st |}.

Definition set_transaction_length (v : Z) (st : State) : State :=
  {| pypy_stm_ready_atomic := pypy_stm_ready_atomic st;
     pypy_stm_nursery_low_fill_mark := pypy_stm_nursery_low_fill_mark st;
     pypy_stm_nursery_low_fill_mark_saved := pypy_stm_nursery_low_fill_mark_saved st;
     pypy_transaction_length := v;
     eng := eng st; events := events st |}.

Definition set_eng (e : engine_state) (st : State) : State :=
  {| pypy_stm_ready_atomic := pypy_stm_ready_atomic st;
     pypy_stm_nursery_low_fill_mark := pypy_stm_nursery_low_fill_mark st;
     pypy_stm_nursery_low_fill_mark_saved := pypy_stm_nursery_low_fill_mark_saved st;
     pypy_transaction_length := pypy_transaction_length st;
     eng := e; events := events st |}.

Definition set_shadowstack (sp : Z) (ss : Z -> object_t) (e : engine_state)
  : engine_state :=
  {| _stm_nursery_start := _stm_nursery_start e;
     last_abort__bytes_in_nursery := last_abort__bytes_in_nursery e;
     segment_jmpbuf_ptr := segment_jmpbuf_ptr e;
     shadowstack := sp; shadowstack_ss := ss |}.

(** Every variable holds a value of its C type. *)
Record wf_state (st : State) : Prop := {
  wf_ready_atomic : is_long (pypy_stm_ready_atomic st);
  wf_low_fill_mark : is_uintptr (pypy_stm_nursery_low_fill_mark st);
  wf_low_fill_mark_saved : is_uintptr (pypy_stm_nursery_low_fill_mark_saved st);
  wf_transaction_length : is_long (pypy_transaction_length st);
  wf_nursery_start : is_uintptr (_stm_nursery_start (eng st));
  wf_last_abort : is_long (last_abort__bytes_in_nursery (eng st))
}.

(** ** Outcome of a function of the controller *)

Inductive result (A : Type) : Type :=
| Ok (a : A) (st : State)
| AssertFailed (line : Z)     (* an [assert] of that source line aborted the process *)
| Unwound (st : State)        (* a conflict abort jumped to a checkpoint of another frame *)
| OutOfFuel.

Arguments Ok {A} a st.
Arguments AssertFailed {A} line.
Arguments Unwound {A} st.
Arguments OutOfFuel {A}.

Definition M (A : Type) : Type := State -> result A.

Definition ret {A} (a : A) : M A := fun st => Ok a st.

Definition bind {A B} (m : M A) (k : A -> M B) : M B :=
  fun st =>
    match m st with
    | Ok a st' => k a st'
    | AssertFailed line => AssertFailed line
    | Unwound st' => Unwound st'
    | OutOfFuel => OutOfFuel
    end.

Definition modify (f : State -> State) : M unit := fun st => Ok tt (f st).
Definition gets {A} (f : State -> A) : M A := fun st => Ok (f st) st.

Declare Scope stm_scope.
Delimit Scope stm_scope with stm.
Notation "x <- m ;; k" := (bind m (fun x => k))
  (at level 61, m at next level, right associativity) : stm_scope.
Notation "m ;; k" := (bind m (fun _ => k))
  (at level 61, right associativity) : stm_scope.
Local Open Scope stm_scope.

(** ** The operations of a thread *)

(** What a registered thread may do between two inspections of its mode
    and budget: the functions of stmgcintf.c, the atomic sections of 4.1,
    and whatever the engine does to its own data. *)
Inductive op : Type :=
| Op_set_transaction_length (fraction : Double.double)
| Op_commit_soon
| Op_enter_callback_call
| Op_leave_callback_call (token : Z)
| Op_start_transaction (jmpbuf_ptr : jmpbuf) (v_counter : Z)
| Op_commit_transaction
| Op_become_inevitable (msg : option string)
| Op_become_globally_unique_transaction
| Op_enter_atomic
| Op_leave_atomic
| Op_engine (e : engine_state).

(** [pypy_stm_leave_callback_call(1)] deregisters the thread. *)
Definition deregisters (o : op) : bool :=
  match o with
  | Op_leave_callback_call token => token =? 1
  | _ => false
  end.

(** ** The controller *)

Section Controller.

(** Build flag: [true] when [NDEBUG] is defined and [assert] expands to
    nothing. *)
Variable NDEBUG : bool.

(** The macro [NURSERY_SIZE] of the engine (stmgc.c, included at line 54
    and not among the sources), the capacity of the young-object arena
    in bytes, taken as an [unsigned long] constant. *)
Variable NURSERY_SIZE : Z.

(** The engine: its data after a call, from the history, the call and
    its data before. *)
Variable engine : list event -> event -> engine_state -> engine_state.

(** [assert(cond)] on source line [line]. *)
Definition assert (line : Z) (cond : bool) : M unit :=
  fun st => if NDEBUG || cond then Ok tt st else AssertFailed line.

(** A call to a function of the engine. *)
Definition call_engine (c : event) : M unit :=
  fun st =>
    Ok tt {| pypy_stm_ready_atomic := pypy_stm_ready_atomic st;
             pypy_stm_nursery_low_fill_mark := pypy_stm_nursery_low_fill_mark st;
             pypy_stm_nursery_low_fill_mark_saved :=
               pypy_stm_nursery_low_fill_mark_saved st;
             pypy_transaction_length := pypy_transaction_length st;
             eng := engine (events st) c (eng st);
             events := events st ++ [c] |}.

(** *** stmcb_commit_soon (lines 38-49) *)

Definition stmcb_commit_soon (st : State) : State :=
  if pypy_stm_nursery_low_fill_mark st =? UNLIMITED then
    (* atomic *)
    if to_long (pypy_stm_nursery_low_fill_mark_saved st) >? 0 then
      set_low_fill_mark_saved 0 st
    else st
  else if to_long (pypy_stm_nursery_low_fill_mark st) >? 0 then
    (* if not set to unlimited by pypy_stm_setup() *)
    set_low_fill_mark 0 st
  else st.

(** *** _pypy_stm_initialize_nursery_low_fill_mark (lines 129-156) *)

Definition LOW_FILL_MARK : Z := 400000.

(** Line 151: [limit -= (limit >> 4)]. *)
Definition retry_limit (limit : Z) : Z :=
  to_long (limit - to_long (Z.shiftr limit 4)).

(** The local variable [limit] at line 155. *)
Definition nursery_limit (v_counter : Z) (st : State) : Z :=
  let counter := v_counter in
  if counter =? 0 then
    pypy_transaction_length st
  else
    retry_limit (last_abort__bytes_in_nursery (eng st)).

Definition _pypy_stm_initialize_nursery_low_fill_mark (v_counter : Z)
  (st : State) : State :=
  let limit := nursery_limit v_counter st in
  set_low_fill_mark (to_uintptr (_stm_nursery_start (eng st) + limit)) st.

(** *** _pypy_stm_inev_state and _pypy_stm_become_inevitable (lines 241-267) *)

(** [_stm_nursery_start + ((t - (long)_stm_nursery_start) >> 2)], stored
    in the [long] variable [t]. *)
Definition inev_shrink (nursery_start t : Z) : Z :=
  to_long (nursery_start + Z.shiftr (to_long (t - to_long nursery_start)) 2).

Definition _pypy_stm_inev_state : M unit :=
  ready <- gets pypy_stm_ready_atomic ;;
  if ready =? 1 then
    modify (fun st =>
      let t := to_long (pypy_stm_nursery_low_fill_mark st) in
      let t := inev_shrink (_stm_nursery_start (eng st)) t in
      set_low_fill_mark (to_uintptr t) st)
  else
    mark <- gets pypy_stm_nursery_low_fill_mark ;;
    assert 253 (mark =? UNLIMITED) ;;
    modify (fun st =>
      let t := to_long (pypy_stm_nursery_low_fill_mark_saved st) in
      let t := inev_shrink (_stm_nursery_start (eng st)) t in
      set_low_fill_mark_saved (to_uintptr t) st).

(** [msg] is [None] for a NULL pointer. *)
Definition _pypy_stm_become_inevitable (msg : option string) : M unit :=
  _pypy_stm_inev_state ;;
  let msg := match msg with
             | None => "return from JITted function"%string
             | Some m => m
             end in
  call_engine (Ev_stm_become_inevitable msg).

(** pypy_stm_become_globally_unique_transaction (lines 269-275) *)
Definition pypy_stm_become_globally_unique_transaction : M unit :=
  jb <- gets (fun st => segment_jmpbuf_ptr (eng st)) ;;
  match jb with
  | Some _ => _pypy_stm_inev_state
  | None => ret tt
  end ;;
  call_engine (Ev_stm_become_globally_unique_transaction "for the JIT").

(** *** pypy_stm_set_transaction_length (lines 64-72) *)

(** [(long)(NURSERY_SIZE * 3 / 4)]: the product and the quotient are
    computed in [unsigned long]. *)
Definition nursery_three_quarters : Z :=
  to_long (to_uintptr (NURSERY_SIZE * 3) / 4).

Definition pypy_stm_set_transaction_length (fraction : Double.double)
  (st : State) : State :=
  (* the value '1.0' means 'use the default'.  Other values are
     interpreted proportionally, up to some maximum. *)
  let low_fill_mark :=
    Double.to_long (Double.mul (Double.of_int LOW_FILL_MARK) fraction) in
  let low_fill_mark :=
    if low_fill_mark >? nursery_three_quarters
    then nursery_three_quarters else low_fill_mark in
  set_transaction_length low_fill_mark st.

(** *** Helpers defined outside stmgcintf.c *)

(** Modelled from the spec: [pypy_stm_start_inevitable_if_not_atomic] is
    called by stmgcintf.c and defined outside it, in no source at hand.
    Registration "immediately begins a transaction" (4.1), and an
    already registered thread entering foreign code does, "if not
    currently atomic, force the transaction into inevitable mode
    immediately" (4.5).  To begin is to ask the engine to start, then to
    compute the budget (4.3, begin); to force inevitable mode shrinks the
    budget first (4.3, escalate).  In atomic mode nothing is done. *)
Definition pypy_stm_start_inevitable_if_not_atomic : M unit :=
  ready <- gets pypy_stm_ready_atomic ;;
  if ready =? 1 then
    call_engine Ev_stm_start_inevitable_transaction ;;
    modify (_pypy_stm_initialize_nursery_low_fill_mark 0) ;;
    _pypy_stm_inev_state
  else ret tt.

(** Modelled from the spec: [pypy_stm_commit_if_not_atomic] is called by
    stmgcintf.c and defined outside it, in no source at hand.  It is the
    "end voluntarily if not atomic" check of 4.5: a thread that is not
    atomic commits its transaction.  An atomic one does not commit; its
    transaction is escalated, the foreign code it returns to being
    unable to retry (8, last scenario: after a foreign call inside an
    atomic section the saved budget "reflects the inevitable-adjusted
    value").  The spec gives no reason for this escalation. *)
Definition pypy_stm_commit_if_not_atomic : M unit :=
  ready <- gets pypy_stm_ready_atomic ;;
  if ready =? 1 then call_engine Ev_stm_commit_transaction
  else _pypy_stm_become_inevitable (Some "commit_if_not_atomic in atomic"%string).

(** Modelled from the spec: [enter_atomic] of 4.1, which no source at
    hand defines: "increments depth; on the 0->1 transition, saves budget
    into saved_budget and sets budget = Unlimited".  The depth is
    [pypy_stm_ready_atomic - 1] (line 7: 1 = normal mode; 2 or more =
    atomic mode). *)
Definition enter_atomic : M unit :=
  modify (fun st =>
    let st := set_ready_atomic (to_long (pypy_stm_ready_atomic st + 1)) st in
    if pypy_stm_ready_atomic st =? 2 then
      set_low_fill_mark UNLIMITED
        (set_low_fill_mark_saved (pypy_stm_nursery_low_fill_mark st) st)
    else st).

(** Modelled from the spec: [leave_atomic] of 4.1, which no source at
    hand defines: "decrements depth; on the 1->0 transition, restores
    budget from saved_budget"; "leave_atomic() on depth 0 is a contract
    violation (must be rejected/asserted)" (8). *)
Definition leave_atomic : M unit :=
  ready <- gets pypy_stm_ready_atomic ;;
  if ready <=? 1 then (fun _ => AssertFailed 0)
  else
    modify (fun st =>
      let st := set_ready_atomic (to_long (pypy_stm_ready_atomic st - 1)) st in
      if pypy_stm_ready_atomic st =? 1 then
        set_low_fill_mark (pypy_stm_nursery_low_fill_mark_saved st) st
      else st).

(** Modelled from the spec: the macro [STM_PUSH_ROOT] of the engine,
    which no source at hand defines, registers a root "with the
    root-tracking mechanism" (4.4): the root is stored at the top of the
    shadow stack of the thread. *)
Definition STM_PUSH_ROOT (p : object_t) : M unit :=
  modify (fun st =>
    let sp := shadowstack (eng st) in
    let ss := shadowstack_ss (eng st) in
    set_eng (set_shadowstack (sp + 1)
               (fun i => if i =? sp then p else ss i) (eng st)) st).

(** Modelled from the spec: the macros [STM_POP_ROOT] and
    [STM_POP_ROOT_RET] of the engine deregister the topmost root (4.4)
    and give its current value. *)
Definition STM_POP_ROOT : M object_t :=
  fun st =>
    let sp := shadowstack (eng st) - 1 in
    let ss := shadowstack_ss (eng st) in
    Ok (ss sp) (set_eng (set_shadowstack sp ss (eng st)) st).

(** *** pypy_stm_setup and pypy_stm_teardown (lines 74-90) *)

Definition pypy_stm_setup : M unit :=
  call_engine Ev_stm_setup ;;
  call_engine Ev_register_thread_local ;;
  modify (set_ready_atomic 1) ;;
  (* set transaction length to unlimited until the first thread starts *)
  modify (pypy_stm_set_transaction_length
            (Double.opp (Double.of_int 10000))) ;;
  pypy_stm_start_inevitable_if_not_atomic.

Definition pypy_stm_teardown : M unit :=
  call_engine Ev_unregister_thread_local.

(** *** The foreign-call bridge (lines 92-127); [errno] is not modelled *)

Definition pypy_stm_enter_callback_call : M Z :=
  ready <- gets pypy_stm_ready_atomic ;;
  if ready =? 0 then
    (* first time we see this thread *)
    len <- gets pypy_transaction_length ;;
    assert 96 (len >=? 0) ;;
    call_engine Ev_register_thread_local ;;
    modify (set_ready_atomic 1) ;;
    pypy_stm_start_inevitable_if_not_atomic ;;
    ret 1
  else
    (* callback from C code, itself called from Python code *)
    pypy_stm_start_inevitable_if_not_atomic ;;
    ret 0.

Definition pypy_stm_leave_callback_call (token : Z) : M unit :=
  if token =? 1 then
    (* if we're returning into foreign C code that was not itself
       called from Python code, then we're ignoring the atomic
       status and committing anyway. *)
    modify (set_ready_atomic 1) ;;
    call_engine Ev_stm_commit_transaction ;;
    modify (set_ready_atomic 0) ;;
    call_engine Ev_unregister_thread_local
  else
    pypy_stm_commit_if_not_atomic.

(** *** pypy_stm_start_transaction (lines 158-168) *)

(** The result is the new value of [*v_counter]. *)
Definition pypy_stm_start_transaction (jmpbuf_ptr : jmpbuf) (v_counter : Z)
  : M Z :=
  modify (set_low_fill_mark 1) ;;  (* will be set to a correct value below *)
  call_engine (Ev_stm_start_transaction jmpbuf_ptr) ;;
  modify (_pypy_stm_initialize_nursery_low_fill_mark v_counter) ;;
  let v_counter := to_long (v_counter + 1) in
  modify (set_ready_atomic 1) ;;  (* reset after abort *)
  ret v_counter.

(** *** pypy_stm_perform_transaction (lines 170-239) *)

(** What an invocation of the callback does: it returns an [int], or the
    engine aborts the transaction and jumps to the checkpoint
    [STM_SEGMENT->jmpbuf_ptr]. *)
Inductive cb_outcome : Type :=
| CbReturn (result : Z) (st : State)
| CbAbort (st : State).

(** Where a round of the loop is entered: at the top of [while (1)], or
    at [__builtin_setjmp] returning 1 after an abort (line 198). *)
Inductive entry : Type := LoopTop | Checkpoint.

Section PerformTransaction.

(** [pypy_stm_should_break_transaction] is called at line 186 and
    defined outside stmgcintf.c, in no source at hand. *)
Variable pypy_stm_should_break_transaction : State -> bool.

(** [&jmpbuf], the address of the checkpoint of this frame. *)
Variable jmpbuf_addr : jmpbuf.

(** The callback; its first argument numbers the invocations, the
    memory of the callback not being part of [State]. *)
Variable callback : nat -> object_t -> Z -> State -> cb_outcome.

Definition jmpbuf_is_ours (st : State) : bool :=
  match segment_jmpbuf_ptr (eng st) with
  | Some jb => jb =? jmpbuf_addr
  | None => false
  end.

(** Lines 186-206: the result is the pair of [counter] and [v_counter]. *)
Definition begin_round (from : entry) (v_counter : Z) : M (Z * Z) :=
  match from with
  | LoopTop =>
      brk <- gets pypy_stm_should_break_transaction ;;
      if brk then
        (* Not in an atomic transaction; but it might be an inevitable
           transaction. *)
        mark <- gets pypy_stm_nursery_low_fill_mark ;;
        assert 190 (negb (mark =? UNLIMITED)) ;;
        call_engine Ev_stm_commit_transaction ;;
        let counter := v_counter in
        v_counter <- pypy_stm_start_transaction jmpbuf_addr v_counter ;;
        ret (counter, v_counter)
      else
        (* In an atomic transaction *)
        ret (v_counter, v_counter)
  | Checkpoint =>
      let counter := v_counter in
      v_counter <- pypy_stm_start_transaction jmpbuf_addr v_counter ;;
      ret (counter, v_counter)
  end.

(** Lines 209-213: the roots are re-read and the callback is invoked. *)
Definition invoke_callback (n : nat) (v_old_shadowstack counter : Z)
  (st : State) : result cb_outcome :=
  match (arg <- STM_POP_ROOT ;;
         sp <- gets (fun st => shadowstack (eng st)) ;;
         assert 210 (v_old_shadowstack =? sp) ;;
         STM_PUSH_ROOT arg ;;
         ret arg) st with
  | Ok arg st =>
      let c := to_int counter in
      let st := {| pypy_stm_ready_atomic := pypy_stm_ready_atomic st;
                   pypy_stm_nursery_low_fill_mark :=
                     pypy_stm_nursery_low_fill_mark st;
                   pypy_stm_nursery_low_fill_mark_saved :=
                     pypy_stm_nursery_low_fill_mark_saved st;
                   pypy_transaction_length := pypy_transaction_length st;
                   eng := eng st;
                   events := events st ++ [Ev_callback arg c] |} in
      Ok (callback n arg c st) st
  | AssertFailed line => AssertFailed line
  | Unwound st => Unwound st
  | OutOfFuel => OutOfFuel
  end.

(** The loop of lines 183-217; [fuel] bounds the number of invocations
    of the callback, [n] counts them.  The result is [result]. *)
Fixpoint retry_loop (fuel : nat) (n : nat) (v_old_shadowstack : Z)
  (from : entry) (v_counter : Z) (st : State) : result Z :=
  match fuel with
  | O => OutOfFuel
  | S fuel' =>
      match begin_round from v_counter st with
      | Ok (counter, v_counter) st =>
          match invoke_callback n v_old_shadowstack counter st with
          | Ok (CbReturn r st') _ =>
              let result := to_int r in
              if result <=? 0 then Ok result st'
              else retry_loop fuel' (S n) v_old_shadowstack LoopTop 0 st'
          | Ok (CbAbort st') _ =>
              if jmpbuf_is_ours st'
              then retry_loop fuel' (S n) v_old_shadowstack Checkpoint
                     v_counter st'
              else Unwound st'
          | AssertFailed line => AssertFailed line
          | Unwound st => Unwound st
          | OutOfFuel => OutOfFuel
          end
      | AssertFailed line => AssertFailed line
      | Unwound st => Unwound st
      | OutOfFuel => OutOfFuel
      end
  end.

(** Lines 219-238, after the loop. *)
Definition leave_perform_transaction (v_old_shadowstack : Z) : M unit :=
  ours <- gets jmpbuf_is_ours ;;
  (if ours then
     (* we can't leave this function leaving a non-inevitable
        transaction whose jmpbuf points into this function. *)
     call_engine (Ev_stm_become_inevitable
                    "perform_transaction left with inevitable")
   else ret tt) ;;
  (* double-check *)
  ready <- gets pypy_stm_ready_atomic ;;
  mark <- gets pypy_stm_nursery_low_fill_mark ;;
  (if ready =? 1 then ret tt else assert 232 (mark =? UNLIMITED)) ;;
  _ <- STM_POP_ROOT ;;   (* pop the 'arg' *)
  sp <- gets (fun st => shadowstack (eng st)) ;;
  assert 238 (v_old_shadowstack =? sp).

Definition pypy_stm_perform_transaction (fuel : nat) (arg : object_t)
  : M unit :=
  v_old_shadowstack <- gets (fun st => shadowstack (eng st)) ;;
  STM_PUSH_ROOT arg ;;
  _ <- retry_loop fuel 0 v_old_shadowstack LoopTop 0 ;;
  leave_perform_transaction v_old_shadowstack.

End PerformTransaction.

(** *** The operations of a registered thread *)

Definition run_op (o : op) : M unit :=
  match o with
  | Op_set_transaction_length fraction =>
      modify (pypy_stm_set_transaction_length fraction)
  | Op_commit_soon => modify stmcb_commit_soon
  | Op_enter_callback_call => _ <- pypy_stm_enter_callback_call ;; ret tt
  | Op_leave_callback_call token => pypy_stm_leave_callback_call token
  | Op_start_transaction jmpbuf_ptr v_counter =>
      _ <- pypy_stm_start_transaction jmpbuf_ptr v_counter ;; ret tt
  | Op_commit_transaction => call_engine Ev_stm_commit_transaction
  | Op_become_inevitable msg => _pypy_stm_become_inevitable msg
  | Op_become_globally_unique_transaction =>
      pypy_stm_become_globally_unique_transaction
  | Op_enter_atomic => enter_atomic
  | Op_leave_atomic => leave_atomic
  | Op_engine e => modify (set_eng e)
  end.

(** The states of a thread from its registration ([pypy_stm_setup], or
    the first [pypy_stm_enter_callback_call]) up to its deregistration. *)
Inductive reachable : State -> Prop :=
| reach_setup (st st' : State) :
    pypy_stm_setup st = Ok tt st' -> reachable st'
| reach_first_callback (st st' : State) :
    pypy_stm_ready_atomic st = 0 ->
    pypy_stm_enter_callback_call st = Ok 1 st' -> reachable st'
| reach_op (st st' : State) (o : op) :
    reachable st -> deregisters o = false ->
    run_op o st = Ok tt st' -> reachable st'.

End Controller.

(** ** Predicates on runs *)

(** The limit after [n] consecutive aborts, each of them met when the
    transaction had consumed the whole of its limit. *)
Fixpoint simulated_aborts (n : nat) (consumed : Z) : Z :=
  match n with
  | O => consumed
  | S k => retry_limit (simulated_aborts k consumed)
  end.

(** The least consumption from which fifty consecutive aborts all
    shrink the limit. *)
Definition FIFTY_SHRINKS_FROM : Z := 216.

(** The reason the engine is given by [_pypy_stm_become_inevitable]. *)
Definition inevitable_reason (msg : option string) : string :=
  match msg with
  | None => "return from JITted function"%string
  | Some m => m
  end.

(** The mode counter and the budget agree: outside normal mode the
    budget is the unlimited sentinel. *)
Definition mode_budget_inv (st : State) : Prop :=
  pypy_stm_ready_atomic st <> 1 ->
  pypy_stm_nursery_low_fill_mark st = UNLIMITED.

(** The thread is in budgeted mode: normal, with a budget that is not
    the unlimited sentinel. *)
Definition budgeted (st : State) : Prop :=
  pypy_stm_ready_atomic st = 1 /\
  pypy_stm_nursery_low_fill_mark st <> UNLIMITED.

(** The callback keeps [mode_budget_inv], whether it returns or its
    transaction is aborted. *)
Definition callback_keeps_inv
  (callback : nat -> object_t -> Z -> State -> cb_outcome) : Prop :=
  forall n arg c st,
    mode_budget_inv st ->
    match callback n arg c st with
    | CbReturn _ st' => mode_budget_inv st'
    | CbAbort st' => mode_budget_inv st'
    end.

(** The calls to the engine at the top of a round: a commit and a
    begin when the break check says yes, none otherwise. *)
Definition cycle_events (jmpbuf_addr : jmpbuf) (should_break : bool)
  : list event :=
  if should_break
  then [Ev_stm_commit_transaction; Ev_stm_start_transaction jmpbuf_addr]
  else [].

(** The break check answers yes whenever the thread is not inside an
    atomic section (4.4, step 2). *)
Definition breaks_when_not_atomic (should_break : State -> bool) : Prop :=
  forall st, pypy_stm_ready_atomic st = 1 -> should_break st = true.

(** The engine does not move the top of the shadow stack. *)
Definition engine_keeps_roots
  (engine : list event -> event -> engine_state -> engine_state) : Prop :=
  forall history c e, shadowstack (engine history c e) = shadowstack e.

(** A right shift by [k] bits of [m0] with its round and sticky bits:
    the quotient, and the bits tell whether the shift was exact. *)
Definition shifted (m0 k : Z) (mrs : shr_record) : Prop :=
  shr_m mrs = m0 / 2 ^ k /\
  (orb (shr_r mrs) (shr_s mrs) = true -> m0 mod 2 ^ k <> 0).

(** [n] calls of [_pypy_stm_inev_state] in a row. *)
Fixpoint inev_states (NDEBUG : bool) (n : nat) : M unit :=
  match n with
  | O => ret tt
  | S k => _pypy_stm_inev_state NDEBUG ;; inev_states NDEBUG k
  end.

(** The attempt counters the callback was handed, in order. *)
Definition callback_counters (evs : list event) : list Z :=
  flat_map (fun e => match e with
                     | Ev_callback _ counter => [counter]
                     | _ => []
                     end) evs.

Definition is_commit (e : event) : bool :=
  match e with Ev_stm_commit_transaction => true | _ => false end.

Definition is_start (e : event) : bool :=
  match e with Ev_stm_start_transaction _ => true | _ => false end.

(** How many events of a history satisfy [p]. *)
Definition count_events (p : event -> bool) (evs : list event) : nat :=
  List.length (filter p evs).

Definition is_callback (e : event) : bool :=
  match e with Ev_callback _ _ => true | _ => false end.

(** A call to the engine other than a commit or a begin, and no
    invocation of a callback of [pypy_stm_perform_transaction]. *)
Definition own_call (e : event) : bool :=
  negb (is_commit e || is_start e || is_callback e).

(** The arena start and the consumption recorded at the last abort are
    not negative as a [long]. *)
Definition arena_fits (e : engine_state) : Prop :=
  0 <= _stm_nursery_start e < half_modulus /\
  0 <= last_abort__bytes_in_nursery e < half_modulus.

(** A thread in budgeted mode whose configured length is not negative
    and whose engine data fit: the budget of a transaction it begins is
    a plain sum, below the unlimited sentinel. *)
Definition steady (st : State) : Prop :=
  budgeted st /\
  arena_fits (eng st) /\
  0 <= pypy_transaction_length st < half_modulus.

(** The calls to the engine keep its data fitting. *)
Definition engine_keeps_arena
  (engine : list event -> event -> engine_state -> engine_state) : Prop :=
  forall history c e, arena_fits e -> arena_fits (engine history c e).

(** The engine resumes an aborted transaction at the checkpoint it was
    begun with. *)
Definition engine_binds_checkpoint
  (engine : list event -> event -> engine_state -> engine_state) : Prop :=
  forall history jb e,
    segment_jmpbuf_ptr (engine history (Ev_stm_start_transaction jb) e)
    = Some jb.

(** Invocation [n] of the callback returns [r] whenever it is started
    by a steady thread, and leaves the thread steady: the work may
    change the budget, the engine data and the history, as long as it is
    not inside an atomic section when it returns.  Its own calls to the
    engine, [evs], are neither commits nor begins, and it leaves the
    shadow stack as deep as it found it. *)
Definition work_returns
  (callback : nat -> object_t -> Z -> State -> cb_outcome)
  (n : nat) (r : Z) : Prop :=
  forall arg c st,
    steady st ->
    exists st' evs,
      callback n arg c st = CbReturn r st' /\
      steady st' /\
      events st' = events st ++ evs /\
      forallb own_call evs = true /\
      shadowstack (eng st') = shadowstack (eng st).

(** Invocation [n] of the callback meets a conflict whenever it is
    started by a steady thread in a transaction begun at the checkpoint
    [jmpbuf_addr]: the engine aborts the transaction and resumes at that
    checkpoint, which it leaves in place, with the shadow stack as deep
    as it was. *)
Definition work_aborts (jmpbuf_addr : jmpbuf)
  (callback : nat -> object_t -> Z -> State -> cb_outcome)
  (n : nat) : Prop :=
  forall arg c st,
    steady st ->
    jmpbuf_is_ours jmpbuf_addr st = true ->
    exists st' evs,
      callback n arg c st = CbAbort st' /\
      jmpbuf_is_ours jmpbuf_addr st' = true /\
      arena_fits (eng st') /\
      0 <= pypy_transaction_length st' < half_modulus /\
      events st' = events st ++ evs /\
      forallb own_call evs = true /\
      shadowstack (eng st') = shadowstack (eng st).

(** The engine holds no checkpoint once the transaction is the globally
    unique one. *)
Definition engine_drops_checkpoint
  (engine : list event -> event -> engine_state -> engine_state) : Prop :=
  forall history e,
    segment_jmpbuf_ptr
      (engine history (Ev_stm_become_globally_unique_transaction "for the JIT")
         e) = None.

(** The callback leaves the shadow stack as deep as it found it,
    whether it returns or its transaction is aborted (the engine then
    puts the shadow stack back). *)
Definition callback_keeps_depth
  (callback : nat -> object_t -> Z -> State -> cb_outcome) : Prop :=
  forall n arg c st,
    match callback n arg c st with
    | CbReturn _ st' => shadowstack (eng st') = shadowstack (eng st)
    | CbAbort st' => shadowstack (eng st') = shadowstack (eng st)
    end.

(** ** A thread and an engine to run the model on *)

Module Example.

(** An engine that binds the checkpoint when a transaction starts and
    drops it when the transaction commits or becomes inevitable. *)
Definition engine (history : list event) (c : event) (e : engine_state)
  : engine_state :=
  let bind_jmpbuf jb :=
    {| _stm_nursery_start := _stm_nursery_start e;
       last_abort__bytes_in_nursery := last_abort__bytes_in_nursery e;
       segment_jmpbuf_ptr := jb;
       shadowstack := shadowstack e; shadowstack_ss := shadowstack_ss e |} in
  match c with
  | Ev_stm_start_transaction jb => bind_jmpbuf (Some jb)
  | Ev_stm_commit_transaction
  | Ev_stm_start_inevitable_transaction
  | Ev_stm_become_inevitable _
  | Ev_stm_become_globally_unique_transaction _ => bind_jmpbuf None
  | _ => e
  end.

Definition NURSERY_SIZE : Z := 4194304.

Definition engine_data : engine_state :=
  {| _stm_nursery_start := 8192;
     last_abort__bytes_in_nursery := 160000;
     segment_jmpbuf_ptr := None;
     shadowstack := 0; shadowstack_ss := fun _ => 0 |}.

(** A registered thread in normal mode with the default budget. *)
Definition normal : State :=
  {| pypy_stm_ready_atomic := 1;
     pypy_stm_nursery_low_fill_mark := 408192;
     pypy_stm_nursery_low_fill_mark_saved := 0;
     pypy_transaction_length := 400000;
     eng := engine_data; events := [] |}.

(** The same thread inside an atomic section. *)
Definition atomic : State :=
  {| pypy_stm_ready_atomic := 2;
     pypy_stm_nursery_low_fill_mark := UNLIMITED;
     pypy_stm_nursery_low_fill_mark_saved := 408192;
     pypy_transaction_length := 400000;
     eng := engine_data; events := [] |}.

(** A thread that was never seen. *)
Definition unregistered : State :=
  {| pypy_stm_ready_atomic := 0;
     pypy_stm_nursery_low_fill_mark := 0;
     pypy_stm_nursery_low_fill_mark_saved := 0;
     pypy_transaction_length := 400000;
     eng := engine_data; events := [] |}.

(** A thread running a transaction whose checkpoint is at address 7,
    with one root on its shadow stack. *)
Definition running : State :=
  {| pypy_stm_ready_atomic := 1;
     pypy_stm_nursery_low_fill_mark := 408192;
     pypy_stm_nursery_low_fill_mark_saved := 0;
     pypy_transaction_length := 400000;
     eng := {| _stm_nursery_start := 8192;
               last_abort__bytes_in_nursery := 160000;
               segment_jmpbuf_ptr := Some 7;
               shadowstack := 1; shadowstack_ss := fun _ => 42 |};
     events := [] |}.

(** Modelled from the spec: [pypy_stm_should_break_transaction] is
    defined outside stmgcintf.c, in no source at hand.  The loop commits
    and begins "if the thread is not inside an atomic section" (4.4,
    step 2). *)
Definition should_break (st : State) : bool :=
  pypy_stm_ready_atomic st =? 1.

(** A unit of work that asks for a fresh round twice and then stops; the
    engine tells it to commit soon, which leaves the budget at 0. *)
Definition work (n : nat) (arg : object_t) (counter : Z) (st : State)
  : cb_outcome :=
  CbReturn (if (n <? 2)%nat then 1 else 0) (set_low_fill_mark 0 st).

(** A unit of work whose first try meets a conflict and whose second try
    stops. *)
Definition flaky (n : nat) (arg : object_t) (counter : Z) (st : State)
  : cb_outcome :=
  match n with
  | O => CbAbort st
  | _ => CbReturn 0 st
  end.

(** A unit of work that meets a conflict [k] times, the engine resuming
    at the checkpoint at address 7, and then stops. *)
Definition stubborn (k : nat) (n : nat) (arg : object_t) (counter : Z)
  (st : State) : cb_outcome :=
  if (n <? k)%nat then
    CbAbort (set_eng {| _stm_nursery_start := _stm_nursery_start (eng st);
                        last_abort__bytes_in_nursery :=
                          last_abort__bytes_in_nursery (eng st);
                        segment_jmpbuf_ptr := Some 7;
                        shadowstack := shadowstack (eng st);
                        shadowstack_ss := shadowstack_ss (eng st) |} st)
  else CbReturn 0 (set_low_fill_mark 0 st).

(** A unit of work that asks for a fresh round [k] times and then
    stops, and leaves the state of the thread alone. *)
Definition plain (k : nat) (n : nat) (arg : object_t) (counter : Z)
  (st : State) : cb_outcome :=
  CbReturn (if (n <? k)%nat then 1 else 0) st.

(** A unit of work that meets a conflict [k] times and then stops, and
    leaves the state of the thread alone. *)
Definition conflict (k : nat) (n : nat) (arg : object_t) (counter : Z)
  (st : State) : cb_outcome :=
  if (n <? k)%nat then CbAbort st else CbReturn 0 st.

(** A unit of work that asks the engine to make its transaction
    inevitable, for a fresh round [k] times, and then stops. *)
Definition chatty (k : nat) (n : nat) (arg : object_t) (counter : Z)
  (st : State) : cb_outcome :=
  let c := Ev_stm_become_inevitable "work" in
  CbReturn (if (n <? k)%nat then 1 else 0)
    {| pypy_stm_ready_atomic := pypy_stm_ready_atomic st;
       pypy_stm_nursery_low_fill_mark := pypy_stm_nursery_low_fill_mark st;
       pypy_stm_nursery_low_fill_mark_saved :=
         pypy_stm_nursery_low_fill_mark_saved st;
       pypy_transaction_length := pypy_transaction_length st;
       eng := engine (events st) c (eng st);
       events := events st ++ [c] |}.

(** A unit of work that does nothing and stops. *)
Definition idle (n : nat) (arg : object_t) (counter : Z) (st : State)
  : cb_outcome :=
  CbReturn 0 st.

End Example.

(** * Properties *)

(** ** Machine integers *)

Ltac int64_unfold :=
  unfold is_long, is_uintptr, to_long, to_uintptr, UNLIMITED,
    half_modulus, modulus in *;
  change (2 ^ 64) with 18446744073709551616 in *;
  change (2 ^ 63) with 9223372036854775808 in *.

Lemma to_long_id (z : Z) : is_long z -> to_long z = z.
Proof. intros H. int64_unfold. rewrite Z.mod_small; lia. Qed.

Lemma to_uintptr_id (z : Z) : is_uintptr z -> to_uintptr z = z.
Proof. intros H. int64_unfold. rewrite Z.mod_small; lia. Qed.

Lemma to_long_is_long (z : Z) : is_long (to_long z).
Proof.
  int64_unfold.
  pose proof (Z.mod_pos_bound (z + 9223372036854775808) 18446744073709551616).
  lia.
Qed.

Lemma to_uintptr_is_uintptr (z : Z) : is_uintptr (to_uintptr z).
Proof.
  int64_unfold. pose proof (Z.mod_pos_bound z 18446744073709551616). lia.
Qed.

Lemma shiftr_4_div (z : Z) : Z.shiftr z 4 = z / 16.
Proof. rewrite Z.shiftr_div_pow2 by lia. reflexivity. Qed.

Lemma shiftr_2_div (z : Z) : Z.shiftr z 2 = z / 4.
Proof. rewrite Z.shiftr_div_pow2 by lia. reflexivity. Qed.

(** ** The budget of a fresh transaction *)

Lemma retry_limit_exact (limit : Z) :
  is_long limit -> retry_limit limit = limit - Z.shiftr limit 4.
Proof.
  intros H. unfold retry_limit. rewrite shiftr_4_div.
  assert (H16 : is_long (limit / 16)).
  { int64_unfold. Z.to_euclidean_division_equations. lia. }
  rewrite (to_long_id _ H16). apply to_long_id.
  int64_unfold. Z.to_euclidean_division_equations. lia.
Qed.

(** C1: the limit of the first try is the configured length, the limit
    of a retry is the consumption at the last abort less its sixteenth
    ([>> 4]), and the low fill mark is set to the arena start plus the
    limit (an [uintptr_t] sum; the plain sum when that fits). *)
Theorem C1_initialize_nursery_low_fill_mark (v_counter : Z) (st : State) :
  wf_state st ->
  let limit := nursery_limit v_counter st in
  let last := last_abort__bytes_in_nursery (eng st) in
  let st' := _pypy_stm_initialize_nursery_low_fill_mark v_counter st in
  (v_counter = 0 -> limit = pypy_transaction_length st) /\
  (0 < v_counter -> limit = last - Z.shiftr last 4) /\
  pypy_stm_nursery_low_fill_mark st'
    = to_uintptr (_stm_nursery_start (eng st) + limit) /\
  (is_uintptr (_stm_nursery_start (eng st) + limit) ->
   pypy_stm_nursery_low_fill_mark st' = _stm_nursery_start (eng st) + limit).
Proof.
  intros Hwf limit last st'. subst limit last st'. repeat split.
  - intros ->. reflexivity.
  - intros Hpos. unfold nursery_limit.
    destruct (Z.eqb_spec v_counter 0) as [E | _]; [lia |].
    apply retry_limit_exact, Hwf.
  - intros Hfit. simpl. apply to_uintptr_id, Hfit.
Qed.

(** ** The shrink of the limit on consecutive aborts *)

Lemma retry_limit_div (l : Z) : is_long l -> retry_limit l = l - l / 16.
Proof. intros H. rewrite retry_limit_exact, shiftr_4_div; trivial. Qed.

Lemma retry_limit_decreases (l : Z) :
  is_long l -> 16 <= l -> retry_limit l < l.
Proof.
  intros H H16. rewrite retry_limit_div by trivial.
  Z.to_euclidean_division_equations. lia.
Qed.

Lemma retry_limit_positive (l : Z) :
  is_long l -> 0 < l -> 0 < retry_limit l.
Proof.
  intros H H0. rewrite retry_limit_div by trivial.
  Z.to_euclidean_division_equations. lia.
Qed.

Lemma retry_limit_small (l : Z) : 0 <= l < 16 -> retry_limit l = l.
Proof.
  intros H. rewrite retry_limit_div by (int64_unfold; lia).
  rewrite Z.div_small; lia.
Qed.

Lemma retry_limit_le (l : Z) : is_long l -> 0 <= l -> retry_limit l <= l.
Proof.
  intros H H0. rewrite retry_limit_div by trivial.
  Z.to_euclidean_division_equations. lia.
Qed.

Lemma retry_limit_mono (a b : Z) :
  is_long a -> is_long b -> a <= b -> retry_limit a <= retry_limit b.
Proof.
  intros Ha Hb Hab. rewrite !retry_limit_div by trivial.
  Z.to_euclidean_division_equations. lia.
Qed.

Lemma simulated_aborts_range (n : nat) (l : Z) :
  is_long l -> 0 <= l -> 0 <= simulated_aborts n l <= l.
Proof.
  intros Hl H0. induction n as [| n IH]; simpl; [lia |].
  assert (Hr : is_long (simulated_aborts n l)) by (int64_unfold; lia).
  pose proof (retry_limit_le _ Hr (proj1 IH)).
  rewrite retry_limit_div by trivial.
  rewrite retry_limit_div in H by trivial.
  split; [| lia]. Z.to_euclidean_division_equations. lia.
Qed.

Lemma simulated_aborts_mono (n : nat) (a b : Z) :
  is_long a -> is_long b -> 0 <= a <= b ->
  simulated_aborts n a <= simulated_aborts n b.
Proof.
  intros Ha Hb Hab. induction n as [| n IH]; simpl; [lia |].
  pose proof (simulated_aborts_range n a Ha (proj1 Hab)).
  pose proof (simulated_aborts_range n b Hb ltac:(lia)).
  apply retry_limit_mono; trivial; int64_unfold; lia.
Qed.

Lemma simulated_aborts_antitone (n m : nat) (l : Z) :
  is_long l -> 0 <= l -> (n <= m)%nat ->
  simulated_aborts m l <= simulated_aborts n l.
Proof.
  intros Hl H0 Hnm. induction Hnm as [| m Hnm IH]; [lia |].
  simpl. pose proof (simulated_aborts_range m l Hl H0).
  assert (Hr : is_long (simulated_aborts m l)) by (int64_unfold; lia).
  pose proof (retry_limit_le _ Hr (proj1 H)). lia.
Qed.

(** C2, as amended: from a consumption of at least 216 bytes, each of
    fifty consecutive simulated aborts strictly decreases the limit, and
    the limit stays positive. *)
Theorem C2_fifty_aborts_shrink (consumed : Z) (k : nat) :
  is_long consumed -> FIFTY_SHRINKS_FROM <= consumed -> (k < 50)%nat ->
  simulated_aborts (S k) consumed < simulated_aborts k consumed /\
  0 < simulated_aborts (S k) consumed.
Proof.
  intros Hl HT Hk. unfold FIFTY_SHRINKS_FROM in HT.
  assert (H216 : is_long 216) by (int64_unfold; lia).
  pose proof (simulated_aborts_mono k 216 consumed H216 Hl ltac:(lia)) as Hm.
  pose proof (simulated_aborts_antitone k 49 216 H216 ltac:(lia) ltac:(lia))
    as Ha.
  assert (H49 : simulated_aborts 49 216 = 16) by (vm_compute; reflexivity).
  pose proof (simulated_aborts_range k consumed Hl ltac:(lia)) as Hr.
  assert (Hk' : is_long (simulated_aborts k consumed))
    by (int64_unfold; lia).
  simpl. split.
  - apply retry_limit_decreases; trivial; lia.
  - apply retry_limit_positive; trivial; lia.
Qed.

(** ** The commit-soon callback *)

(** C4: with a budget that is not the unlimited sentinel and is positive
    (as the [long] the code reads it as), the budget becomes 0; with the
    unlimited sentinel as budget, the budget stays the sentinel and the
    saved budget becomes 0 when it is positive.  Nothing else changes,
    and the engine is not called. *)
Theorem C4_stmcb_commit_soon (st : State) :
  let st' := stmcb_commit_soon st in
  (pypy_stm_nursery_low_fill_mark st <> UNLIMITED ->
   0 < to_long (pypy_stm_nursery_low_fill_mark st) ->
   pypy_stm_nursery_low_fill_mark st' = 0 /\
   pypy_stm_nursery_low_fill_mark_saved st'
     = pypy_stm_nursery_low_fill_mark_saved st) /\
  (pypy_stm_nursery_low_fill_mark st = UNLIMITED ->
   pypy_stm_nursery_low_fill_mark st' = UNLIMITED /\
   (0 < to_long (pypy_stm_nursery_low_fill_mark_saved st) ->
    pypy_stm_nursery_low_fill_mark_saved st' = 0) /\
   (to_long (pypy_stm_nursery_low_fill_mark_saved st) <= 0 ->
    pypy_stm_nursery_low_fill_mark_saved st'
      = pypy_stm_nursery_low_fill_mark_saved st)) /\
  pypy_stm_ready_atomic st' = pypy_stm_ready_atomic st /\
  pypy_transaction_length st' = pypy_transaction_length st /\
  eng st' = eng st /\ events st' = events st.
Proof.
  unfold stmcb_commit_soon.
  destruct (Z.eqb_spec (pypy_stm_nursery_low_fill_mark st) UNLIMITED)
    as [E | E].
  - destruct (Z.gtb_spec (to_long (pypy_stm_nursery_low_fill_mark_saved st)) 0);
      simpl; repeat split; trivial; try contradiction; lia.
  - destruct (Z.gtb_spec (to_long (pypy_stm_nursery_low_fill_mark st)) 0);
      simpl; repeat split; trivial; try contradiction; lia.
Qed.

(** X2: after [stmcb_commit_soon] no positive budget is left: the active
    budget is the unlimited sentinel and the saved one is not positive,
    or the active budget is not positive; a second call changes
    nothing. *)
Theorem stmcb_commit_soon_settles (st : State) :
  let st' := stmcb_commit_soon st in
  (pypy_stm_nursery_low_fill_mark st' = UNLIMITED /\
   to_long (pypy_stm_nursery_low_fill_mark_saved st') <= 0
   \/ pypy_stm_nursery_low_fill_mark st' <> UNLIMITED /\
      to_long (pypy_stm_nursery_low_fill_mark st') <= 0) /\
  stmcb_commit_soon st' = st'.
Proof.
  assert (H0 : (to_long 0 >? 0) = false) by reflexivity.
  assert (HU : (0 =? UNLIMITED) = false) by reflexivity.
  assert (L0 : to_long 0 <= 0) by (vm_compute; discriminate).
  assert (NU : 0 <> UNLIMITED) by (vm_compute; discriminate).
  unfold stmcb_commit_soon.
  destruct (Z.eqb_spec (pypy_stm_nursery_low_fill_mark st) UNLIMITED)
    as [E | E].
  - destruct (Z.gtb_spec (to_long (pypy_stm_nursery_low_fill_mark_saved st)) 0)
      as [G | G]; cbn [pypy_stm_nursery_low_fill_mark
                       pypy_stm_nursery_low_fill_mark_saved
                       set_low_fill_mark_saved].
    + rewrite E, Z.eqb_refl, H0. split; [left; split; trivial | reflexivity].
    + rewrite E, Z.eqb_refl.
      destruct (Z.gtb_spec
                  (to_long (pypy_stm_nursery_low_fill_mark_saved st)) 0);
        [lia |].
      split; [left; split; trivial | reflexivity].
  - destruct (Z.gtb_spec (to_long (pypy_stm_nursery_low_fill_mark st)) 0)
      as [G | G]; cbn [pypy_stm_nursery_low_fill_mark set_low_fill_mark].
    + rewrite HU, H0. split; [right; split; trivial | reflexivity].
    + destruct (Z.eqb_spec (pypy_stm_nursery_low_fill_mark st) UNLIMITED);
        [contradiction |].
      destruct (Z.gtb_spec (to_long (pypy_stm_nursery_low_fill_mark st)) 0);
        [lia |].
      split; [right; split; trivial | reflexivity].
Qed.

(** X1: the budget of a retry, whatever the non-zero attempt counter (a
    negative one too): with a consumption [last >= 0] at the abort, it
    is the arena start plus [last - last / 16]; it lies between the
    arena start and the mark the aborted transaction had reached, and
    strictly below that mark once the consumption is 16 bytes or
    more. *)
Theorem retry_budget_within_consumption (v_counter : Z) (st : State) :
  wf_state st ->
  v_counter <> 0 ->
  let start := _stm_nursery_start (eng st) in
  let last := last_abort__bytes_in_nursery (eng st) in
  let st' := _pypy_stm_initialize_nursery_low_fill_mark v_counter st in
  0 <= last ->
  start + last < modulus ->
  pypy_stm_nursery_low_fill_mark st' = start + (last - last / 16) /\
  start <= pypy_stm_nursery_low_fill_mark st' <= start + last /\
  (16 <= last -> pypy_stm_nursery_low_fill_mark st' < start + last).
Proof.
  intros Hwf Hv start last st' Hlast Hfit. subst start last st'.
  destruct Hwf as [_ _ _ _ Hs Hl].
  unfold _pypy_stm_initialize_nursery_low_fill_mark, nursery_limit.
  cbn [pypy_stm_nursery_low_fill_mark set_low_fill_mark].
  destruct (Z.eqb_spec v_counter 0) as [E | _]; [contradiction |].
  rewrite retry_limit_div by exact Hl.
  set (start := _stm_nursery_start (eng st)) in *.
  set (last := last_abort__bytes_in_nursery (eng st)) in *.
  assert (Hq : 0 <= last / 16 <= last)
    by (Z.to_euclidean_division_equations; lia).
  assert (Hq16 : 16 <= last -> 1 <= last / 16)
    by (intros; Z.to_euclidean_division_equations; lia).
  rewrite to_uintptr_id by (int64_unfold; lia).
  repeat split; lia.
Qed.

(** ** Escalation *)

(** With the budget at or above the arena start (and below 2^63), the
    shrink leaves a quarter of the margin. *)
Lemma inev_shrink_quarter (start budget : Z) :
  is_uintptr start -> start <= budget < half_modulus ->
  to_uintptr (inev_shrink start (to_long budget))
    = start + Z.shiftr (budget - start) 2 /\
  to_uintptr (inev_shrink start (to_long budget)) - start
    = (budget - start) / 4.
Proof.
  intros Hs Hb. unfold inev_shrink. rewrite shiftr_2_div.
  assert (Hbl : is_long budget) by (int64_unfold; lia).
  assert (Hsl : is_long start) by (int64_unfold; lia).
  rewrite (to_long_id _ Hbl), (to_long_id _ Hsl).
  assert (Hd : is_long (budget - start)) by (int64_unfold; lia).
  rewrite (to_long_id _ Hd).
  assert (Hq : 0 <= (budget - start) / 4 <= budget - start).
  { Z.to_euclidean_division_equations. lia. }
  assert (Hr : is_long (start + (budget - start) / 4))
    by (int64_unfold; lia).
  rewrite (to_long_id _ Hr).
  rewrite to_uintptr_id by (int64_unfold; lia).
  rewrite shiftr_2_div. split; lia.
Qed.

(** ** Doubles *)

Lemma digits2_pos_size (m : positive) : digits2_pos m = Pos.size m.
Proof. induction m; simpl; congruence. Qed.

Lemma digits2_pos_gt (m : positive) : Zpos m < 2 ^ Zpos (digits2_pos m).
Proof.
  rewrite digits2_pos_size. pose proof (Pos.size_gt m) as H.
  apply Pos2Z.pos_lt_pos in H. rewrite Pos2Z.inj_pow in H. exact H.
Qed.

Lemma digits2_pos_le (m : positive) : 2 ^ Zpos (digits2_pos m) <= 2 * Zpos m.
Proof.
  rewrite digits2_pos_size. pose proof (Pos.size_le m) as H.
  apply Pos2Z.pos_le_pos in H. rewrite Pos2Z.inj_pow in H. exact H.
Qed.

Lemma Zdigits2_bound (z k : Z) : 0 <= z < 2 ^ k -> 0 <= k -> 0 <= Zdigits2 z <= k.
Proof.
  intros Hz Hk. destruct z as [| m | m]; simpl; [lia | | lia].
  split; [lia |].
  pose proof (digits2_pos_le m) as H.
  destruct (Z_le_gt_dec (Zpos (digits2_pos m)) k) as [L | G]; [exact L | exfalso].
  assert (2 ^ (k + 1) <= 2 ^ Zpos (digits2_pos m)) by (apply Z.pow_le_mono_r; lia).
  rewrite Z.pow_add_r in H0 by lia. lia.
Qed.

Lemma shifted_0 (m0 : Z) : shifted m0 0 (Build_shr_record m0 false false).
Proof. split; simpl; [rewrite Z.div_1_r; trivial | discriminate]. Qed.

Lemma shr_1_m (m : Z) (r s : bool) :
  0 <= m ->
  shr_m (shr_1 (Build_shr_record m r s)) = m / 2 /\
  shr_r (shr_1 (Build_shr_record m r s)) = Z.odd m /\
  shr_s (shr_1 (Build_shr_record m r s)) = orb r s.
Proof.
  intros Hm. destruct m as [| [p | p |] |]; simpl; try lia; repeat split.
  - rewrite Pos2Z.inj_xI. Z.to_euclidean_division_equations. lia.
  - rewrite Pos2Z.inj_xO. Z.to_euclidean_division_equations. lia.
Qed.

Lemma shifted_step (m0 k : Z) (mrs : shr_record) :
  0 <= m0 -> 0 <= k -> shifted m0 k mrs -> shifted m0 (k + 1) (shr_1 mrs).
Proof.
  intros H0 Hk [Hm Hrs]. destruct mrs as [m r s]. simpl in Hm, Hrs.
  assert (Hm0 : 0 <= m) by (subst m; apply Z.div_pos; lia).
  destruct (shr_1_m m r s Hm0) as (E1 & E2 & E3).
  assert (Hp : 0 < 2 ^ k) by (apply Z.pow_pos_nonneg; lia).
  assert (Hpk : 2 ^ (k + 1) = 2 ^ k * 2) by (rewrite Z.pow_add_r; lia).
  split.
  - rewrite E1, Hm, Hpk, Z.div_div by lia. reflexivity.
  - rewrite E2, E3, Hpk. intros Hor Hz.
    apply orb_true_iff in Hor. destruct Hor as [Hodd | Hor].
    + rewrite Hm in Hodd.
      rewrite Z.odd_spec in Hodd. destruct Hodd as [q Hq].
      apply Z.mod_divide in Hz; [| lia]. destruct Hz as [c Hc].
      replace (c * (2 ^ k * 2)) with (2 * c * 2 ^ k) in Hc by lia.
      rewrite Hc, Z.div_mul in Hq by lia. lia.
    + apply Hrs in Hor. apply Hor.
      apply Z.mod_divide in Hz; [| lia]. destruct Hz as [c Hc].
      replace (c * (2 ^ k * 2)) with (2 * c * 2 ^ k) in Hc by lia.
      rewrite Hc. apply Z.mod_mul. lia.
Qed.

Lemma shifted_iter (p : positive) (m0 k : Z) (mrs : shr_record) :
  0 <= m0 -> 0 <= k -> shifted m0 k mrs ->
  shifted m0 (k + Zpos p) (iter_pos shr_1 p mrs).
Proof.
  intros H0. revert k mrs.
  induction p as [p IH | p IH |]; intros k mrs Hk H; simpl.
  - replace (k + Z.pos p~1) with (k + 1 + Z.pos p + Z.pos p) by lia.
    apply IH; [lia |]. apply IH; [lia |]. apply shifted_step; trivial.
  - replace (k + Z.pos p~0) with (k + Z.pos p + Z.pos p) by lia.
    apply IH; [lia |]. apply IH; trivial.
  - apply shifted_step; trivial.
Qed.

(** [shr] from an exact location: a floor division by [2 ^ max n 0]. *)
Lemma shr_exact (m0 e n : Z) :
  0 <= m0 ->
  exists mrs, shr (shr_record_of_loc m0 loc_Exact) e n = (mrs, e + Z.max n 0)
              /\ shifted m0 (Z.max n 0) mrs.
Proof.
  intros H0. destruct n as [| p | p]; simpl.
  - eexists; split; [rewrite Z.add_0_r; reflexivity | apply shifted_0].
  - eexists; split; [reflexivity |].
    replace (Z.max (Z.pos p) 0) with (0 + Z.pos p) by lia.
    apply shifted_iter; trivial; [lia | apply shifted_0].
  - eexists; split; [rewrite Z.add_0_r; reflexivity | apply shifted_0].
Qed.

Lemma round_nearest_even_shifted (m0 k K : Z) (mrs : shr_record) :
  0 <= m0 -> 0 <= k -> shifted m0 k mrs -> m0 <= K * 2 ^ k ->
  0 <= round_nearest_even (shr_m mrs) (loc_of_shr_record mrs) <= K.
Proof.
  intros H0 Hk [Hm Hrs] HK.
  assert (Hp : 0 < 2 ^ k) by (apply Z.pow_pos_nonneg; lia).
  assert (Hfloor : 0 <= m0 / 2 ^ k <= K).
  { split; [apply Z.div_pos; lia |].
    apply Z.div_le_upper_bound; lia. }
  assert (Hup : orb (shr_r mrs) (shr_s mrs) = true -> m0 / 2 ^ k + 1 <= K).
  { intros Hor. apply Hrs in Hor.
    destruct (Z_le_gt_dec (m0 / 2 ^ k + 1) K) as [L | G]; [exact L | exfalso].
    assert (EK : m0 / 2 ^ k = K) by lia.
    pose proof (Z.div_mod m0 (2 ^ k) ltac:(lia)) as Hdm.
    pose proof (Z.mod_pos_bound m0 (2 ^ k) Hp) as Hb.
    rewrite EK in Hdm. lia. }
  destruct mrs as [m r s].
  cbn [shr_m shr_r shr_s loc_of_shr_record] in *. subst m.
  destruct r, s; cbn [round_nearest_even orb] in *; try lia;
    specialize (Hup eq_refl);
    try match goal with |- context [if ?b then _ else _] => destruct b end;
    lia.
Qed.

Lemma shifted_floor (m0 k K j : Z) (mrs : shr_record) :
  0 <= m0 -> 0 <= k -> 0 <= j -> shifted m0 k mrs -> m0 <= K * 2 ^ (j + k) ->
  0 <= shr_m mrs <= K * 2 ^ j.
Proof.
  intros H0 Hk Hj [Hm _] HK. rewrite Hm.
  assert (Hp : 0 < 2 ^ k) by (apply Z.pow_pos_nonneg; lia).
  split; [apply Z.div_pos; lia |].
  apply Z.div_le_upper_bound; [lia |].
  rewrite Z.pow_add_r in HK by lia. lia.
Qed.

(** Rounding to nearest does not cross an integer: the rounding of
    [m * 2 ^ e], at most the integer [V], is at most [V]. *)
Lemma binary_round_aux_le (m : positive) (e V : Z) :
  0 < V < 2 ^ 53 -> e <= 0 -> Zpos m <= V * 2 ^ (- e) ->
  binary_round_aux Double.prec Double.emax false (Zpos m) e loc_Exact
    = S754_zero false \/
  exists m2 e2,
    binary_round_aux Double.prec Double.emax false (Zpos m) e loc_Exact
      = S754_finite false m2 e2 /\
    e2 <= 0 /\ Zpos m2 <= V * 2 ^ (- e2).
Proof.
  intros HV He Hm. unfold binary_round_aux, shr_fexp.
  set (n := fexp Double.prec Double.emax (Zdigits2 (Z.pos m) + e) - e).
  destruct (shr_exact (Zpos m) e n ltac:(lia)) as (mrs & -> & Hs).
  set (k := Z.max n 0) in *.
  assert (Hk : 0 <= k) by lia.
  assert (Hpe : 0 < 2 ^ (- e)) by (apply Z.pow_pos_nonneg; lia).
  assert (Hdig : Zdigits2 (Zpos m) + e <= 53).
  { assert (Zpos m < 2 ^ (53 - e)).
    { replace (53 - e) with (53 + - e) by lia. rewrite Z.pow_add_r by lia. nia. }
    pose proof (Zdigits2_bound (Zpos m) (53 - e) ltac:(lia) ltac:(lia)). lia. }
  assert (He1 : e + k <= 0).
  { subst k n. unfold fexp, emin, Double.prec, Double.emax in *. lia. }
  assert (Hr : 0 <= round_nearest_even (shr_m mrs) (loc_of_shr_record mrs)
               <= V * 2 ^ (- (e + k))).
  { apply (round_nearest_even_shifted (Zpos m) k); trivial; [lia |].
    rewrite <- Z.mul_assoc, <- Z.pow_add_r by lia.
    replace (- (e + k) + k) with (- e) by lia. trivial. }
  set (m1 := round_nearest_even (shr_m mrs) (loc_of_shr_record mrs)) in *.
  set (n2 := fexp Double.prec Double.emax (Zdigits2 m1 + (e + k)) - (e + k)).
  destruct (shr_exact m1 (e + k) n2 ltac:(lia)) as (mrs2 & -> & Hs2).
  set (k2 := Z.max n2 0) in *.
  assert (Hk2 : 0 <= k2) by lia.
  assert (Hpe1 : 0 < 2 ^ (- (e + k))) by (apply Z.pow_pos_nonneg; lia).
  assert (Hdig1 : Zdigits2 m1 + (e + k) <= 53).
  { assert (m1 < 2 ^ (53 - (e + k))).
    { replace (53 - (e + k)) with (53 + - (e + k)) by lia.
      rewrite Z.pow_add_r by lia. nia. }
    pose proof (Zdigits2_bound m1 (53 - (e + k)) ltac:(lia) ltac:(lia)). lia. }
  assert (He2 : e + k + k2 <= 0).
  { subst k2 n2. unfold fexp, emin, Double.prec, Double.emax in *. lia. }
  assert (Hf : 0 <= shr_m mrs2 <= V * 2 ^ (- (e + k + k2))).
  { apply (shifted_floor m1 k2 V (- (e + k + k2))); trivial; try lia.
    replace (- (e + k + k2) + k2) with (- (e + k)) by lia. lia. }
  destruct (shr_m mrs2) as [| m2 | m2]; [left; reflexivity | right | lia].
  exists m2, (e + k + k2).
  replace (e + k + k2 <=? Double.emax - Double.prec) with true
    by (symmetry; apply Z.leb_le; unfold Double.emax, Double.prec; lia).
  repeat split; trivial; lia.
Qed.

(** A valid double in [[0, 1]]. *)
Lemma fraction_at_most_one (s : bool) (m : positive) (e : Z) :
  Double.valid (S754_finite s m e) ->
  Double.leb Double.zero (S754_finite s m e) = true ->
  Double.leb (S754_finite s m e) Double.one = true ->
  s = false /\ e <= -52 /\ Zpos m <= 2 ^ (- e).
Proof.
  unfold Double.valid, Double.leb, Double.zero. intros Hv H0 H1.
  destruct s; [discriminate H0 |]. split; [reflexivity |].
  change Double.one with (S754_finite false 4503599627370496 (-52)) in H1.
  unfold SFleb, SFcompare in H1.
  cbn [valid_binary] in Hv. unfold bounded, canonical_mantissa in Hv.
  apply andb_true_iff in Hv. destruct Hv as [Hc _].
  apply Z.eqb_eq in Hc.
  pose proof (digits2_pos_gt m) as Hd.
  destruct (Z.compare_spec e (-52)) as [E | L | G]; [| | discriminate H1].
  - subst e. split; [lia |].
    rewrite Pos.compare_cont_spec in H1. cbn [Pos.switch_Eq] in H1.
    destruct (Pos.compare_spec m 4503599627370496) as [E | L | G];
      [| | discriminate H1].
    + subst m. cbn. lia.
    + apply Pos2Z.pos_lt_pos in L. cbn. lia.
  - split; [lia |].
    assert (Hdig : Zpos (digits2_pos m) <= 53).
    { unfold fexp, emin, Double.prec, Double.emax in Hc. lia. }
    assert (2 ^ Zpos (digits2_pos m) <= 2 ^ 53)
      by (apply Z.pow_le_mono_r; lia).
    assert (2 ^ 53 <= 2 ^ (- e)) by (apply Z.pow_le_mono_r; lia).
    lia.
Qed.

(** Line 68: [(long)(LOW_FILL_MARK * fraction)] for such a fraction. *)
Lemma low_fill_mark_of_fraction (fraction : Double.double) :
  Double.valid fraction ->
  Double.leb Double.zero fraction = true ->
  Double.leb fraction Double.one = true ->
  0 <= Double.to_long (Double.mul (Double.of_int LOW_FILL_MARK) fraction)
    <= LOW_FILL_MARK.
Proof.
  intros Hv H0 H1.
  change (Double.of_int LOW_FILL_MARK)
    with (S754_finite false 6871947673600000 (-34)).
  unfold LOW_FILL_MARK.
  destruct fraction as [s | s | | s m e].
  - cbn. lia.
  - destruct s; discriminate.
  - discriminate.
  - destruct (fraction_at_most_one s m e Hv H0 H1) as (-> & He & Hm).
    unfold Double.mul. cbn [SFmul xorb].
    destruct (binary_round_aux_le (6871947673600000 * m) (-34 + e) 400000)
      as [-> | (m2 & e2 & -> & He2 & Hm2)].
    + lia.
    + lia.
    + replace (- (-34 + e)) with (34 + - e) by lia.
      rewrite Z.pow_add_r by lia.
      rewrite Pos2Z.inj_mul.
      change (2 ^ 34) with 17179869184.
      assert (0 < 2 ^ (- e)) by (apply Z.pow_pos_nonneg; lia). nia.
    + cbn. lia.
    + unfold Double.to_long.
      rewrite Z.shiftl_div_pow2 by lia.
      assert (Hp : 0 < 2 ^ (- e2)) by (apply Z.pow_pos_nonneg; lia).
      assert (Hq : 0 <= Zpos m2 / 2 ^ (- e2) <= 400000).
      { split; [apply Z.div_pos; lia |].
        apply Z.div_le_upper_bound; lia. }
      replace ((- half_modulus <=? Zpos m2 / 2 ^ (- e2))
               && (Zpos m2 / 2 ^ (- e2) <? half_modulus)) with true; [lia |].
      symmetry. apply andb_true_iff. split.
      * apply Z.leb_le. int64_unfold. lia.
      * apply Z.ltb_lt. int64_unfold. lia.
Qed.

Section ControllerProperties.

Variable NDEBUG : bool.
Variable NURSERY_SIZE : Z.
Variable engine : list event -> event -> engine_state -> engine_state.

Ltac run :=
  unfold bind, gets, modify, ret, assert, call_engine; simpl.

Lemma _pypy_stm_inev_state_normal (st : State) :
  pypy_stm_ready_atomic st = 1 ->
  _pypy_stm_inev_state NDEBUG st
  = Ok tt (set_low_fill_mark
             (to_uintptr (inev_shrink (_stm_nursery_start (eng st))
                            (to_long (pypy_stm_nursery_low_fill_mark st)))) st).
Proof.
  intros H. unfold _pypy_stm_inev_state. run. rewrite H. reflexivity.
Qed.

Lemma _pypy_stm_inev_state_atomic (st : State) :
  pypy_stm_ready_atomic st <> 1 ->
  NDEBUG = true \/ pypy_stm_nursery_low_fill_mark st = UNLIMITED ->
  _pypy_stm_inev_state NDEBUG st
  = Ok tt (set_low_fill_mark_saved
             (to_uintptr (inev_shrink (_stm_nursery_start (eng st))
                (to_long (pypy_stm_nursery_low_fill_mark_saved st)))) st).
Proof.
  intros H Ha. unfold _pypy_stm_inev_state. run.
  destruct (Z.eqb_spec (pypy_stm_ready_atomic st) 1) as [E | _]; [lia |].
  destruct Ha as [-> | ->]; [reflexivity |].
  rewrite Z.eqb_refl, orb_true_r. reflexivity.
Qed.

Lemma _pypy_stm_inev_state_fails (st : State) :
  NDEBUG = false -> pypy_stm_ready_atomic st <> 1 ->
  pypy_stm_nursery_low_fill_mark st <> UNLIMITED ->
  _pypy_stm_inev_state NDEBUG st = AssertFailed 253.
Proof.
  intros -> H Hm. unfold _pypy_stm_inev_state. run.
  destruct (Z.eqb_spec (pypy_stm_ready_atomic st) 1) as [E | _]; [lia |].
  destruct (Z.eqb_spec (pypy_stm_nursery_low_fill_mark st) UNLIMITED);
    [contradiction | reflexivity].
Qed.

(** [_pypy_stm_become_inevitable]: the shrink, then the call. *)
Lemma become_inevitable_shrinks_then_calls (msg : option string)
  (st : State) :
  NDEBUG = true \/ pypy_stm_ready_atomic st = 1
    \/ pypy_stm_nursery_low_fill_mark st = UNLIMITED ->
  let start := _stm_nursery_start (eng st) in
  let shrunk budget := to_uintptr (inev_shrink start (to_long budget)) in
  exists st1 st2,
    _pypy_stm_inev_state NDEBUG st = Ok tt st1 /\
    call_engine engine (Ev_stm_become_inevitable (inevitable_reason msg)) st1
      = Ok tt st2 /\
    _pypy_stm_become_inevitable NDEBUG engine msg st = Ok tt st2 /\
    (pypy_stm_ready_atomic st = 1 ->
     pypy_stm_nursery_low_fill_mark st2
       = shrunk (pypy_stm_nursery_low_fill_mark st) /\
     pypy_stm_nursery_low_fill_mark_saved st2
       = pypy_stm_nursery_low_fill_mark_saved st) /\
    (pypy_stm_ready_atomic st <> 1 ->
     pypy_stm_nursery_low_fill_mark_saved st2
       = shrunk (pypy_stm_nursery_low_fill_mark_saved st) /\
     pypy_stm_nursery_low_fill_mark st2 = pypy_stm_nursery_low_fill_mark st) /\
    (forall budget, is_uintptr start -> start <= budget < half_modulus ->
     shrunk budget = start + Z.shiftr (budget - start) 2 /\
     shrunk budget - start = (budget - start) / 4) /\
    pypy_stm_ready_atomic st2 = pypy_stm_ready_atomic st /\
    events st1 = events st /\
    events st2
      = events st ++ [Ev_stm_become_inevitable (inevitable_reason msg)].
Proof.
  intros Hassert start shrunk.
  destruct (Z.eq_dec (pypy_stm_ready_atomic st) 1) as [E | E].
  - eexists _, _. split; [apply _pypy_stm_inev_state_normal, E |].
    split; [reflexivity |].
    split.
    { unfold _pypy_stm_become_inevitable, bind.
      rewrite _pypy_stm_inev_state_normal by trivial.
      destruct msg; reflexivity. }
    simpl. repeat split; trivial; try contradiction;
      apply inev_shrink_quarter; trivial.
  - assert (Ha : NDEBUG = true
                 \/ pypy_stm_nursery_low_fill_mark st = UNLIMITED)
      by (destruct Hassert as [? | [? | ?]]; [left | contradiction | right];
          trivial).
    eexists _, _. split; [apply _pypy_stm_inev_state_atomic; trivial |].
    split; [reflexivity |].
    split.
    { unfold _pypy_stm_become_inevitable, bind.
      rewrite _pypy_stm_inev_state_atomic by trivial.
      destruct msg; reflexivity. }
    simpl. repeat split; trivial; try contradiction;
      apply inev_shrink_quarter; trivial.
Qed.

(** C5: the escalation first shrinks the budget, the active one in
    normal mode (mode counter 1) and the saved one otherwise, to the
    arena start plus [(budget - arena start) >> 2], a quarter of the
    margin; only then is the engine asked to become inevitable, with
    the reason given.  (In a debug build the assertion of line 253
    requires the unlimited sentinel outside normal mode.) *)
Theorem C5_become_inevitable (msg : option string) (st : State) :
  NDEBUG = true \/ pypy_stm_ready_atomic st = 1
    \/ pypy_stm_nursery_low_fill_mark st = UNLIMITED ->
  let start := _stm_nursery_start (eng st) in
  let shrunk budget := to_uintptr (inev_shrink start (to_long budget)) in
  exists st1 st2,
    _pypy_stm_inev_state NDEBUG st = Ok tt st1 /\
    call_engine engine (Ev_stm_become_inevitable (inevitable_reason msg)) st1
      = Ok tt st2 /\
    _pypy_stm_become_inevitable NDEBUG engine msg st = Ok tt st2 /\
    (pypy_stm_ready_atomic st = 1 ->
     pypy_stm_nursery_low_fill_mark st2
       = shrunk (pypy_stm_nursery_low_fill_mark st) /\
     pypy_stm_nursery_low_fill_mark_saved st2
       = pypy_stm_nursery_low_fill_mark_saved st) /\
    (pypy_stm_ready_atomic st <> 1 ->
     pypy_stm_nursery_low_fill_mark_saved st2
       = shrunk (pypy_stm_nursery_low_fill_mark_saved st) /\
     pypy_stm_nursery_low_fill_mark st2 = pypy_stm_nursery_low_fill_mark st) /\
    (forall budget, is_uintptr start -> start <= budget < half_modulus ->
     shrunk budget = start + Z.shiftr (budget - start) 2 /\
     shrunk budget - start = (budget - start) / 4) /\
    pypy_stm_ready_atomic st2 = pypy_stm_ready_atomic st /\
    events st1 = events st /\
    events st2
      = events st ++ [Ev_stm_become_inevitable (inevitable_reason msg)].
Proof. exact (become_inevitable_shrinks_then_calls msg st). Qed.


(** ** The configured transaction length *)

(** C3: for a fraction in [[0, 1]] the configured length lies between 0
    and three quarters of the capacity of the arena, [NURSERY_SIZE]
    (any capacity whose triple fits an [unsigned long]). *)
Theorem C3_transaction_length_bounded (fraction : Double.double)
  (st : State) :
  Double.valid fraction ->
  Double.leb Double.zero fraction = true ->
  Double.leb fraction Double.one = true ->
  0 <= NURSERY_SIZE * 3 < modulus ->
  0 <= pypy_transaction_length
         (pypy_stm_set_transaction_length NURSERY_SIZE fraction st)
    <= NURSERY_SIZE * 3 / 4.
Proof.
  intros Hv H0 H1 HN.
  pose proof (low_fill_mark_of_fraction fraction Hv H0 H1) as Hlow.
  unfold pypy_stm_set_transaction_length, nursery_three_quarters.
  cbn [pypy_transaction_length set_transaction_length].
  rewrite (to_uintptr_id (NURSERY_SIZE * 3)) by exact HN.
  assert (Hq : 0 <= NURSERY_SIZE * 3 / 4 < half_modulus).
  { int64_unfold. Z.to_euclidean_division_equations. lia. }
  rewrite to_long_id by (int64_unfold; lia).
  destruct (Z.gtb_spec
              (Double.to_long (Double.mul (Double.of_int LOW_FILL_MARK) fraction))
              (NURSERY_SIZE * 3 / 4)); lia.
Qed.

(** ** The foreign-call bridge *)

(** C9, as amended: with token 1 the mode counter is set to normal (1),
    so that an atomic status is ignored, the transaction is committed,
    the mode counter is set to uninitialized (0) and the thread is
    deregistered.  The engine is called for the commit and for the
    deregistration only: it is not asked to become inevitable. *)
Theorem C9_leave_callback_call_token_1 (st : State) :
  exists st1 st2,
    call_engine engine Ev_stm_commit_transaction (set_ready_atomic 1 st)
      = Ok tt st1 /\
    call_engine engine Ev_unregister_thread_local (set_ready_atomic 0 st1)
      = Ok tt st2 /\
    pypy_stm_leave_callback_call NDEBUG engine 1 st = Ok tt st2 /\
    pypy_stm_ready_atomic st1 = 1 /\
    pypy_stm_ready_atomic st2 = 0 /\
    events st2
      = events st ++ [Ev_stm_commit_transaction; Ev_unregister_thread_local] /\
    pypy_stm_nursery_low_fill_mark st2 = pypy_stm_nursery_low_fill_mark st /\
    pypy_stm_nursery_low_fill_mark_saved st2
      = pypy_stm_nursery_low_fill_mark_saved st.
Proof.
  eexists _, _. split; [reflexivity |]. split; [reflexivity |].
  split; [reflexivity |]. simpl. rewrite <- app_assoc. simpl.
  repeat split; reflexivity.
Qed.

Lemma start_inevitable_if_not_atomic_normal (st : State) :
  pypy_stm_ready_atomic st = 1 ->
  exists st',
    pypy_stm_start_inevitable_if_not_atomic NDEBUG engine st = Ok tt st' /\
    pypy_stm_ready_atomic st' = 1 /\
    pypy_stm_nursery_low_fill_mark st'
      = to_uintptr
          (inev_shrink
             (_stm_nursery_start
                (engine (events st) Ev_stm_start_inevitable_transaction (eng st)))
             (to_long
                (to_uintptr
                   (_stm_nursery_start
                      (engine (events st) Ev_stm_start_inevitable_transaction
                         (eng st))
                    + pypy_transaction_length st)))) /\
    pypy_stm_nursery_low_fill_mark_saved st'
      = pypy_stm_nursery_low_fill_mark_saved st /\
    pypy_transaction_length st' = pypy_transaction_length st /\
    events st' = events st ++ [Ev_stm_start_inevitable_transaction].
Proof.
  intros H. unfold pypy_stm_start_inevitable_if_not_atomic. run.
  rewrite H. simpl. unfold _pypy_stm_inev_state. run. rewrite H. simpl.
  eexists. split; [reflexivity |]. simpl. repeat split; trivial.
Qed.

Lemma start_inevitable_if_not_atomic_atomic (st : State) :
  pypy_stm_ready_atomic st <> 1 ->
  pypy_stm_start_inevitable_if_not_atomic NDEBUG engine st = Ok tt st.
Proof.
  intros H. unfold pypy_stm_start_inevitable_if_not_atomic. run.
  destruct (Z.eqb_spec (pypy_stm_ready_atomic st) 1); [contradiction |].
  reflexivity.
Qed.

(** C8, as amended: for a registered thread, [leave] with a token other
    than 1 is the commit-if-not-atomic check and nothing else; [enter]
    returns token 0, and [enter] followed by [leave] with that token
    leaves the mode counter as it was.  In atomic mode the budget stays
    at the unlimited sentinel and nothing is committed (the transaction
    is escalated); in normal mode an inevitable transaction is started
    and committed, and the budget is not kept.  (In a debug build the
    assertion of line 253 requires the unlimited sentinel outside normal
    mode.) *)
Theorem C8_enter_leave_callback_call (st : State) :
  pypy_stm_ready_atomic st <> 0 ->
  NDEBUG = true \/ mode_budget_inv st ->
  (forall token,
     token <> 1 ->
     pypy_stm_leave_callback_call NDEBUG engine token
       = pypy_stm_commit_if_not_atomic NDEBUG engine) /\
  exists st1 st2,
    pypy_stm_enter_callback_call NDEBUG engine st = Ok 0 st1 /\
    pypy_stm_leave_callback_call NDEBUG engine 0 st1 = Ok tt st2 /\
    pypy_stm_ready_atomic st2 = pypy_stm_ready_atomic st /\
    (pypy_stm_ready_atomic st <> 1 ->
     pypy_stm_nursery_low_fill_mark st2 = pypy_stm_nursery_low_fill_mark st /\
     events st2
       = events st
         ++ [Ev_stm_become_inevitable "commit_if_not_atomic in atomic"]) /\
    (pypy_stm_ready_atomic st = 1 ->
     events st2
       = events st
         ++ [Ev_stm_start_inevitable_transaction; Ev_stm_commit_transaction]).
Proof.
  intros Hreg Hassert. split.
  { intros token Htok. unfold pypy_stm_leave_callback_call.
    destruct (Z.eqb_spec token 1); [contradiction | reflexivity]. }
  unfold pypy_stm_enter_callback_call, pypy_stm_leave_callback_call.
  unfold bind at 1. unfold gets at 1.
  destruct (Z.eqb_spec (pypy_stm_ready_atomic st) 0) as [E | _];
    [contradiction |].
  destruct (Z.eq_dec (pypy_stm_ready_atomic st) 1) as [E1 | E1].
  - destruct (start_inevitable_if_not_atomic_normal st E1)
      as (st1 & Hs & Hr & _ & _ & _ & Hev).
    unfold bind at 1. rewrite Hs. unfold ret.
    eexists _, _. split; [reflexivity |].
    unfold pypy_stm_commit_if_not_atomic. run. rewrite Hr. simpl.
    split; [reflexivity |]. simpl.
    rewrite Hr, Hev, <- app_assoc. simpl.
    repeat split; trivial; try contradiction. congruence.
  - unfold bind at 1. rewrite start_inevitable_if_not_atomic_atomic by trivial.
    unfold ret.
    assert (Ha : NDEBUG = true \/ pypy_stm_ready_atomic st = 1
                 \/ pypy_stm_nursery_low_fill_mark st = UNLIMITED).
    { destruct Hassert as [H | H]; [left; exact H | right; right].
      apply H, E1. }
    destruct (become_inevitable_shrinks_then_calls
                (Some "commit_if_not_atomic in atomic"%string) st Ha)
      as (st1 & st2 & _ & _ & Hrun & _ & Hatomic & _ & Hmode & _ & Hev).
    exists st, st2. split; [reflexivity |].
    change (0 =? 1) with false. cbv iota.
    unfold pypy_stm_commit_if_not_atomic. unfold bind at 1. unfold gets at 1.
    destruct (Z.eqb_spec (pypy_stm_ready_atomic st) 1); [contradiction |].
    split; [exact Hrun |]. split; [exact Hmode |].
    split; [intros _; split; [apply (proj2 (Hatomic E1)) | exact Hev] |].
    intros E. contradiction.
Qed.

(** ** The mode counter and the budget *)

Lemma pypy_stm_start_transaction_ok (jb v_counter : Z) (st : State) :
  exists st',
    pypy_stm_start_transaction engine jb v_counter st
      = Ok (to_long (v_counter + 1)) st' /\
    pypy_stm_ready_atomic st' = 1 /\
    pypy_stm_nursery_low_fill_mark st'
      = to_uintptr (_stm_nursery_start (eng st') + nursery_limit v_counter st') /\
    pypy_stm_nursery_low_fill_mark_saved st'
      = pypy_stm_nursery_low_fill_mark_saved st /\
    pypy_transaction_length st' = pypy_transaction_length st /\
    eng st' = engine (events st) (Ev_stm_start_transaction jb) (eng st) /\
    events st' = events st ++ [Ev_stm_start_transaction jb].
Proof.
  unfold pypy_stm_start_transaction. run.
  eexists. split; [reflexivity |]. simpl. repeat split; reflexivity.
Qed.


Lemma normal_mode_inv (st : State) :
  pypy_stm_ready_atomic st = 1 -> mode_budget_inv st.
Proof. intros H Hne. contradiction. Qed.

Lemma inv_budgeted_is_normal (st : State) :
  mode_budget_inv st ->
  pypy_stm_nursery_low_fill_mark st <> UNLIMITED ->
  pypy_stm_ready_atomic st = 1.
Proof.
  intros Hinv Hm.
  destruct (Z.eq_dec (pypy_stm_ready_atomic st) 1) as [E | E]; [exact E |].
  elim Hm. apply Hinv, E.
Qed.

(** The inspection of line 253 passes where the invariant holds. *)
Lemma inev_state_keeps_inv (st : State) :
  mode_budget_inv st ->
  exists st',
    _pypy_stm_inev_state NDEBUG st = Ok tt st' /\
    mode_budget_inv st' /\
    pypy_stm_ready_atomic st' = pypy_stm_ready_atomic st.
Proof.
  intros Hinv.
  destruct (Z.eq_dec (pypy_stm_ready_atomic st) 1) as [E | E].
  - rewrite _pypy_stm_inev_state_normal by trivial.
    eexists. split; [reflexivity |]. split; [| reflexivity].
    apply normal_mode_inv. exact E.
  - rewrite _pypy_stm_inev_state_atomic by (trivial; right; apply Hinv, E).
    eexists. split; [reflexivity |]. split; [| reflexivity].
    intros _. simpl. apply Hinv, E.
Qed.

Lemma become_inevitable_keeps_inv (msg : option string) (st st' : State) :
  mode_budget_inv st ->
  _pypy_stm_become_inevitable NDEBUG engine msg st = Ok tt st' ->
  mode_budget_inv st'.
Proof.
  intros Hinv. unfold _pypy_stm_become_inevitable. unfold bind at 1.
  destruct (inev_state_keeps_inv st Hinv) as (st1 & -> & Hinv1 & _).
  run. intros H. inversion H; subst. exact Hinv1.
Qed.

Lemma start_inevitable_if_not_atomic_keeps_inv (st : State) :
  mode_budget_inv st ->
  exists st',
    pypy_stm_start_inevitable_if_not_atomic NDEBUG engine st = Ok tt st' /\
    mode_budget_inv st' /\
    pypy_stm_ready_atomic st' = pypy_stm_ready_atomic st.
Proof.
  intros Hinv.
  destruct (Z.eq_dec (pypy_stm_ready_atomic st) 1) as [E | E].
  - destruct (start_inevitable_if_not_atomic_normal st E)
      as (st' & Hs & Hr & _).
    exists st'. split; [exact Hs |]. split; [| congruence].
    apply normal_mode_inv, Hr.
  - rewrite start_inevitable_if_not_atomic_atomic by trivial.
    exists st. repeat split; trivial.
Qed.

Lemma setup_establishes_inv (st st' : State) :
  pypy_stm_setup NDEBUG NURSERY_SIZE engine st = Ok tt st' ->
  mode_budget_inv st'.
Proof.
  unfold pypy_stm_setup. run.
  match goal with
  | |- context [pypy_stm_start_inevitable_if_not_atomic NDEBUG engine ?s] =>
      destruct (start_inevitable_if_not_atomic_normal s eq_refl)
        as (st1 & -> & Hr & _)
  end.
  intros H. inversion H; subst. apply normal_mode_inv, Hr.
Qed.

Lemma first_callback_establishes_inv (st st' : State) (token : Z) :
  pypy_stm_ready_atomic st = 0 ->
  pypy_stm_enter_callback_call NDEBUG engine st = Ok token st' ->
  mode_budget_inv st'.
Proof.
  intros H0. unfold pypy_stm_enter_callback_call. run. rewrite H0. simpl.
  destruct (NDEBUG || (pypy_transaction_length st >=? 0)); [| discriminate].
  intros H. inversion H; subst. apply normal_mode_inv. reflexivity.
Qed.

(** Every operation of a registered thread keeps the invariant. *)
Lemma run_op_keeps_inv (o : op) (st st' : State) :
  deregisters o = false ->
  mode_budget_inv st ->
  run_op NDEBUG NURSERY_SIZE engine o st = Ok tt st' ->
  mode_budget_inv st'.
Proof.
  intros Hreg Hinv.
  destruct o as [fraction | | | token | jb v | | msg | | | | e];
    cbn [run_op deregisters] in *.
  - (* pypy_stm_set_transaction_length *)
    unfold modify. intros H. inversion H; subst. exact Hinv.
  - (* stmcb_commit_soon *)
    unfold modify, stmcb_commit_soon. intros H. inversion H; subst.
    destruct (Z.eqb_spec (pypy_stm_nursery_low_fill_mark st) UNLIMITED)
      as [E | E].
    + destruct (_ >? 0); intros _; exact E.
    + destruct (_ >? 0); [| exact Hinv].
      apply normal_mode_inv. simpl. apply inv_budgeted_is_normal; trivial.
  - (* pypy_stm_enter_callback_call *)
    unfold bind at 1.
    destruct (pypy_stm_enter_callback_call NDEBUG engine st)
      as [token st1 | | |] eqn:E; try discriminate.
    unfold ret. intros H. inversion H; subst.
    destruct (Z.eq_dec (pypy_stm_ready_atomic st) 0) as [E0 | E0].
    + apply (first_callback_establishes_inv st st' token E0 E).
    + revert E. unfold pypy_stm_enter_callback_call.
      unfold bind at 1. unfold gets at 1.
      destruct (Z.eqb_spec (pypy_stm_ready_atomic st) 0); [contradiction |].
      unfold bind at 1.
      destruct (start_inevitable_if_not_atomic_keeps_inv st Hinv)
        as (st1 & -> & Hinv1 & _).
      unfold ret. intros H1. inversion H1; subst. exact Hinv1.
  - (* pypy_stm_leave_callback_call, token other than 1 *)
    unfold pypy_stm_leave_callback_call. rewrite Hreg.
    unfold pypy_stm_commit_if_not_atomic.
    unfold bind at 1. unfold gets at 1.
    destruct (pypy_stm_ready_atomic st =? 1).
    + run. intros H. inversion H; subst. exact Hinv.
    + apply become_inevitable_keeps_inv, Hinv.
  - (* pypy_stm_start_transaction *)
    unfold bind at 1.
    destruct (pypy_stm_start_transaction_ok jb v st) as (st1 & -> & Hr & _).
    unfold ret. intros H. inversion H; subst. apply normal_mode_inv, Hr.
  - (* stm_commit_transaction *)
    run. intros H. inversion H; subst. exact Hinv.
  - (* _pypy_stm_become_inevitable *)
    apply become_inevitable_keeps_inv, Hinv.
  - (* pypy_stm_become_globally_unique_transaction *)
    unfold pypy_stm_become_globally_unique_transaction.
    unfold bind at 1. unfold gets at 1. unfold bind at 1.
    destruct (segment_jmpbuf_ptr (eng st)).
    + destruct (inev_state_keeps_inv st Hinv) as (st1 & -> & Hinv1 & _).
      run. intros H. inversion H; subst. exact Hinv1.
    + run. intros H. inversion H; subst. exact Hinv.
  - (* enter_atomic *)
    unfold enter_atomic, modify. intros H. inversion H; subst. clear H.
    cbn [pypy_stm_ready_atomic set_ready_atomic].
    destruct (Z.eqb_spec (to_long (pypy_stm_ready_atomic st + 1)) 2)
      as [E | E].
    + intros _. reflexivity.
    + intros Hne. simpl. apply Hinv. intros E1. apply E.
      rewrite E1. reflexivity.
  - (* leave_atomic *)
    unfold leave_atomic. unfold bind at 1. unfold gets at 1.
    destruct (pypy_stm_ready_atomic st <=? 1) eqn:Hle; [discriminate |].
    apply Z.leb_gt in Hle.
    unfold modify. intros H. inversion H; subst. clear H.
    cbn [pypy_stm_ready_atomic set_ready_atomic].
    destruct (Z.eqb_spec (to_long (pypy_stm_ready_atomic st - 1)) 1)
      as [E | E].
    + intros Hne. simpl in Hne. contradiction.
    + intros _. simpl. apply Hinv. lia.
  - (* the engine *)
    unfold modify. intros H. inversion H; subst. exact Hinv.
Qed.

Lemma reachable_inv (st : State) :
  reachable NDEBUG NURSERY_SIZE engine st -> mode_budget_inv st.
Proof.
  induction 1 as [st st' Hs | st st' H0 He | st st' o _ IH Hreg Hop].
  - apply (setup_establishes_inv st st' Hs).
  - apply (first_callback_establishes_inv st st' 1 H0 He).
  - apply (run_op_keeps_inv o st st' Hreg IH Hop).
Qed.

(** ** More on escalation and configuration *)

(** The shrink keeps the budget on its side of the arena start. *)
Lemma inev_shrink_side (start budget : Z) :
  0 <= start < half_modulus -> 0 <= budget < half_modulus ->
  let budget' := to_uintptr (inev_shrink start (to_long budget)) in
  (start <= budget -> start <= budget' <= budget) /\
  (budget < start -> budget <= budget' < start).
Proof.
  intros Hs Hb. unfold inev_shrink. cbv zeta. rewrite shiftr_2_div.
  rewrite (to_long_id budget) by (int64_unfold; lia).
  rewrite (to_long_id start) by (int64_unfold; lia).
  rewrite (to_long_id (budget - start)) by (int64_unfold; lia).
  assert (Hq : (start <= budget -> 0 <= (budget - start) / 4 <= budget - start)
               /\ (budget < start ->
                   budget - start <= (budget - start) / 4 < 0)).
  { split; intros; Z.to_euclidean_division_equations; lia. }
  assert (Hr : 0 <= start + (budget - start) / 4 < half_modulus).
  { destruct (Z_le_gt_dec start budget) as [L | G].
    - pose proof (proj1 Hq L). lia.
    - pose proof (proj2 Hq ltac:(lia)). lia. }
  rewrite to_long_id by (int64_unfold; lia).
  rewrite to_uintptr_id by (int64_unfold; lia).
  split; intros H; [pose proof (proj1 Hq H) | pose proof (proj2 Hq H)]; lia.
Qed.

(** X3: an escalation never raises a budget that is at or above the arena
    start and never takes it below the arena start; a budget below the
    arena start (one that [stmcb_commit_soon] has set to 0, say) stays
    below it.  The budget is the active one in normal mode and the saved
    one otherwise. *)
Theorem inev_state_keeps_side (st : State) :
  let start := _stm_nursery_start (eng st) in
  let effective s :=
    if pypy_stm_ready_atomic st =? 1
    then pypy_stm_nursery_low_fill_mark s
    else pypy_stm_nursery_low_fill_mark_saved s in
  0 <= start < half_modulus ->
  0 <= effective st < half_modulus ->
  NDEBUG = true \/ pypy_stm_ready_atomic st = 1
    \/ pypy_stm_nursery_low_fill_mark st = UNLIMITED ->
  exists st',
    _pypy_stm_inev_state NDEBUG st = Ok tt st' /\
    (start <= effective st -> start <= effective st' <= effective st) /\
    (effective st < start -> effective st <= effective st' < start).
Proof.
  intros start effective Hs Hb Hassert. subst effective. cbv beta in *.
  destruct (Z.eqb_spec (pypy_stm_ready_atomic st) 1) as [E | E].
  - rewrite _pypy_stm_inev_state_normal by exact E.
    eexists. split; [reflexivity |].
    cbn [pypy_stm_nursery_low_fill_mark set_low_fill_mark].
    apply inev_shrink_side; trivial.
  - rewrite _pypy_stm_inev_state_atomic; [| exact E | tauto].
    eexists. split; [reflexivity |].
    cbn [pypy_stm_nursery_low_fill_mark_saved set_low_fill_mark_saved].
    apply inev_shrink_side; trivial.
Qed.

Lemma inev_states_normal (k : nat) (st : State) :
  pypy_stm_ready_atomic st = 1 ->
  is_uintptr (_stm_nursery_start (eng st)) ->
  _stm_nursery_start (eng st) <= pypy_stm_nursery_low_fill_mark st
    < half_modulus ->
  exists st',
    inev_states NDEBUG k st = Ok tt st' /\
    pypy_stm_ready_atomic st' = 1 /\
    eng st' = eng st /\
    events st' = events st /\
    pypy_stm_nursery_low_fill_mark_saved st'
      = pypy_stm_nursery_low_fill_mark_saved st /\
    pypy_stm_nursery_low_fill_mark st'
      = _stm_nursery_start (eng st)
        + (pypy_stm_nursery_low_fill_mark st - _stm_nursery_start (eng st))
          / 4 ^ Z.of_nat k.
Proof.
  revert st. induction k as [| k IH]; intros st Hr Hs Hb.
  - exists st. simpl. rewrite Z.div_1_r. repeat split; trivial. lia.
  - cbn [inev_states]. unfold bind at 1.
    rewrite _pypy_stm_inev_state_normal by exact Hr.
    destruct (inev_shrink_quarter (_stm_nursery_start (eng st))
                (pypy_stm_nursery_low_fill_mark st) Hs Hb) as (_ & Hq).
    set (st1 := set_low_fill_mark
                  (to_uintptr
                     (inev_shrink (_stm_nursery_start (eng st))
                        (to_long (pypy_stm_nursery_low_fill_mark st)))) st).
    assert (Hm1 : pypy_stm_nursery_low_fill_mark st1
                  = _stm_nursery_start (eng st)
                    + (pypy_stm_nursery_low_fill_mark st
                       - _stm_nursery_start (eng st)) / 4)
      by (subst st1; cbn [pypy_stm_nursery_low_fill_mark set_low_fill_mark];
          lia).
    assert (Hd : 0 <= (pypy_stm_nursery_low_fill_mark st
                       - _stm_nursery_start (eng st)) / 4
                 <= pypy_stm_nursery_low_fill_mark st
                    - _stm_nursery_start (eng st))
      by (Z.to_euclidean_division_equations; lia).
    destruct (IH st1) as (st' & Hrun & Hr' & He & Hev & Hsv & Hm).
    + exact Hr.
    + exact Hs.
    + rewrite Hm1. change (eng st1) with (eng st). lia.
    + exists st'. split; [exact Hrun |]. split; [exact Hr' |].
      split; [exact He |]. split; [exact Hev |]. split; [exact Hsv |].
      rewrite Hm, Hm1. change (eng st1) with (eng st).
      replace (_stm_nursery_start (eng st)
               + (pypy_stm_nursery_low_fill_mark st
                  - _stm_nursery_start (eng st)) / 4
               - _stm_nursery_start (eng st))
        with ((pypy_stm_nursery_low_fill_mark st
               - _stm_nursery_start (eng st)) / 4) by lia.
      assert (Hp : 0 < 4 ^ Z.of_nat k) by (apply Z.pow_pos_nonneg; lia).
      rewrite Z.div_div by lia.
      rewrite Nat2Z.inj_succ, Z.pow_succ_r by lia. reflexivity.
Qed.

(** X4: escalations in a row, in normal mode, with the budget at or above
    the arena start: [k] of them leave the margin divided by [4 ^ k],
    and 32 or more leave the budget at the arena start itself. *)
Theorem repeated_escalation_reaches_arena_start (k : nat) (st : State) :
  pypy_stm_ready_atomic st = 1 ->
  is_uintptr (_stm_nursery_start (eng st)) ->
  _stm_nursery_start (eng st) <= pypy_stm_nursery_low_fill_mark st
    < half_modulus ->
  exists st',
    inev_states NDEBUG k st = Ok tt st' /\
    pypy_stm_nursery_low_fill_mark st' - _stm_nursery_start (eng st)
      = (pypy_stm_nursery_low_fill_mark st - _stm_nursery_start (eng st))
        / 4 ^ Z.of_nat k /\
    ((32 <= k)%nat ->
     pypy_stm_nursery_low_fill_mark st' = _stm_nursery_start (eng st)).
Proof.
  intros Hr Hs Hb.
  destruct (inev_states_normal k st Hr Hs Hb)
    as (st' & Hrun & _ & _ & _ & _ & Hm).
  exists st'. split; [exact Hrun |]. split; [lia |].
  intros Hk. rewrite Hm.
  assert (H32 : 4 ^ 32 <= 4 ^ Z.of_nat k)
    by (apply Z.pow_le_mono_r; lia).
  change (4 ^ 32) with 18446744073709551616 in H32.
  rewrite Z.div_small; [lia |]. int64_unfold. lia.
Qed.

(** X5: the commit-soon signal and the escalation, in either order, leave a
    budgeted thread with its budget below the arena start: the signal is
    not lost when the transaction becomes inevitable. *)
Theorem commit_soon_survives_escalation (msg : option string) (st : State) :
  pypy_stm_ready_atomic st = 1 ->
  0 < _stm_nursery_start (eng st) ->
  _stm_nursery_start (eng st) <= pypy_stm_nursery_low_fill_mark st
    < half_modulus ->
  (exists st',
     _pypy_stm_become_inevitable NDEBUG engine msg (stmcb_commit_soon st)
       = Ok tt st' /\
     pypy_stm_nursery_low_fill_mark st' < _stm_nursery_start (eng st)) /\
  (exists st',
     _pypy_stm_become_inevitable NDEBUG engine msg st = Ok tt st' /\
     pypy_stm_nursery_low_fill_mark (stmcb_commit_soon st') = 0).
Proof.
  intros Hr Hs Hb.
  assert (Hcs : stmcb_commit_soon st = set_low_fill_mark 0 st).
  { unfold stmcb_commit_soon.
    destruct (Z.eqb_spec (pypy_stm_nursery_low_fill_mark st) UNLIMITED)
      as [E | _]; [int64_unfold; lia |].
    rewrite to_long_id by (int64_unfold; lia).
    destruct (Z.gtb_spec (pypy_stm_nursery_low_fill_mark st) 0);
      [reflexivity | lia]. }
  split.
  - rewrite Hcs. unfold _pypy_stm_become_inevitable. unfold bind at 1.
    rewrite _pypy_stm_inev_state_normal by exact Hr.
    eexists. split; [reflexivity |]. simpl.
    apply (inev_shrink_side (_stm_nursery_start (eng st)) 0);
      int64_unfold; lia.
  - unfold _pypy_stm_become_inevitable. unfold bind at 1.
    rewrite _pypy_stm_inev_state_normal by exact Hr.
    eexists. split; [reflexivity |].
    destruct (inev_shrink_side (_stm_nursery_start (eng st))
                (pypy_stm_nursery_low_fill_mark st)
                ltac:(lia) ltac:(lia)) as (Hside & _).
    specialize (Hside (proj1 Hb)). cbv zeta in Hside.
    unfold stmcb_commit_soon.
    cbn [call_engine pypy_stm_nursery_low_fill_mark set_low_fill_mark].
    set (b := to_uintptr
                (inev_shrink (_stm_nursery_start (eng st))
                   (to_long (pypy_stm_nursery_low_fill_mark st)))) in *.
    destruct (Z.eqb_spec b UNLIMITED) as [E | _]; [int64_unfold; lia |].
    rewrite (to_long_id b) by (int64_unfold; lia).
    destruct (Z.gtb_spec b 0); [reflexivity | lia].
Qed.

(** The length [pypy_stm_setup] configures, with the fraction -10000.0. *)
Lemma setup_transaction_length (st : State) :
  0 <= NURSERY_SIZE * 3 < modulus ->
  pypy_transaction_length
    (pypy_stm_set_transaction_length NURSERY_SIZE
       (Double.opp (Double.of_int 10000)) st) = -4000000000.
Proof.
  intros HN. unfold pypy_stm_set_transaction_length, nursery_three_quarters.
  cbn [pypy_transaction_length set_transaction_length].
  replace (Double.to_long
             (Double.mul (Double.of_int LOW_FILL_MARK)
                (Double.opp (Double.of_int 10000))))
    with (-4000000000) by (vm_compute; reflexivity).
  rewrite (to_uintptr_id (NURSERY_SIZE * 3)) by exact HN.
  assert (Hq : 0 <= NURSERY_SIZE * 3 / 4 < half_modulus).
  { int64_unfold. Z.to_euclidean_division_equations. lia. }
  rewrite to_long_id by (int64_unfold; lia).
  destruct (Z.gtb_spec (-4000000000) (NURSERY_SIZE * 3 / 4)); [lia |].
  reflexivity.
Qed.

(** X6: "Unlimited until the first thread starts": while the length is the
    one [pypy_stm_setup] configures, a transaction begun with attempt
    counter 0 gets a budget that is negative as a [long], which
    [stmcb_commit_soon] leaves alone (the arena start being below
    3999999999). *)
Theorem unlimited_until_configured (jmpbuf_ptr : jmpbuf) (st : State) :
  0 <= NURSERY_SIZE * 3 < modulus ->
  let st0 := pypy_stm_set_transaction_length NURSERY_SIZE
               (Double.opp (Double.of_int 10000)) st in
  0 <= _stm_nursery_start
         (engine (events st) (Ev_stm_start_transaction jmpbuf_ptr) (eng st))
    < 3999999999 ->
  exists st1,
    pypy_stm_start_transaction engine jmpbuf_ptr 0 st0 = Ok 1 st1 /\
    pypy_transaction_length st1 = -4000000000 /\
    pypy_stm_nursery_low_fill_mark st1 <> UNLIMITED /\
    to_long (pypy_stm_nursery_low_fill_mark st1) < 0 /\
    stmcb_commit_soon st1 = st1.
Proof.
  intros HN st0 Hstart.
  pose proof (setup_transaction_length st HN) as Hlen. fold st0 in Hlen.
  destruct (pypy_stm_start_transaction_ok jmpbuf_ptr 0 st0)
    as (st1 & Hrun & _ & Hm & _ & Hl & He & _).
  exists st1. split; [exact Hrun |].
  rewrite Hlen in Hl. split; [exact Hl |].
  unfold nursery_limit in Hm. cbn [Z.eqb] in Hm. rewrite Hl, He in Hm.
  change (events st0) with (events st) in Hm.
  change (eng st0) with (eng st) in Hm.
  set (start := _stm_nursery_start
                  (engine (events st) (Ev_stm_start_transaction jmpbuf_ptr)
                     (eng st))) in *.
  assert (Hmark : pypy_stm_nursery_low_fill_mark st1
                  = modulus + start - 4000000000).
  { rewrite Hm. unfold to_uintptr.
    replace (start + -4000000000)
      with (modulus + start - 4000000000 + (-1) * modulus) by lia.
    rewrite Z.mod_add by (int64_unfold; lia).
    apply Z.mod_small. int64_unfold. lia. }
  assert (Hne : pypy_stm_nursery_low_fill_mark st1 <> UNLIMITED)
    by (rewrite Hmark; int64_unfold; lia).
  assert (Hneg : to_long (pypy_stm_nursery_low_fill_mark st1) < 0).
  { rewrite Hmark. unfold to_long.
    replace (modulus + start - 4000000000 + half_modulus)
      with (start - 4000000000 + half_modulus + 1 * modulus) by lia.
    rewrite Z.mod_add by (int64_unfold; lia).
    rewrite Z.mod_small by (int64_unfold; lia). lia. }
  split; [exact Hne |]. split; [exact Hneg |].
  unfold stmcb_commit_soon.
  destruct (Z.eqb_spec (pypy_stm_nursery_low_fill_mark st1) UNLIMITED);
    [contradiction |].
  destruct (Z.gtb_spec (to_long (pypy_stm_nursery_low_fill_mark st1)) 0);
    [lia | reflexivity].
Qed.

(** X7: a thread seen for the first time, in a debug build: the assertion
    of line 96 stops it, before any call to the engine, when the
    configured length is negative; it is negative while the length is
    the one [pypy_stm_setup] configures. *)
Theorem first_callback_needs_configured_length (st : State) :
  NDEBUG = false ->
  pypy_stm_ready_atomic st = 0 ->
  (pypy_transaction_length st < 0 ->
   pypy_stm_enter_callback_call NDEBUG engine st = AssertFailed 96) /\
  (0 <= NURSERY_SIZE * 3 < modulus ->
   pypy_stm_enter_callback_call NDEBUG engine
     (pypy_stm_set_transaction_length NURSERY_SIZE
        (Double.opp (Double.of_int 10000)) st) = AssertFailed 96).
Proof.
  intros Hd H0.
  assert (Hfail : forall s,
            pypy_stm_ready_atomic s = 0 ->
            pypy_transaction_length s < 0 ->
            pypy_stm_enter_callback_call NDEBUG engine s = AssertFailed 96).
  { intros s Hs Hl. unfold pypy_stm_enter_callback_call.
    unfold bind at 1. unfold gets at 1. rewrite Hs. cbn [Z.eqb].
    unfold bind at 1. unfold gets at 1. unfold bind at 1. unfold assert.
    rewrite Hd.
    destruct (Z.geb_spec (pypy_transaction_length s) 0); [lia | reflexivity]. }
  split; [apply Hfail, H0 |].
  intros HN. apply Hfail; trivial.
  rewrite setup_transaction_length by exact HN. lia.
Qed.

(** X8: becoming the globally unique transaction shrinks the budget at most
    once: a transaction that holds no checkpoint (it is inevitable
    already) keeps its budgets, so that, with an engine that drops the
    checkpoint on this call, a second call changes no budget.  The
    engine is called each time, with the reason "for the JIT". *)
Theorem globally_unique_shrinks_once (st : State) :
  engine_drops_checkpoint engine ->
  NDEBUG = true \/ pypy_stm_ready_atomic st = 1
    \/ pypy_stm_nursery_low_fill_mark st = UNLIMITED ->
  exists st1 st2,
    pypy_stm_become_globally_unique_transaction NDEBUG engine st = Ok tt st1 /\
    pypy_stm_become_globally_unique_transaction NDEBUG engine st1
      = Ok tt st2 /\
    (segment_jmpbuf_ptr (eng st) = None ->
     pypy_stm_nursery_low_fill_mark st1 = pypy_stm_nursery_low_fill_mark st /\
     pypy_stm_nursery_low_fill_mark_saved st1
       = pypy_stm_nursery_low_fill_mark_saved st) /\
    pypy_stm_nursery_low_fill_mark st2 = pypy_stm_nursery_low_fill_mark st1 /\
    pypy_stm_nursery_low_fill_mark_saved st2
      = pypy_stm_nursery_low_fill_mark_saved st1 /\
    events st2
      = events st
        ++ [Ev_stm_become_globally_unique_transaction "for the JIT";
            Ev_stm_become_globally_unique_transaction "for the JIT"].
Proof.
  intros Hdrop Hassert.
  assert (Hfirst : exists sa,
    (match segment_jmpbuf_ptr (eng st) with
     | Some _ => _pypy_stm_inev_state NDEBUG
     | None => ret tt
     end) st = Ok tt sa /\
    events sa = events st /\ eng sa = eng st /\
    (segment_jmpbuf_ptr (eng st) = None ->
     pypy_stm_nursery_low_fill_mark sa = pypy_stm_nursery_low_fill_mark st /\
     pypy_stm_nursery_low_fill_mark_saved sa
       = pypy_stm_nursery_low_fill_mark_saved st)).
  { destruct (segment_jmpbuf_ptr (eng st)) as [jb |].
    - destruct (Z.eq_dec (pypy_stm_ready_atomic st) 1) as [E | E].
      + rewrite _pypy_stm_inev_state_normal by exact E.
        eexists. split; [reflexivity |]. repeat split; discriminate.
      + rewrite _pypy_stm_inev_state_atomic; [| exact E | tauto].
        eexists. split; [reflexivity |]. repeat split; discriminate.
    - exists st. repeat split. }
  destruct Hfirst as (sa & Hsa & Heva & Henga & Hkeep).
  unfold pypy_stm_become_globally_unique_transaction at 1.
  unfold bind at 1. unfold gets at 1. unfold bind at 1. rewrite Hsa.
  unfold call_engine at 1.
  match goal with |- exists st1 st2, Ok tt ?s = _ /\ _ => exists s end.
  unfold pypy_stm_become_globally_unique_transaction.
  unfold bind at 1. unfold gets at 1.
  cbn [eng]. rewrite Hdrop. unfold bind at 1. unfold ret at 1.
  unfold call_engine.
  eexists. split; [reflexivity |]. split; [reflexivity |].
  cbn [pypy_stm_nursery_low_fill_mark pypy_stm_nursery_low_fill_mark_saved
       events].
  rewrite Heva, <- app_assoc. repeat split; apply Hkeep; assumption.
Qed.

(** X9: the configured length never exceeds three quarters of the nursery,
    whatever the fraction (no assumption is made on it); the fraction
    1.0 gives the default, 400000 bytes, or the cap if that is less. *)
Theorem transaction_length_capped (fraction : Double.double) (st : State) :
  pypy_transaction_length
    (pypy_stm_set_transaction_length NURSERY_SIZE fraction st)
    <= nursery_three_quarters NURSERY_SIZE /\
  pypy_transaction_length
    (pypy_stm_set_transaction_length NURSERY_SIZE Double.one st)
    = Z.min LOW_FILL_MARK (nursery_three_quarters NURSERY_SIZE).
Proof.
  unfold pypy_stm_set_transaction_length.
  cbn [pypy_transaction_length set_transaction_length]. split.
  - destruct (Z.gtb_spec
                (Double.to_long (Double.mul (Double.of_int LOW_FILL_MARK)
                                   fraction))
                (nursery_three_quarters NURSERY_SIZE)); lia.
  - replace (Double.to_long
               (Double.mul (Double.of_int LOW_FILL_MARK) Double.one))
      with LOW_FILL_MARK by (vm_compute; reflexivity).
    destruct (Z.gtb_spec LOW_FILL_MARK (nursery_three_quarters NURSERY_SIZE));
      lia.
Qed.

(** ** The retry loop *)

Section PerformTransactionProperties.

Variable pypy_stm_should_break_transaction : State -> bool.
Variable jmpbuf_addr : jmpbuf.
Variable callback : nat -> object_t -> Z -> State -> cb_outcome.

Local Notation "'loop'" :=
  (retry_loop NDEBUG engine pypy_stm_should_break_transaction jmpbuf_addr
     callback).
Local Notation "'left_with_inevitable'" :=
  (Ev_stm_become_inevitable "perform_transaction left with inevitable").

(** Lines 209-213: the callback is invoked on the state it finds, the
    roots being as they were. *)
Lemma invoke_callback_ok (n : nat) (v_old_shadowstack counter : Z)
  (st : State) :
  NDEBUG = true \/ shadowstack (eng st) = v_old_shadowstack + 1 ->
  exists st2 arg,
    invoke_callback NDEBUG callback n v_old_shadowstack counter st
      = Ok (callback n arg (to_int counter) st2) st2 /\
    events st2 = events st ++ [Ev_callback arg (to_int counter)] /\
    shadowstack (eng st2) = shadowstack (eng st) /\
    pypy_stm_ready_atomic st2 = pypy_stm_ready_atomic st /\
    pypy_stm_nursery_low_fill_mark st2 = pypy_stm_nursery_low_fill_mark st /\
    pypy_stm_nursery_low_fill_mark_saved st2
      = pypy_stm_nursery_low_fill_mark_saved st /\
    pypy_transaction_length st2 = pypy_transaction_length st.
Proof.
  intros H.
  unfold invoke_callback, bind, STM_POP_ROOT, gets, assert, STM_PUSH_ROOT,
    modify, ret. simpl.
  replace (NDEBUG || (v_old_shadowstack =? shadowstack (eng st) - 1))
    with true.
  - eexists _, _. split; [reflexivity |]. simpl.
    repeat split; trivial. lia.
  - symmetry. destruct H as [-> | H]; [reflexivity |].
    apply orb_true_iff. right. apply Z.eqb_eq. lia.
Qed.

(** One round of the loop, up to the return of the callback. *)
Lemma retry_loop_round (fuel n : nat) (v_old_shadowstack : Z) (from : entry)
  (v_counter counter v_counter' r : Z) (st st1 st1' st' : State) :
  begin_round NDEBUG engine pypy_stm_should_break_transaction jmpbuf_addr
    from v_counter st = Ok (counter, v_counter') st1 ->
  invoke_callback NDEBUG callback n v_old_shadowstack counter st1
    = Ok (CbReturn r st') st1' ->
  loop (S fuel) n v_old_shadowstack from v_counter st
  = if to_int r <=? 0 then Ok (to_int r) st'
    else loop fuel (S n) v_old_shadowstack LoopTop 0 st'.
Proof.
  intros Hb Hc. simpl. rewrite Hb, Hc. reflexivity.
Qed.

(** *** Rounds of a steady thread *)

Lemma to_int_id (z : Z) : -2147483648 <= z < 2147483648 -> to_int z = z.
Proof.
  intros H. unfold to_int.
  change (2 ^ 31) with 2147483648. change (2 ^ 32) with 4294967296.
  rewrite Z.mod_small; lia.
Qed.

Lemma callback_counters_app (a b : list event) :
  callback_counters (a ++ b) = callback_counters a ++ callback_counters b.
Proof. apply flat_map_app. Qed.

Lemma count_events_app (p : event -> bool) (a b : list event) :
  count_events p (a ++ b) = (count_events p a + count_events p b)%nat.
Proof. unfold count_events. rewrite filter_app, length_app. reflexivity. Qed.

(** The calls of the work itself count for nothing. *)
Lemma own_calls_counts (evs : list event) :
  forallb own_call evs = true ->
  callback_counters evs = [] /\
  count_events is_commit evs = 0%nat /\
  count_events is_start evs = 0%nat.
Proof.
  induction evs as [| e evs IH]; [repeat split |].
  intros H. apply andb_true_iff in H. destruct H as [He Hevs].
  destruct (IH Hevs) as (Hc & Hco & Hs).
  change (e :: evs) with ([e] ++ evs).
  rewrite callback_counters_app, !count_events_app, Hc, Hco, Hs.
  destruct e; try discriminate He; repeat split.
Qed.

Lemma round_events_counts (b : bool) (arg c : Z) (evs : list event) :
  forallb own_call evs = true ->
  callback_counters
    (cycle_events jmpbuf_addr b ++ [Ev_callback arg c] ++ evs) = [c]
  /\ count_events is_commit
       (cycle_events jmpbuf_addr b ++ [Ev_callback arg c] ++ evs)
     = (if b then 1 else 0)%nat
  /\ count_events is_start
       (cycle_events jmpbuf_addr b ++ [Ev_callback arg c] ++ evs)
     = (if b then 1 else 0)%nat.
Proof.
  intros H. destruct (own_calls_counts evs H) as (Hc & Hco & Hs).
  rewrite !callback_counters_app, !count_events_app, Hc, Hco, Hs.
  destruct b; repeat split.
Qed.

(** Lines 209-213 again, with what the roots macros leave alone. *)
Lemma invoke_callback_state (n : nat) (v_old_shadowstack counter : Z)
  (st : State) :
  NDEBUG = true \/ shadowstack (eng st) = v_old_shadowstack + 1 ->
  exists st2 arg,
    invoke_callback NDEBUG callback n v_old_shadowstack counter st
      = Ok (callback n arg (to_int counter) st2) st2 /\
    events st2 = events st ++ [Ev_callback arg (to_int counter)] /\
    shadowstack (eng st2) = shadowstack (eng st) /\
    _stm_nursery_start (eng st2) = _stm_nursery_start (eng st) /\
    last_abort__bytes_in_nursery (eng st2)
      = last_abort__bytes_in_nursery (eng st) /\
    segment_jmpbuf_ptr (eng st2) = segment_jmpbuf_ptr (eng st) /\
    pypy_stm_ready_atomic st2 = pypy_stm_ready_atomic st /\
    pypy_stm_nursery_low_fill_mark st2 = pypy_stm_nursery_low_fill_mark st /\
    pypy_transaction_length st2 = pypy_transaction_length st.
Proof.
  intros H.
  unfold invoke_callback, bind, STM_POP_ROOT, gets, assert, STM_PUSH_ROOT,
    modify, ret. simpl.
  replace (NDEBUG || (v_old_shadowstack =? shadowstack (eng st) - 1))
    with true.
  - eexists _, _. split; [reflexivity |]. simpl.
    repeat split; trivial. lia.
  - symmetry. destruct H as [-> | H]; [reflexivity |].
    apply orb_true_iff. right. apply Z.eqb_eq. lia.
Qed.

(** A transaction begun by a thread whose length and engine data fit
    leaves the thread steady, whatever the attempt counter. *)
Lemma start_transaction_steady (v_counter : Z) (st : State) :
  engine_keeps_arena engine ->
  arena_fits (eng st) ->
  0 <= pypy_transaction_length st < half_modulus ->
  exists st1,
    pypy_stm_start_transaction engine jmpbuf_addr v_counter st
      = Ok (to_long (v_counter + 1)) st1 /\
    steady st1 /\
    eng st1
      = engine (events st) (Ev_stm_start_transaction jmpbuf_addr) (eng st) /\
    events st1 = events st ++ [Ev_stm_start_transaction jmpbuf_addr].
Proof.
  intros Harena Hfit Hlen.
  destruct (pypy_stm_start_transaction_ok jmpbuf_addr v_counter st)
    as (st1 & Hst & Hr & Hm & _ & Hl & He & Hev).
  exists st1. split; [exact Hst |]. split; [| split; [exact He | exact Hev]].
  assert (Hfit1 : arena_fits (eng st1)) by (rewrite He; apply Harena, Hfit).
  split; [| split; [exact Hfit1 | rewrite Hl; exact Hlen]].
  split; [exact Hr |]. rewrite Hm.
  destruct Hfit1 as (Hs & Hla).
  assert (Hlim : 0 <= nursery_limit v_counter st1 < half_modulus).
  { unfold nursery_limit. destruct (v_counter =? 0); [rewrite Hl; exact Hlen |].
    rewrite retry_limit_exact by (int64_unfold; lia).
    rewrite shiftr_4_div. Z.to_euclidean_division_equations. lia. }
  rewrite to_uintptr_id by (int64_unfold; lia).
  int64_unfold. lia.
Qed.

(** A round entered at the top of the loop by a steady thread, up to the
    invocation of the callback: the callback is handed the attempt
    counter 0 by a steady thread; if the round began a transaction, the
    engine resumes at the checkpoint of this frame. *)
Lemma looptop_round_begin (n : nat) (v_old_shadowstack : Z) (st : State) :
  engine_keeps_roots engine ->
  engine_keeps_arena engine ->
  steady st ->
  shadowstack (eng st) = v_old_shadowstack + 1 ->
  exists v_counter' st1 st2 arg,
    begin_round NDEBUG engine pypy_stm_should_break_transaction jmpbuf_addr
      LoopTop 0 st = Ok (0, v_counter') st1 /\
    v_counter' = (if pypy_stm_should_break_transaction st then 1 else 0) /\
    invoke_callback NDEBUG callback n v_old_shadowstack 0 st1
      = Ok (callback n arg 0 st2) st2 /\
    steady st2 /\
    shadowstack (eng st2) = v_old_shadowstack + 1 /\
    events st2
    = events st
      ++ cycle_events jmpbuf_addr (pypy_stm_should_break_transaction st)
      ++ [Ev_callback arg 0] /\
    (engine_binds_checkpoint engine ->
     pypy_stm_should_break_transaction st = true ->
     jmpbuf_is_ours jmpbuf_addr st2 = true).
Proof.
  intros Hroots Harena Hsteady Hsp.
  assert (Hb : exists v_counter' st1,
    begin_round NDEBUG engine pypy_stm_should_break_transaction jmpbuf_addr
      LoopTop 0 st = Ok (0, v_counter') st1 /\
    v_counter' = (if pypy_stm_should_break_transaction st then 1 else 0) /\
    steady st1 /\
    shadowstack (eng st1) = v_old_shadowstack + 1 /\
    events st1
    = events st
      ++ cycle_events jmpbuf_addr (pypy_stm_should_break_transaction st) /\
    (engine_binds_checkpoint engine ->
     pypy_stm_should_break_transaction st = true ->
     segment_jmpbuf_ptr (eng st1) = Some jmpbuf_addr)).
  { destruct Hsteady as ((Hready & Hmark) & Hfit & Hlen).
    unfold begin_round. unfold bind at 1. unfold gets at 1.
    destruct (pypy_stm_should_break_transaction st).
    - unfold bind at 1. unfold gets at 1. unfold bind at 1. unfold assert.
      destruct (Z.eqb_spec (pypy_stm_nursery_low_fill_mark st) UNLIMITED)
        as [E | _]; [contradiction |].
      rewrite orb_true_r.
      unfold bind at 1. unfold call_engine at 1. unfold bind at 1.
      match goal with
      | |- context [pypy_stm_start_transaction engine _ _ ?s] =>
          destruct (start_transaction_steady 0 s Harena
                      ltac:(apply Harena, Hfit) Hlen)
            as (st1 & Hst & Hsteady1 & He & Hev)
      end.
      rewrite Hst. exists (to_long (0 + 1)), st1.
      split; [reflexivity |]. split; [reflexivity |].
      split; [exact Hsteady1 |]. cbn [eng events] in He, Hev.
      split; [rewrite He, !Hroots; exact Hsp |].
      split; [rewrite Hev, <- app_assoc; reflexivity |].
      intros Hbinds _. rewrite He. apply Hbinds.
    - exists 0, st. unfold ret. simpl. rewrite app_nil_r.
      split; [reflexivity |]. split; [reflexivity |].
      split; [exact (conj (conj Hready Hmark) (conj Hfit Hlen)) |].
      split; [exact Hsp |]. split; [reflexivity |].
      intros _ E. discriminate E. }
  destruct Hb as (v' & st1 & Hb & Hv & Hsteady1 & Hsp1 & Hev1 & Hours1).
  destruct (invoke_callback_state n v_old_shadowstack 0 st1 (or_intror Hsp1))
    as (st2 & arg & Hc & Hev2 & Hsp2 & Hs2 & Hl2 & Hj2 & Hr2 & Hm2 & Hlen2).
  change (to_int 0) with 0 in Hc, Hev2.
  exists v', st1, st2, arg.
  split; [exact Hb |]. split; [exact Hv |]. split; [exact Hc |].
  split.
  { destruct Hsteady1 as ((Hr1 & Hm1) & (Hs1 & Hl1) & Hlen1).
    unfold steady, budgeted, arena_fits.
    rewrite Hr2, Hm2, Hs2, Hl2, Hlen2. tauto. }
  split; [congruence |].
  split; [rewrite Hev2, Hev1, <- app_assoc; reflexivity |].
  intros Hbinds Hbrk. unfold jmpbuf_is_ours.
  rewrite Hj2, (Hours1 Hbinds Hbrk). apply Z.eqb_refl.
Qed.

(** A round entered at the checkpoint, after an abort, up to the
    invocation of the callback: the transaction is begun again, nothing
    is committed, and the callback is handed the attempt counter by a
    steady thread. *)
Lemma checkpoint_round_begin (n a : nat) (v_old_shadowstack : Z)
  (st : State) :
  engine_keeps_roots engine ->
  engine_keeps_arena engine ->
  engine_binds_checkpoint engine ->
  Z.of_nat a < 2147483648 ->
  arena_fits (eng st) ->
  0 <= pypy_transaction_length st < half_modulus ->
  shadowstack (eng st) = v_old_shadowstack + 1 ->
  exists st1 st2 arg,
    begin_round NDEBUG engine pypy_stm_should_break_transaction jmpbuf_addr
      Checkpoint (Z.of_nat a) st = Ok (Z.of_nat a, Z.of_nat (S a)) st1 /\
    invoke_callback NDEBUG callback n v_old_shadowstack (Z.of_nat a) st1
      = Ok (callback n arg (Z.of_nat a) st2) st2 /\
    steady st2 /\
    jmpbuf_is_ours jmpbuf_addr st2 = true /\
    shadowstack (eng st2) = v_old_shadowstack + 1 /\
    events st2
    = events st
      ++ [Ev_stm_start_transaction jmpbuf_addr; Ev_callback arg (Z.of_nat a)].
Proof.
  intros Hroots Harena Hbinds Ha Hfit Hlen Hsp.
  destruct (start_transaction_steady (Z.of_nat a) st Harena Hfit Hlen)
    as (st1 & Hst & Hsteady1 & He1 & Hev1).
  rewrite to_long_id in Hst by (int64_unfold; lia).
  replace (Z.of_nat a + 1) with (Z.of_nat (S a)) in Hst by lia.
  assert (Hsp1 : shadowstack (eng st1) = v_old_shadowstack + 1)
    by (rewrite He1, Hroots; exact Hsp).
  destruct (invoke_callback_state n v_old_shadowstack (Z.of_nat a) st1
              (or_intror Hsp1))
    as (st2 & arg & Hc & Hev2 & Hsp2 & Hs2 & Hl2 & Hj2 & Hr2 & Hm2 & Hlen2).
  rewrite to_int_id in Hc, Hev2 by lia.
  exists st1, st2, arg. split.
  { unfold begin_round. unfold bind at 1. rewrite Hst. reflexivity. }
  split; [exact Hc |]. split.
  { destruct Hsteady1 as ((Hr1 & Hm1) & (Hs1 & Hl1) & Hlen1).
    unfold steady, budgeted, arena_fits.
    rewrite Hr2, Hm2, Hs2, Hl2, Hlen2. tauto. }
  split.
  { unfold jmpbuf_is_ours. rewrite Hj2, He1, Hbinds. apply Z.eqb_refl. }
  split; [congruence |].
  rewrite Hev2, Hev1, <- app_assoc. reflexivity.
Qed.

(** A round of a steady thread whose callback returns: a commit and a
    begin if the break check says yes, and the callback, which sees the
    attempt counter 0 and may call the engine itself. *)
Lemma steady_round (fuel n : nat) (v_old_shadowstack r : Z) (st : State) :
  engine_keeps_roots engine ->
  engine_keeps_arena engine ->
  work_returns callback n r ->
  steady st ->
  shadowstack (eng st) = v_old_shadowstack + 1 ->
  exists st' arg evs,
    loop (S fuel) n v_old_shadowstack LoopTop 0 st
    = (if to_int r <=? 0 then Ok (to_int r) st'
       else loop fuel (S n) v_old_shadowstack LoopTop 0 st') /\
    steady st' /\
    shadowstack (eng st') = v_old_shadowstack + 1 /\
    forallb own_call evs = true /\
    events st'
    = events st
      ++ cycle_events jmpbuf_addr (pypy_stm_should_break_transaction st)
      ++ [Ev_callback arg 0] ++ evs.
Proof.
  intros Hroots Harena Hwork Hsteady Hsp.
  destruct (looptop_round_begin n v_old_shadowstack st Hroots Harena
              Hsteady Hsp)
    as (v' & st1 & st2 & arg & Hb & _ & Hc & Hsteady2 & Hsp2 & Hev2 & _).
  destruct (Hwork arg 0 st2 Hsteady2)
    as (st' & evs & Hcb & Hsteady' & Hev & Hown & Hsp').
  rewrite Hcb in Hc.
  exists st', arg, evs.
  split; [apply (retry_loop_round _ _ _ _ _ _ _ _ _ _ _ _ Hb Hc) |].
  split; [exact Hsteady' |]. split; [congruence |].
  split; [exact Hown |].
  rewrite Hev, Hev2, <- !app_assoc. reflexivity.
Qed.

Lemma leave_perform_transaction_events (v_old_shadowstack : Z)
  (st st' : State) :
  leave_perform_transaction NDEBUG engine jmpbuf_addr v_old_shadowstack st
    = Ok tt st' ->
  events st'
    = events st ++ (if jmpbuf_is_ours jmpbuf_addr st
                    then [left_with_inevitable] else []) /\
  pypy_stm_ready_atomic st' = pypy_stm_ready_atomic st /\
  pypy_stm_nursery_low_fill_mark st' = pypy_stm_nursery_low_fill_mark st /\
  pypy_stm_nursery_low_fill_mark_saved st'
    = pypy_stm_nursery_low_fill_mark_saved st.
Proof.
  unfold leave_perform_transaction. run.
  destruct (jmpbuf_is_ours jmpbuf_addr st); simpl;
    destruct (pypy_stm_ready_atomic st =? 1); simpl;
    repeat match goal with
           | |- context [if ?b then _ else _] => destruct b; simpl
           end;
    intros H; inversion H; subst; simpl; rewrite ?app_nil_r;
    repeat split; reflexivity.
Qed.

Lemma leave_perform_transaction_returns (v_old_shadowstack : Z) (st : State) :
  NDEBUG = true
  \/ (mode_budget_inv st /\ engine_keeps_roots engine
      /\ shadowstack (eng st) = v_old_shadowstack + 1) ->
  exists st',
    leave_perform_transaction NDEBUG engine jmpbuf_addr v_old_shadowstack st
      = Ok tt st'.
Proof.
  intros [-> | (Hinv & Hroots & Hsp)].
  - unfold leave_perform_transaction. run.
    destruct (jmpbuf_is_ours jmpbuf_addr st); simpl;
      destruct (pypy_stm_ready_atomic st =? 1); simpl; eexists; reflexivity.
  - unfold leave_perform_transaction. run.
    assert (Hmark : (pypy_stm_ready_atomic st =? 1) = false ->
                    (pypy_stm_nursery_low_fill_mark st =? UNLIMITED) = true).
    { intros E. apply Z.eqb_neq in E. apply Z.eqb_eq, Hinv, E. }
    assert (Hsp' : forall e, shadowstack e = shadowstack (eng st) ->
                   (v_old_shadowstack =? shadowstack e - 1) = true).
    { intros e He. apply Z.eqb_eq. lia. }
    destruct (jmpbuf_is_ours jmpbuf_addr st); simpl;
      destruct (pypy_stm_ready_atomic st =? 1); simpl;
      rewrite ?Hmark by reflexivity; rewrite ?orb_true_r; simpl;
      rewrite Hsp' by (rewrite ?Hroots; reflexivity);
      rewrite ?orb_true_r; eexists; reflexivity.
Qed.

Lemma perform_transaction_inversion (fuel : nat) (arg : object_t)
  (st st' : State) :
  pypy_stm_perform_transaction NDEBUG engine
    pypy_stm_should_break_transaction jmpbuf_addr callback fuel arg st
    = Ok tt st' ->
  exists r st0 st_exit,
    STM_PUSH_ROOT arg st = Ok tt st0 /\
    loop fuel 0 (shadowstack (eng st)) LoopTop 0 st0 = Ok r st_exit /\
    leave_perform_transaction NDEBUG engine jmpbuf_addr
      (shadowstack (eng st)) st_exit = Ok tt st'.
Proof.
  unfold pypy_stm_perform_transaction. unfold bind at 1. unfold gets at 1.
  unfold bind at 1. unfold STM_PUSH_ROOT at 1. unfold modify at 1.
  unfold bind at 1.
  match goal with
  | |- context [loop fuel 0 ?v LoopTop 0 ?s] =>
      destruct (loop fuel 0 v LoopTop 0 s) as [r st_exit | | |] eqn:E
  end; try discriminate.
  intros H. exists r. eexists. exists st_exit.
  split; [reflexivity |]. split; [exact E | exact H].
Qed.

(** The loop is left only with an outcome that is at most 0, whatever
    the unit of work does. *)
Lemma retry_loop_result (fuel : nat) :
  forall (n : nat) (v_old_shadowstack : Z) (from : entry) (v_counter r : Z)
         (st st' : State),
    loop fuel n v_old_shadowstack from v_counter st = Ok r st' -> r <= 0.
Proof.
  induction fuel as [| fuel IH]; intros n vold from v r st st';
    [discriminate |].
  simpl.
  destruct (begin_round NDEBUG engine pypy_stm_should_break_transaction
              jmpbuf_addr from v st) as [[counter v'] st1 | | |];
    try discriminate.
  destruct (invoke_callback NDEBUG callback n vold counter st1)
    as [[r0 s | s] s1 | | |]; try discriminate.
  - destruct (Z.leb_spec (to_int r0) 0) as [Hle | _].
    + intros H. inversion H; subst. exact Hle.
    + apply IH.
  - destruct (jmpbuf_is_ours jmpbuf_addr s); [apply IH | discriminate].
Qed.

(** A round entered at the top of the loop with [v_counter] at 0 hands
    the callback the attempt counter 0, whether it begins a transaction
    or not. *)
Lemma begin_round_top_counter (st st1 : State) (counter v_counter' : Z) :
  begin_round NDEBUG engine pypy_stm_should_break_transaction jmpbuf_addr
    LoopTop 0 st = Ok (counter, v_counter') st1 ->
  counter = 0.
Proof.
  unfold begin_round. unfold bind at 1. unfold gets at 1.
  destruct (pypy_stm_should_break_transaction st).
  - unfold bind at 1. unfold gets at 1. unfold bind at 1. unfold assert.
    destruct (NDEBUG || negb (pypy_stm_nursery_low_fill_mark st =? UNLIMITED));
      [| discriminate].
    unfold bind at 1. unfold call_engine at 1. unfold bind at 1.
    match goal with
    | |- context [pypy_stm_start_transaction engine ?j ?v ?s] =>
        destruct (pypy_stm_start_transaction_ok j v s) as (s1 & -> & _)
    end.
    unfold ret. intros H. inversion H. reflexivity.
  - unfold ret. intros H. inversion H. reflexivity.
Qed.

(** C6: for every unit of work, a round in which the callback returns a
    value at most 0 ends the loop with that value, and the loop is left
    with no other outcome; a round in which it returns a positive value
    is followed by a round from the top of the loop with the attempt
    counter [v_counter] reset to 0, so that the next invocation is
    handed the counter 0.  For a steady thread whose work returns 1, 1
    and 0 and is outside any atomic section when it returns (it may
    leave the budget alone or change it, and call the engine, short of
    committing or beginning a transaction itself), the function returns
    after three invocations of the callback, which sees the attempt
    counter 0 in each; each invocation is preceded by a cycle of commit
    and begin when the break check says yes, so that there are exactly
    three cycles when the check answers yes for every thread that is not
    atomic (as 4.4 has it; the check is declared outside the
    sources). *)
Theorem C6_perform_transaction_rounds :
  (forall fuel n v_old_shadowstack from v_counter counter v_counter' r
          st st1 st1' st',
     begin_round NDEBUG engine pypy_stm_should_break_transaction jmpbuf_addr
       from v_counter st = Ok (counter, v_counter') st1 ->
     invoke_callback NDEBUG callback n v_old_shadowstack counter st1
       = Ok (CbReturn r st') st1' ->
     (to_int r <= 0 ->
      loop (S fuel) n v_old_shadowstack from v_counter st
        = Ok (to_int r) st') /\
     (0 < to_int r ->
      loop (S fuel) n v_old_shadowstack from v_counter st
        = loop fuel (S n) v_old_shadowstack LoopTop 0 st' /\
      forall counter2 v_counter2 st2,
        begin_round NDEBUG engine pypy_stm_should_break_transaction
          jmpbuf_addr LoopTop 0 st' = Ok (counter2, v_counter2) st2 ->
        counter2 = 0)) /\
  (forall fuel n v_old_shadowstack from v_counter r st st',
     loop fuel n v_old_shadowstack from v_counter st = Ok r st' -> r <= 0) /\
  (engine_keeps_roots engine ->
   engine_keeps_arena engine ->
   work_returns callback 0 1 ->
   work_returns callback 1 1 ->
   work_returns callback 2 0 ->
   forall fuel arg st,
     (3 <= fuel)%nat ->
     steady st ->
     exists st' s1 s2 s3 arg1 arg2 arg3 evs1 evs2 evs3 tail,
       pypy_stm_perform_transaction NDEBUG engine
         pypy_stm_should_break_transaction jmpbuf_addr callback fuel arg st
         = Ok tt st' /\
       steady s1 /\ steady s2 /\ steady s3 /\
       forallb own_call evs1 = true /\
       forallb own_call evs2 = true /\
       forallb own_call evs3 = true /\
       events st'
       = events st
         ++ cycle_events jmpbuf_addr (pypy_stm_should_break_transaction s1)
         ++ [Ev_callback arg1 0] ++ evs1
         ++ cycle_events jmpbuf_addr (pypy_stm_should_break_transaction s2)
         ++ [Ev_callback arg2 0] ++ evs2
         ++ cycle_events jmpbuf_addr (pypy_stm_should_break_transaction s3)
         ++ [Ev_callback arg3 0] ++ evs3
         ++ tail /\
       (tail = [] \/ tail = [left_with_inevitable]) /\
       (breaks_when_not_atomic pypy_stm_should_break_transaction ->
        events st'
        = events st
          ++ [Ev_stm_commit_transaction; Ev_stm_start_transaction jmpbuf_addr;
              Ev_callback arg1 0] ++ evs1
          ++ [Ev_stm_commit_transaction; Ev_stm_start_transaction jmpbuf_addr;
              Ev_callback arg2 0] ++ evs2
          ++ [Ev_stm_commit_transaction; Ev_stm_start_transaction jmpbuf_addr;
              Ev_callback arg3 0] ++ evs3
          ++ tail)).
Proof.
  split; [| split].
  - intros fuel n vold from v counter v' r st st1 st1' st' Hb Hc.
    rewrite (retry_loop_round _ _ _ _ _ _ _ _ _ _ _ _ Hb Hc).
    split; intros Hr.
    + destruct (Z.leb_spec (to_int r) 0); [reflexivity | lia].
    + split.
      * destruct (Z.leb_spec (to_int r) 0); [lia | reflexivity].
      * intros c2 v2 st2. apply begin_round_top_counter.
  - intros fuel. apply retry_loop_result.
  - intros Hroots Harena Hw0 Hw1 Hw2 fuel arg st Hfuel Hsteady.
    destruct fuel as [| [| [| fuel]]]; try lia.
    set (vold := shadowstack (eng st)).
    destruct (STM_PUSH_ROOT arg st) as [[] st0 | | |] eqn:Hpush;
      try discriminate Hpush.
    assert (Hst0 : steady st0 /\ shadowstack (eng st0) = vold + 1
                   /\ events st0 = events st).
    { unfold STM_PUSH_ROOT, modify in Hpush. inversion Hpush; subst.
      simpl. repeat split; apply Hsteady. }
    destruct Hst0 as (Hsteady0 & Hsp0 & Hev0).
    destruct (steady_round (S (S fuel)) 0 vold 1 st0 Hroots Harena Hw0
                Hsteady0 Hsp0)
      as (st1 & a1 & evs1 & Hl1 & Hsteady1 & Hsp1 & Hown1 & Hev1).
    destruct (steady_round (S fuel) 1 vold 1 st1 Hroots Harena Hw1
                Hsteady1 Hsp1)
      as (st2 & a2 & evs2 & Hl2 & Hsteady2 & Hsp2 & Hown2 & Hev2).
    destruct (steady_round fuel 2 vold 0 st2 Hroots Harena Hw2
                Hsteady2 Hsp2)
      as (st3 & a3 & evs3 & Hl3 & Hsteady3 & Hsp3 & Hown3 & Hev3).
    change (to_int 1 <=? 0) with false in Hl1, Hl2.
    change (to_int 0 <=? 0) with true in Hl3.
    change (to_int 0) with 0 in Hl3.
    rewrite Hl2, Hl3 in Hl1.
    assert (Hinv3 : mode_budget_inv st3)
      by (intros Hne; destruct Hsteady3 as ((? & _) & _); contradiction).
    destruct (leave_perform_transaction_returns vold st3
                (or_intror (conj Hinv3 (conj Hroots Hsp3)))) as (st' & Hleave).
    destruct (leave_perform_transaction_events vold st3 st' Hleave)
      as (Hev' & _).
    assert (Hall : events st'
       = events st
         ++ cycle_events jmpbuf_addr (pypy_stm_should_break_transaction st0)
         ++ [Ev_callback a1 0] ++ evs1
         ++ cycle_events jmpbuf_addr (pypy_stm_should_break_transaction st1)
         ++ [Ev_callback a2 0] ++ evs2
         ++ cycle_events jmpbuf_addr (pypy_stm_should_break_transaction st2)
         ++ [Ev_callback a3 0] ++ evs3
         ++ (if jmpbuf_is_ours jmpbuf_addr st3
             then [left_with_inevitable] else [])).
    { rewrite Hev', Hev3, Hev2, Hev1, Hev0, <- !app_assoc. reflexivity. }
    exists st', st0, st1, st2, a1, a2, a3, evs1, evs2, evs3.
    exists (if jmpbuf_is_ours jmpbuf_addr st3
            then [left_with_inevitable] else []).
    split; [| split; [exact Hsteady0 | split; [exact Hsteady1 | split;
              [exact Hsteady2 | split; [exact Hown1 | split; [exact Hown2 |
               split; [exact Hown3 | split; [exact Hall | split]]]]]]]].
    + unfold pypy_stm_perform_transaction.
      unfold bind at 1. unfold gets at 1. fold vold.
      unfold bind at 1. rewrite Hpush.
      unfold bind at 1. rewrite Hl1. exact Hleave.
    + destruct (jmpbuf_is_ours jmpbuf_addr st3); [right | left]; reflexivity.
    + intros Hbreak. rewrite Hall.
      rewrite (Hbreak st0 (proj1 (proj1 Hsteady0))),
        (Hbreak st1 (proj1 (proj1 Hsteady1))),
        (Hbreak st2 (proj1 (proj1 Hsteady2))).
      reflexivity.
Qed.

(** An abort inside the callback, the checkpoint of this frame being
    the resume point: the loop resumes at the checkpoint with the
    attempt counter as the last begin left it (1 after the first try),
    and the transaction is begun again with the budget of a retry. *)
Lemma abort_resumes_at_checkpoint (fuel n : nat) (v_old_shadowstack : Z)
  (from : entry) (v_counter counter v_counter' : Z)
  (st st1 st1' st' : State) :
  begin_round NDEBUG engine pypy_stm_should_break_transaction jmpbuf_addr
    from v_counter st = Ok (counter, v_counter') st1 ->
  invoke_callback NDEBUG callback n v_old_shadowstack counter st1
    = Ok (CbAbort st') st1' ->
  jmpbuf_is_ours jmpbuf_addr st' = true ->
  loop (S fuel) n v_old_shadowstack from v_counter st
    = loop fuel (S n) v_old_shadowstack Checkpoint v_counter' st' /\
  exists st2,
    begin_round NDEBUG engine pypy_stm_should_break_transaction jmpbuf_addr
      Checkpoint v_counter' st' = Ok (v_counter', to_long (v_counter' + 1)) st2 /\
    pypy_stm_nursery_low_fill_mark st2
      = to_uintptr (_stm_nursery_start (eng st2)
                    + nursery_limit v_counter' st2).
Proof.
  intros Hb Hc Hours. split.
  - simpl. rewrite Hb, Hc, Hours. reflexivity.
  - unfold begin_round. unfold bind at 1.
    destruct (pypy_stm_start_transaction_ok jmpbuf_addr v_counter' st')
      as (st2 & -> & _ & Hm & _).
    exists st2. split; [reflexivity | exact Hm].
Qed.

(** C7, as amended: on leaving the loop with the checkpoint of this
    frame still the resume point of the engine, the engine is asked to
    make the transaction inevitable, with the reason
    "perform_transaction left with inevitable", and this is the last
    call to the engine: the transaction is not committed, and the
    budget is not shrunk.  With another resume point the engine is not
    called.  The function returns only through this exit. *)
Theorem C7_perform_transaction_exit :
  (forall v_old_shadowstack st st',
     leave_perform_transaction NDEBUG engine jmpbuf_addr v_old_shadowstack st
       = Ok tt st' ->
     (jmpbuf_is_ours jmpbuf_addr st = true ->
      events st' = events st ++ [left_with_inevitable]) /\
     (jmpbuf_is_ours jmpbuf_addr st = false -> events st' = events st) /\
     pypy_stm_ready_atomic st' = pypy_stm_ready_atomic st /\
     pypy_stm_nursery_low_fill_mark st' = pypy_stm_nursery_low_fill_mark st /\
     pypy_stm_nursery_low_fill_mark_saved st'
       = pypy_stm_nursery_low_fill_mark_saved st) /\
  (forall v_old_shadowstack st,
     NDEBUG = true
     \/ (mode_budget_inv st /\ engine_keeps_roots engine
         /\ shadowstack (eng st) = v_old_shadowstack + 1) ->
     exists st',
       leave_perform_transaction NDEBUG engine jmpbuf_addr
         v_old_shadowstack st = Ok tt st') /\
  (forall fuel arg st st',
     pypy_stm_perform_transaction NDEBUG engine
       pypy_stm_should_break_transaction jmpbuf_addr callback fuel arg st
       = Ok tt st' ->
     exists r st0 st_exit,
       loop fuel 0 (shadowstack (eng st)) LoopTop 0 st0 = Ok r st_exit /\
       events st'
       = events st_exit ++ (if jmpbuf_is_ours jmpbuf_addr st_exit
                            then [left_with_inevitable] else [])).
Proof.
  split; [| split].
  - intros vold st st' H.
    destruct (leave_perform_transaction_events vold st st' H)
      as (Hev & Hr & Hm & Hs).
    repeat split; trivial; intros E; rewrite Hev, E;
      [reflexivity | apply app_nil_r].
  - apply leave_perform_transaction_returns.
  - intros fuel arg st st' H.
    destruct (perform_transaction_inversion fuel arg st st' H)
      as (r & st0 & st_exit & _ & Hloop & Hleave).
    exists r, st0, st_exit. split; [exact Hloop |].
    apply (leave_perform_transaction_events _ _ _ Hleave).
Qed.

Lemma begin_round_keeps_inv (from : entry) (v_counter : Z) (st : State) :
  mode_budget_inv st ->
  match begin_round NDEBUG engine pypy_stm_should_break_transaction
          jmpbuf_addr from v_counter st with
  | Ok _ st1 => mode_budget_inv st1
  | AssertFailed line => line = 190
  | Unwound _ => False
  | OutOfFuel => False
  end.
Proof.
  intros Hinv. destruct from; unfold begin_round.
  - unfold bind at 1. unfold gets at 1.
    destruct (pypy_stm_should_break_transaction st); [| exact Hinv].
    unfold bind at 1. unfold gets at 1. unfold bind at 1. unfold assert.
    destruct (NDEBUG || negb (pypy_stm_nursery_low_fill_mark st =? UNLIMITED));
      [| reflexivity].
    unfold bind at 1. unfold call_engine at 1. unfold bind at 1.
    match goal with
    | |- context [pypy_stm_start_transaction engine ?j ?v ?s] =>
        destruct (pypy_stm_start_transaction_ok j v s) as (st1 & -> & Hr & _)
    end.
    apply normal_mode_inv, Hr.
  - unfold bind at 1.
    destruct (pypy_stm_start_transaction_ok jmpbuf_addr v_counter st)
      as (st1 & -> & Hr & _).
    apply normal_mode_inv, Hr.
Qed.

Lemma invoke_callback_cases (n : nat) (v_old_shadowstack counter : Z)
  (st : State) :
  invoke_callback NDEBUG callback n v_old_shadowstack counter st
    = AssertFailed 210
  \/ exists st2 arg,
       invoke_callback NDEBUG callback n v_old_shadowstack counter st
         = Ok (callback n arg (to_int counter) st2) st2 /\
       pypy_stm_ready_atomic st2 = pypy_stm_ready_atomic st /\
       pypy_stm_nursery_low_fill_mark st2 = pypy_stm_nursery_low_fill_mark st.
Proof.
  unfold invoke_callback, bind, STM_POP_ROOT, gets, assert, STM_PUSH_ROOT,
    modify, ret. simpl.
  destruct (NDEBUG || (v_old_shadowstack =? shadowstack (eng st) - 1)).
  - right. eexists _, _. split; [reflexivity |]. split; reflexivity.
  - left. reflexivity.
Qed.

(** The loop keeps the invariant when the callback does. *)
Lemma retry_loop_keeps_inv (fuel n : nat) (v_old_shadowstack : Z)
  (from : entry) (v_counter : Z) (st : State) :
  callback_keeps_inv callback ->
  mode_budget_inv st ->
  match loop fuel n v_old_shadowstack from v_counter st with
  | Ok _ st' => mode_budget_inv st'
  | AssertFailed line => line = 190 \/ line = 210
  | Unwound st' => mode_budget_inv st'
  | OutOfFuel => True
  end.
Proof.
  intros Hcb. revert n from v_counter st.
  induction fuel as [| fuel IH]; intros n from v_counter st Hinv;
    [exact I |].
  simpl. pose proof (begin_round_keeps_inv from v_counter st Hinv) as Hb.
  destruct (begin_round NDEBUG engine pypy_stm_should_break_transaction
              jmpbuf_addr from v_counter st)
    as [[counter v'] st1 | line | |]; [| left; exact Hb | elim Hb | elim Hb].
  destruct (invoke_callback_cases n v_old_shadowstack counter st1)
    as [-> | (st2 & arg & -> & Hr & Hm)]; [right; reflexivity |].
  assert (Hinv2 : mode_budget_inv st2)
    by (unfold mode_budget_inv; rewrite Hr, Hm; exact Hb).
  specialize (Hcb n arg (to_int counter) st2 Hinv2).
  destruct (callback n arg (to_int counter) st2) as [r st' | st'].
  - destruct (to_int r <=? 0); [exact Hcb | apply IH, Hcb].
  - destruct (jmpbuf_is_ours jmpbuf_addr st'); [apply IH, Hcb | exact Hcb].
Qed.

(** The inspection of line 232 passes when the callback keeps the
    invariant. *)
Lemma perform_transaction_keeps_inv (fuel : nat) (arg : object_t)
  (st : State) :
  callback_keeps_inv callback ->
  mode_budget_inv st ->
  match pypy_stm_perform_transaction NDEBUG engine
          pypy_stm_should_break_transaction jmpbuf_addr callback fuel arg st
  with
  | Ok _ st' => mode_budget_inv st'
  | AssertFailed line => line <> 232 /\ line <> 253
  | Unwound st' => mode_budget_inv st'
  | OutOfFuel => True
  end.
Proof.
  intros Hcb Hinv. unfold pypy_stm_perform_transaction.
  unfold bind at 1. unfold gets at 1.
  unfold bind at 1. unfold STM_PUSH_ROOT at 1. unfold modify at 1.
  unfold bind at 1.
  match goal with
  | |- context [loop fuel 0 ?v LoopTop 0 ?s] =>
      pose proof (retry_loop_keeps_inv fuel 0 v LoopTop 0 s Hcb Hinv) as Hl;
      destruct (loop fuel 0 v LoopTop 0 s) as [r st_exit | line | st_u |]
  end.
  - unfold leave_perform_transaction. run.
    assert (Hmark : (pypy_stm_ready_atomic st_exit =? 1) = false ->
                    (pypy_stm_nursery_low_fill_mark st_exit =? UNLIMITED)
                    = true).
    { intros E. apply Z.eqb_neq in E. apply Z.eqb_eq, Hl, E. }
    destruct (jmpbuf_is_ours jmpbuf_addr st_exit); simpl;
      destruct (pypy_stm_ready_atomic st_exit =? 1) eqn:E; simpl;
      rewrite ?Hmark by reflexivity; rewrite ?orb_true_r; simpl;
      match goal with
      | |- context [if ?b then _ else _] => destruct b
      end; try (split; discriminate); exact Hl.
  - destruct Hl as [-> | ->]; split; discriminate.
  - exact Hl.
  - exact I.
Qed.

(** *** Runs of the loop *)

Lemma positive_rounds_loop (m : nat) :
  forall (n fuel : nat) (v_old_shadowstack : Z) (st : State),
    engine_keeps_roots engine ->
    engine_keeps_arena engine ->
    (forall i, (i < m)%nat ->
       exists r, 0 < to_int r /\ work_returns callback (n + i) r) ->
    (exists r, to_int r <= 0 /\ work_returns callback (n + m) r) ->
    (m < fuel)%nat ->
    steady st ->
    shadowstack (eng st) = v_old_shadowstack + 1 ->
    exists r st' new,
      loop fuel n v_old_shadowstack LoopTop 0 st = Ok r st' /\
      r <= 0 /\
      steady st' /\
      shadowstack (eng st') = v_old_shadowstack + 1 /\
      events st' = events st ++ new /\
      callback_counters new = repeat 0 (S m) /\
      count_events is_commit new = count_events is_start new /\
      (count_events is_commit new <= S m)%nat /\
      (breaks_when_not_atomic pypy_stm_should_break_transaction ->
       count_events is_commit new = S m).
Proof.
  induction m as [| m IH];
    intros n fuel vold st Hroots Harena Hpos Hlast Hfuel Hsteady Hsp;
    (destruct fuel as [| fuel]; [lia |]).
  - destruct Hlast as (r & Hr & Hw). rewrite Nat.add_0_r in Hw.
    destruct (steady_round fuel n vold r st Hroots Harena Hw Hsteady Hsp)
      as (st' & arg & evs & Hl & Hsteady' & Hsp' & Hown & Hev).
    destruct (Z.leb_spec (to_int r) 0) as [_ | ?]; [| lia].
    destruct (round_events_counts (pypy_stm_should_break_transaction st)
                arg 0 evs Hown) as (Hc & Hco & Hs).
    exists (to_int r), st'. eexists.
    split; [exact Hl |]. split; [exact Hr |]. split; [exact Hsteady' |].
    split; [exact Hsp' |]. split; [exact Hev |]. split; [exact Hc |].
    rewrite Hco, Hs. split; [reflexivity |]. split.
    + destruct (pypy_stm_should_break_transaction st); lia.
    + intros Hb. rewrite (Hb st (proj1 (proj1 Hsteady))). reflexivity.
  - destruct (Hpos 0%nat ltac:(lia)) as (r0 & Hr0 & Hw0).
    rewrite Nat.add_0_r in Hw0.
    destruct (steady_round fuel n vold r0 st Hroots Harena Hw0 Hsteady Hsp)
      as (st1 & arg & evs & Hl & Hsteady1 & Hsp1 & Hown & Hev1).
    destruct (Z.leb_spec (to_int r0) 0) as [? | _]; [lia |].
    assert (Hpos' : forall i, (i < m)%nat ->
              exists r, 0 < to_int r /\ work_returns callback (S n + i) r).
    { intros i Hi. destruct (Hpos (S i) ltac:(lia)) as (ri & Hri & Hwi).
      exists ri. split; [exact Hri |].
      rewrite Nat.add_succ_r in Hwi. exact Hwi. }
    assert (Hlast' : exists r,
              to_int r <= 0 /\ work_returns callback (S n + m) r).
    { destruct Hlast as (r & Hr & Hw). exists r. split; [exact Hr |].
      rewrite Nat.add_succ_r in Hw. exact Hw. }
    destruct (IH (S n) fuel vold st1 Hroots Harena Hpos' Hlast' ltac:(lia)
                Hsteady1 Hsp1)
      as (r & st' & new & Hl' & Hr & Hsteady' & Hsp' & Hev' & Hc' & Heq'
          & Hle' & Hbr').
    destruct (round_events_counts (pypy_stm_should_break_transaction st)
                arg 0 evs Hown) as (Hc & Hco & Hs).
    remember (cycle_events jmpbuf_addr (pypy_stm_should_break_transaction st)
              ++ [Ev_callback arg 0] ++ evs) as pre eqn:Hpre in *.
    exists r, st'. eexists.
    split; [rewrite Hl; exact Hl' |]. split; [exact Hr |].
    split; [exact Hsteady' |]. split; [exact Hsp' |].
    split; [rewrite Hev', Hev1, <- app_assoc; reflexivity |].
    rewrite callback_counters_app, !count_events_app, Hc, Hc', Hco, Hs.
    split; [reflexivity |]. split; [lia |]. split.
    + destruct (pypy_stm_should_break_transaction st); lia.
    + intros Hb. rewrite (Hb st (proj1 (proj1 Hsteady))), (Hbr' Hb).
      reflexivity.
Qed.

Lemma aborted_rounds_from_checkpoint (m : nat) :
  forall (n fuel a : nat) (r v_old_shadowstack : Z) (st : State),
    engine_keeps_roots engine ->
    engine_keeps_arena engine ->
    engine_binds_checkpoint engine ->
    (forall i, (i < m)%nat -> work_aborts jmpbuf_addr callback (n + i)) ->
    work_returns callback (n + m) r ->
    to_int r <= 0 ->
    (m < fuel)%nat ->
    Z.of_nat (a + m) < 2147483648 ->
    arena_fits (eng st) ->
    0 <= pypy_transaction_length st < half_modulus ->
    shadowstack (eng st) = v_old_shadowstack + 1 ->
    exists st' new,
      loop fuel n v_old_shadowstack Checkpoint (Z.of_nat a) st
        = Ok (to_int r) st' /\
      steady st' /\
      shadowstack (eng st') = v_old_shadowstack + 1 /\
      events st' = events st ++ new /\
      callback_counters new = map Z.of_nat (seq a (S m)) /\
      count_events is_commit new = 0%nat /\
      count_events is_start new = S m.
Proof.
  induction m as [| m IH];
    intros n fuel a r vold st Hroots Harena Hbinds Habort Hret Hr Hfuel Ha
           Hfit Hlen Hsp;
    (destruct fuel as [| fuel]; [lia |]);
    destruct (checkpoint_round_begin n a vold st Hroots Harena Hbinds
                ltac:(lia) Hfit Hlen Hsp)
      as (st1 & st2 & arg & Hb & Hc & Hsteady2 & Hours2 & Hsp2 & Hev2).
  - rewrite Nat.add_0_r in Hret.
    destruct (Hret arg (Z.of_nat a) st2 Hsteady2)
      as (st' & evs & Hcb & Hsteady' & Hev & Hown & Hsp').
    rewrite Hcb in Hc.
    destruct (own_calls_counts evs Hown) as (Hce & Hcoe & Hse).
    exists st'. eexists.
    split.
    { rewrite (retry_loop_round _ _ _ _ _ _ _ _ _ _ _ _ Hb Hc).
      destruct (Z.leb_spec (to_int r) 0); [reflexivity | lia]. }
    split; [exact Hsteady' |]. split; [congruence |].
    split; [rewrite Hev, Hev2, <- app_assoc; reflexivity |].
    rewrite callback_counters_app, !count_events_app, Hce, Hcoe, Hse.
    repeat split.
  - pose proof (Habort 0%nat ltac:(lia)) as Hab. rewrite Nat.add_0_r in Hab.
    destruct (Hab arg (Z.of_nat a) st2 Hsteady2 Hours2)
      as (st3 & evs & Hcb & Hours & Hfit3 & Hlen3 & Hev3 & Hown & Hsp3).
    rewrite Hcb in Hc.
    destruct (abort_resumes_at_checkpoint fuel n vold Checkpoint _ _ _ _ _ _ _
                Hb Hc Hours) as (Hl & _).
    assert (Habort' : forall i, (i < m)%nat ->
              work_aborts jmpbuf_addr callback (S n + i)).
    { intros i Hi. specialize (Habort (S i) ltac:(lia)).
      rewrite Nat.add_succ_r in Habort. exact Habort. }
    rewrite Nat.add_succ_r in Hret.
    assert (Hsp3' : shadowstack (eng st3) = vold + 1) by congruence.
    destruct (IH (S n) fuel (S a) r vold st3 Hroots Harena Hbinds Habort'
                Hret Hr ltac:(lia) ltac:(lia) Hfit3 Hlen3 Hsp3')
      as (st' & new & Hl' & Hsteady' & Hsp' & Hev' & Hc' & Hco' & Hs').
    destruct (own_calls_counts evs Hown) as (Hce & Hcoe & Hse).
    exists st'. eexists.
    split; [rewrite Hl; exact Hl' |]. split; [exact Hsteady' |].
    split; [exact Hsp' |].
    split; [rewrite Hev', Hev3, Hev2, <- !app_assoc; reflexivity |].
    rewrite !callback_counters_app, !count_events_app, Hc', Hco', Hs',
      Hce, Hcoe, Hse.
    repeat split.
Qed.

(** From the loop to the function: the root is pushed before the loop,
    and a loop left by a steady thread with the roots balanced lets the
    function return; what the exit adds to the history is no callback,
    no commit and no begin. *)
Lemma perform_transaction_of_loop (fuel : nat) (arg : object_t)
  (st : State) :
  engine_keeps_roots engine ->
  steady st ->
  exists st0,
    STM_PUSH_ROOT arg st = Ok tt st0 /\
    steady st0 /\
    shadowstack (eng st0) = shadowstack (eng st) + 1 /\
    forall r st_exit new,
      loop fuel 0 (shadowstack (eng st)) LoopTop 0 st0 = Ok r st_exit ->
      steady st_exit ->
      shadowstack (eng st_exit) = shadowstack (eng st) + 1 ->
      events st_exit = events st0 ++ new ->
      exists st' tail,
        pypy_stm_perform_transaction NDEBUG engine
          pypy_stm_should_break_transaction jmpbuf_addr callback fuel arg st
          = Ok tt st' /\
        events st' = events st ++ new ++ tail /\
        callback_counters tail = [] /\
        count_events is_commit tail = 0%nat /\
        count_events is_start tail = 0%nat.
Proof.
  intros Hroots Hsteady.
  destruct (STM_PUSH_ROOT arg st) as [[] st0 | | |] eqn:Hpush;
    try discriminate Hpush.
  assert (Hst0 : steady st0
                 /\ shadowstack (eng st0) = shadowstack (eng st) + 1
                 /\ events st0 = events st).
  { unfold STM_PUSH_ROOT, modify in Hpush. inversion Hpush; subst.
    simpl. repeat split; apply Hsteady. }
  destruct Hst0 as (Hsteady0 & Hsp0 & Hev0).
  exists st0. split; [reflexivity |]. split; [exact Hsteady0 |].
  split; [exact Hsp0 |].
  intros r st_exit new Hl Hsteadye Hspe Heve.
  assert (Hinv : mode_budget_inv st_exit)
    by (intros Hne; destruct Hsteadye as ((? & _) & _); contradiction).
  destruct (leave_perform_transaction_returns (shadowstack (eng st)) st_exit
              (or_intror (conj Hinv (conj Hroots Hspe)))) as (st' & Hleave).
  destruct (leave_perform_transaction_events _ _ _ Hleave) as (Hev' & _).
  exists st'.
  exists (if jmpbuf_is_ours jmpbuf_addr st_exit
          then [left_with_inevitable] else []).
  split.
  { unfold pypy_stm_perform_transaction.
    unfold bind at 1. unfold gets at 1.
    unfold bind at 1. rewrite Hpush.
    unfold bind at 1. rewrite Hl. exact Hleave. }
  split; [rewrite Hev', Heve, Hev0, <- app_assoc; reflexivity |].
  destruct (jmpbuf_is_ours jmpbuf_addr st_exit); repeat split.
Qed.

(** X10: a unit of work that asks for a fresh round [k] times (a
    positive result) and then stops (a result at most 0), run by a
    steady thread; the work returns outside any atomic section, may
    leave the budget alone or change it, and may call the engine short
    of committing or beginning a transaction itself.  The function
    returns, the callback was invoked [k + 1] times and handed the
    attempt counter 0 each time; the engine was asked to commit as often
    as to begin, at most once a round, and exactly once a round when the
    break check answers yes for every thread that is not atomic. *)
Theorem positive_results_repeat_rounds (k fuel : nat) (arg : object_t)
  (st : State) :
  engine_keeps_roots engine ->
  engine_keeps_arena engine ->
  (forall i, (i < k)%nat ->
     exists r, 0 < to_int r /\ work_returns callback i r) ->
  (exists r, to_int r <= 0 /\ work_returns callback k r) ->
  (k < fuel)%nat ->
  steady st ->
  exists st' new,
    pypy_stm_perform_transaction NDEBUG engine
      pypy_stm_should_break_transaction jmpbuf_addr callback fuel arg st
      = Ok tt st' /\
    events st' = events st ++ new /\
    callback_counters new = repeat 0 (S k) /\
    count_events is_commit new = count_events is_start new /\
    (count_events is_commit new <= S k)%nat /\
    (breaks_when_not_atomic pypy_stm_should_break_transaction ->
     count_events is_commit new = S k).
Proof.
  intros Hroots Harena Hpos Hlast Hfuel Hsteady.
  destruct (perform_transaction_of_loop fuel arg st Hroots Hsteady)
    as (st0 & _ & Hsteady0 & Hsp0 & Hexit).
  destruct (positive_rounds_loop k 0 fuel (shadowstack (eng st)) st0 Hroots
              Harena Hpos Hlast Hfuel Hsteady0 Hsp0)
    as (r & st_exit & new & Hl & _ & Hsteadye & Hspe & Heve & Hc & Heq & Hle
        & Hbr).
  destruct (Hexit r st_exit new Hl Hsteadye Hspe Heve)
    as (st' & tail & Hrun & Hev & Htc & Htco & Hts).
  exists st', (new ++ tail). split; [exact Hrun |]. split; [exact Hev |].
  rewrite callback_counters_app, !count_events_app, Htc, Htco, Hts, Hc,
    app_nil_r, !Nat.add_0_r.
  split; [reflexivity |]. split; [exact Heq |]. split; [exact Hle |].
  exact Hbr.
Qed.

(** X11: a unit of work whose first [k] invocations are aborted and
    whose next invocation stops, run by a steady thread when the break
    check answers yes for every thread that is not atomic, so that the
    first round begins a transaction at the checkpoint of this frame,
    where the engine resumes after each abort.  The function returns,
    and the callback was handed the attempt counters 0, 1, ..., [k] in
    this order.  The retries commit nothing: the engine was asked to
    commit once, in the first round, and to begin [k + 1] times. *)
Theorem aborts_retry_with_rising_counter (k fuel : nat) (r : Z)
  (arg : object_t) (st : State) :
  engine_keeps_roots engine ->
  engine_keeps_arena engine ->
  engine_binds_checkpoint engine ->
  breaks_when_not_atomic pypy_stm_should_break_transaction ->
  (forall i, (i < k)%nat -> work_aborts jmpbuf_addr callback i) ->
  work_returns callback k r ->
  to_int r <= 0 ->
  (k < fuel)%nat ->
  Z.of_nat k < 2147483648 ->
  steady st ->
  exists st' new,
    pypy_stm_perform_transaction NDEBUG engine
      pypy_stm_should_break_transaction jmpbuf_addr callback fuel arg st
      = Ok tt st' /\
    events st' = events st ++ new /\
    callback_counters new = map Z.of_nat (seq 0 (S k)) /\
    count_events is_commit new = 1%nat /\
    count_events is_start new = S k.
Proof.
  intros Hroots Harena Hbinds Hbreak Habort Hret Hr Hfuel Hk Hsteady.
  destruct (perform_transaction_of_loop fuel arg st Hroots Hsteady)
    as (st0 & Hpush & Hsteady0 & Hsp0 & Hexit).
  set (vold := shadowstack (eng st)) in *.
  pose proof (Hbreak st0 (proj1 (proj1 Hsteady0))) as Hbrk0.
  assert (Hloop : exists st_exit new,
    loop fuel 0 vold LoopTop 0 st0 = Ok (to_int r) st_exit /\
    steady st_exit /\
    shadowstack (eng st_exit) = vold + 1 /\
    events st_exit = events st0 ++ new /\
    callback_counters new = map Z.of_nat (seq 0 (S k)) /\
    count_events is_commit new = 1%nat /\
    count_events is_start new = S k).
  { destruct fuel as [| fuel]; [lia |].
    destruct k as [| k].
    - destruct (steady_round fuel 0 vold r st0 Hroots Harena Hret
                  Hsteady0 Hsp0)
        as (st' & a & evs & Hl & Hsteady' & Hsp' & Hown & Hev).
      destruct (Z.leb_spec (to_int r) 0) as [_ | ?]; [| lia].
      destruct (round_events_counts (pypy_stm_should_break_transaction st0)
                  a 0 evs Hown) as (Hc & Hco & Hs).
      rewrite Hbrk0 in Hc, Hco, Hs, Hev.
      exists st'. eexists.
      split; [exact Hl |]. split; [exact Hsteady' |]. split; [exact Hsp' |].
      split; [exact Hev |]. rewrite Hc, Hco, Hs. repeat split.
    - destruct (looptop_round_begin 0 vold st0 Hroots Harena Hsteady0 Hsp0)
        as (v' & st1 & st2 & a & Hb & Hv & Hc & Hsteady2 & Hsp2 & Hev2
            & Hours2).
      rewrite Hbrk0 in Hv, Hev2.
      destruct (Habort 0%nat ltac:(lia) a 0 st2 Hsteady2
                  (Hours2 Hbinds Hbrk0))
        as (st3 & evs & Hcb & Hours & Hfit3 & Hlen3 & Hev3 & Hown & Hsp3).
      rewrite Hcb in Hc.
      destruct (abort_resumes_at_checkpoint fuel 0 vold LoopTop _ _ _ _ _ _ _
                  Hb Hc Hours) as (Hl & _).
      rewrite Hv in Hl. change 1 with (Z.of_nat 1) in Hl.
      assert (Habort' : forall i, (i < k)%nat ->
                work_aborts jmpbuf_addr callback (1 + i))
        by (intros i Hi; apply (Habort (S i)); lia).
      assert (Hsp3' : shadowstack (eng st3) = vold + 1) by congruence.
      destruct (aborted_rounds_from_checkpoint k 1 fuel 1 r vold st3
                  Hroots Harena Hbinds Habort' Hret Hr ltac:(lia) ltac:(lia)
                  Hfit3 Hlen3 Hsp3')
        as (st' & new & Hl' & Hsteady' & Hsp' & Hev' & Hc' & Hco' & Hs').
      destruct (round_events_counts true a 0 evs Hown) as (Hc0 & Hco0 & Hs0).
      remember (cycle_events jmpbuf_addr true ++ [Ev_callback a 0] ++ evs)
        as pre eqn:Hpre in *.
      exists st', (pre ++ new).
      split; [rewrite Hl; exact Hl' |]. split; [exact Hsteady' |].
      split; [exact Hsp' |].
      split; [rewrite Hev', Hev3, Hev2, Hpre, <- !app_assoc; reflexivity |].
      rewrite callback_counters_app, !count_events_app, Hc0, Hco0, Hs0,
        Hc', Hco', Hs'.
      repeat split. }
  destruct Hloop as (st_exit & new & Hl & Hsteadye & Hspe & Heve & Hc & Hco
                     & Hs).
  destruct (Hexit (to_int r) st_exit new Hl Hsteadye Hspe Heve)
    as (st' & tail & Hrun & Hev & Htc & Htco & Hts).
  exists st', (new ++ tail).
  split; [exact Hrun |]. split; [exact Hev |].
  rewrite callback_counters_app, !count_events_app, Htc, Htco, Hts, Hc, Hco,
    Hs, app_nil_r, !Nat.add_0_r.
  repeat split.
Qed.

(** *** The roots *)

Lemma begin_round_keeps_depth (from : entry) (v_counter : Z) (st : State) :
  engine_keeps_roots engine ->
  match begin_round NDEBUG engine pypy_stm_should_break_transaction
          jmpbuf_addr from v_counter st with
  | Ok _ st1 => shadowstack (eng st1) = shadowstack (eng st)
  | AssertFailed line => line = 190
  | Unwound _ => False
  | OutOfFuel => False
  end.
Proof.
  intros Hroots. destruct from; unfold begin_round.
  - unfold bind at 1. unfold gets at 1.
    destruct (pypy_stm_should_break_transaction st); [| reflexivity].
    unfold bind at 1. unfold gets at 1. unfold bind at 1. unfold assert.
    destruct (NDEBUG || negb (pypy_stm_nursery_low_fill_mark st =? UNLIMITED));
      [| reflexivity].
    unfold bind at 1. unfold call_engine at 1. unfold bind at 1.
    match goal with
    | |- context [pypy_stm_start_transaction engine ?j ?v ?s] =>
        destruct (pypy_stm_start_transaction_ok j v s)
          as (st1 & -> & _ & _ & _ & _ & He & _)
    end.
    unfold ret. rewrite He. cbn [eng]. rewrite !Hroots. reflexivity.
  - unfold bind at 1.
    destruct (pypy_stm_start_transaction_ok jmpbuf_addr v_counter st)
      as (st1 & -> & _ & _ & _ & _ & He & _).
    unfold ret. rewrite He, Hroots. reflexivity.
Qed.

Lemma retry_loop_keeps_depth (fuel n : nat) (v_old_shadowstack : Z)
  (from : entry) (v_counter : Z) (st : State) :
  engine_keeps_roots engine ->
  callback_keeps_depth callback ->
  shadowstack (eng st) = v_old_shadowstack + 1 ->
  match loop fuel n v_old_shadowstack from v_counter st with
  | Ok _ st' => shadowstack (eng st') = v_old_shadowstack + 1
  | AssertFailed line => line = 190
  | Unwound st' => shadowstack (eng st') = v_old_shadowstack + 1
  | OutOfFuel => True
  end.
Proof.
  intros Hroots Hcb. revert n from v_counter st.
  induction fuel as [| fuel IH]; intros n from v_counter st Hsp;
    [exact I |].
  simpl. pose proof (begin_round_keeps_depth from v_counter st Hroots) as Hb.
  destruct (begin_round NDEBUG engine pypy_stm_should_break_transaction
              jmpbuf_addr from v_counter st)
    as [[counter v'] st1 | line | |]; [| exact Hb | elim Hb | elim Hb].
  assert (Hsp1 : shadowstack (eng st1) = v_old_shadowstack + 1)
    by congruence.
  destruct (invoke_callback_ok n v_old_shadowstack counter st1
              (or_intror Hsp1))
    as (st2 & arg & -> & _ & Hsp2 & _).
  specialize (Hcb n arg (to_int counter) st2).
  destruct (callback n arg (to_int counter) st2) as [r st' | st'].
  - destruct (to_int r <=? 0); [congruence | apply IH; congruence].
  - destruct (jmpbuf_is_ours jmpbuf_addr st');
      [apply IH; congruence | congruence].
Qed.

(** X12: the roots stay balanced: with an engine and a callback that leave
    the shadow stack as deep as they find it, the assertions of lines
    210 and 238 hold in every run, and the function returns with the
    shadow stack as deep as on entry, its root popped.  A run that
    unwinds to an outer checkpoint leaves the root on the shadow
    stack. *)
Theorem roots_stay_balanced (fuel : nat) (arg : object_t) (st : State) :
  engine_keeps_roots engine ->
  callback_keeps_depth callback ->
  match pypy_stm_perform_transaction NDEBUG engine
          pypy_stm_should_break_transaction jmpbuf_addr callback fuel arg st
  with
  | Ok _ st' => shadowstack (eng st') = shadowstack (eng st)
  | AssertFailed line => line = 190 \/ line = 232
  | Unwound st' => shadowstack (eng st') = shadowstack (eng st) + 1
  | OutOfFuel => True
  end.
Proof.
  intros Hroots Hcb. unfold pypy_stm_perform_transaction.
  unfold bind at 1. unfold gets at 1.
  unfold bind at 1. unfold STM_PUSH_ROOT at 1. unfold modify at 1.
  unfold bind at 1.
  match goal with
  | |- context [loop fuel 0 ?v LoopTop 0 ?s] =>
      pose proof (retry_loop_keeps_depth fuel 0 v LoopTop 0 s Hroots Hcb
                    eq_refl) as Hl;
      destruct (loop fuel 0 v LoopTop 0 s) as [r st_exit | line | st_u |]
  end.
  - unfold leave_perform_transaction. run.
    assert (Hsp' : forall e, shadowstack e = shadowstack (eng st_exit) ->
                   (shadowstack (eng st) =? shadowstack e - 1) = true).
    { intros e He. apply Z.eqb_eq. lia. }
    destruct (jmpbuf_is_ours jmpbuf_addr st_exit); simpl;
      destruct (pypy_stm_ready_atomic st_exit =? 1); simpl;
      try (destruct (NDEBUG
                     || (pypy_stm_nursery_low_fill_mark st_exit =? UNLIMITED));
           [| right; reflexivity]);
      simpl; rewrite Hsp' by (rewrite ?Hroots; reflexivity);
      rewrite ?orb_true_r; simpl; rewrite ?Hroots; lia.
  - left. exact Hl.
  - exact Hl.
  - exact I.
Qed.

End PerformTransactionProperties.

(** C10: in every state of a registered thread, from its registration
    on and through every operation of the controller, a mode counter
    other than 1 goes with the unlimited sentinel as budget;
    equivalently a budget that is not the sentinel goes with mode
    counter 1.  Hence the inspection in the escalation shrink
    (line 253) passes, and so does the one at the exit of the
    perform-transaction loop (line 232) when the callback is made of
    such operations. *)
Theorem C10_mode_budget_invariant :
  (forall st,
     reachable NDEBUG NURSERY_SIZE engine st ->
     (pypy_stm_ready_atomic st <> 1 ->
      pypy_stm_nursery_low_fill_mark st = UNLIMITED) /\
     (pypy_stm_nursery_low_fill_mark st <> UNLIMITED ->
      pypy_stm_ready_atomic st = 1)) /\
  (forall st,
     reachable NDEBUG NURSERY_SIZE engine st ->
     exists st',
       _pypy_stm_inev_state NDEBUG st = Ok tt st' /\ mode_budget_inv st') /\
  (forall should_break jmpbuf_addr callback fuel arg st,
     reachable NDEBUG NURSERY_SIZE engine st ->
     callback_keeps_inv callback ->
     match pypy_stm_perform_transaction NDEBUG engine should_break
             jmpbuf_addr callback fuel arg st with
     | Ok _ st' => mode_budget_inv st'
     | AssertFailed line => line <> 232 /\ line <> 253
     | Unwound st' => mode_budget_inv st'
     | OutOfFuel => True
     end).
Proof.
  split; [| split].
  - intros st Hr. pose proof (reachable_inv st Hr) as Hinv.
    split; [exact Hinv | apply inv_budgeted_is_normal, Hinv].
  - intros st Hr.
    destruct (inev_state_keeps_inv st (reachable_inv st Hr))
      as (st' & H & Hinv & _).
    exists st'. split; trivial.
  - intros should_break jb callback fuel arg st Hr Hcb.
    apply perform_transaction_keeps_inv; [exact Hcb |].
    apply reachable_inv, Hr.
Qed.

End ControllerProperties.

(** * The model at work *)

Lemma example_normal_wf : wf_state Example.normal.
Proof. constructor; int64_unfold; simpl; lia. Qed.

Lemma example_engine_keeps_roots : engine_keeps_roots Example.engine.
Proof. intros history c e. destruct c; reflexivity. Qed.

Lemma example_should_break : breaks_when_not_atomic Example.should_break.
Proof. intros st H. unfold Example.should_break. rewrite H. reflexivity. Qed.

Lemma example_engine_keeps_arena : engine_keeps_arena Example.engine.
Proof. intros history c e H. destruct c; exact H. Qed.

Lemma example_engine_binds_checkpoint :
  engine_binds_checkpoint Example.engine.
Proof. intros history jb e. reflexivity. Qed.

Lemma example_steady : steady Example.normal.
Proof.
  split; [split; [reflexivity | vm_compute; discriminate] |].
  unfold arena_fits. int64_unfold. simpl. lia.
Qed.

(** Work that returns and leaves the state of the thread alone is work
    in the sense of [work_returns]. *)
Lemma plain_work_returns
  (callback : nat -> object_t -> Z -> State -> cb_outcome) (n : nat) (r : Z) :
  (forall arg c st, callback n arg c st = CbReturn r st) ->
  work_returns callback n r.
Proof.
  intros H arg c st Hs. exists st, []. rewrite H, app_nil_r.
  split; [reflexivity |]. split; [exact Hs |].
  split; [reflexivity |]. split; reflexivity.
Qed.

(** So is work during which the engine only signals [stmcb_commit_soon]. *)
Lemma commit_soon_work_returns
  (callback : nat -> object_t -> Z -> State -> cb_outcome) (n : nat) (r : Z) :
  (forall arg c st, callback n arg c st = CbReturn r (stmcb_commit_soon st)) ->
  work_returns callback n r.
Proof.
  intros H arg c st ((Hr & Hm) & Hfit & Hlen).
  exists (stmcb_commit_soon st), []. rewrite H, app_nil_r.
  split; [reflexivity |].
  unfold stmcb_commit_soon.
  destruct (Z.eqb_spec (pypy_stm_nursery_low_fill_mark st) UNLIMITED);
    [contradiction |].
  destruct (to_long (pypy_stm_nursery_low_fill_mark st) >? 0).
  - split; [| split; [reflexivity | split; reflexivity]].
    split; [split; [exact Hr | vm_compute; discriminate] |].
    split; [exact Hfit | exact Hlen].
  - split; [| split; [reflexivity | split; reflexivity]].
    split; [split; [exact Hr | exact Hm] |]. split; [exact Hfit | exact Hlen].
Qed.

(** So is work that calls the engine, for anything but a commit or a
    begin. *)
Lemma engine_call_work_returns
  (engine : list event -> event -> engine_state -> engine_state)
  (callback : nat -> object_t -> Z -> State -> cb_outcome) (n : nat) (r : Z)
  (e : event) :
  own_call e = true ->
  engine_keeps_roots engine ->
  engine_keeps_arena engine ->
  (forall arg c st,
     callback n arg c st
     = CbReturn r
         {| pypy_stm_ready_atomic := pypy_stm_ready_atomic st;
            pypy_stm_nursery_low_fill_mark := pypy_stm_nursery_low_fill_mark st;
            pypy_stm_nursery_low_fill_mark_saved :=
              pypy_stm_nursery_low_fill_mark_saved st;
            pypy_transaction_length := pypy_transaction_length st;
            eng := engine (events st) e (eng st);
            events := events st ++ [e] |}) ->
  work_returns callback n r.
Proof.
  intros He Hroots Harena H arg c st ((Hr & Hm) & Hfit & Hlen).
  eexists. exists [e]. rewrite H.
  split; [reflexivity |]. cbn [events eng]. split.
  { split; [split; [exact Hr | exact Hm] |].
    split; [apply Harena, Hfit | exact Hlen]. }
  split; [reflexivity |]. split; [| apply Hroots].
  cbn [forallb]. rewrite He. reflexivity.
Qed.

(** An abort that leaves the state of the thread alone is an abort in
    the sense of [work_aborts]. *)
Lemma plain_abort_work_aborts (jmpbuf_addr : jmpbuf)
  (callback : nat -> object_t -> Z -> State -> cb_outcome) (n : nat) :
  (forall arg c st, callback n arg c st = CbAbort st) ->
  work_aborts jmpbuf_addr callback n.
Proof.
  intros H arg c st (_ & Hfit & Hlen) Hours. exists st, [].
  rewrite H, app_nil_r.
  split; [reflexivity |]. split; [exact Hours |]. split; [exact Hfit |].
  split; [exact Hlen |]. split; [reflexivity |]. split; reflexivity.
Qed.

Lemma example_work_returns (n : nat) :
  work_returns Example.work n (if (n <? 2)%nat then 1 else 0).
Proof.
  intros arg c st ((Hr & _) & Hfit & Hlen).
  exists (set_low_fill_mark 0 st), []. rewrite app_nil_r.
  split; [reflexivity |]. split.
  { split; [split; [exact Hr | vm_compute; discriminate] |].
    split; [exact Hfit | exact Hlen]. }
  split; [reflexivity |]. split; reflexivity.
Qed.

Lemma example_plain_returns (k n : nat) :
  work_returns (Example.plain k) n (if (n <? k)%nat then 1 else 0).
Proof. apply plain_work_returns. reflexivity. Qed.

Lemma example_chatty_returns (k n : nat) :
  work_returns (Example.chatty k) n (if (n <? k)%nat then 1 else 0).
Proof.
  apply (engine_call_work_returns Example.engine _ _ _
           (Ev_stm_become_inevitable "work") eq_refl
           example_engine_keeps_roots example_engine_keeps_arena).
  reflexivity.
Qed.

Lemma example_conflict_aborts (k n : nat) :
  (n < k)%nat -> work_aborts 7 (Example.conflict k) n.
Proof.
  intros Hn. apply plain_abort_work_aborts. intros arg c st.
  unfold Example.conflict. apply Nat.ltb_lt in Hn. rewrite Hn. reflexivity.
Qed.

Lemma example_conflict_returns (k : nat) :
  work_returns (Example.conflict k) k 0.
Proof.
  apply plain_work_returns. intros arg c st.
  unfold Example.conflict. rewrite Nat.ltb_irrefl. reflexivity.
Qed.

Lemma C1_witness :
  wf_state Example.normal /\
  nursery_limit 1 Example.normal = 160000 - Z.shiftr 160000 4 /\
  pypy_stm_nursery_low_fill_mark
    (_pypy_stm_initialize_nursery_low_fill_mark 1 Example.normal)
  = 8192 + nursery_limit 1 Example.normal.
Proof.
  split; [exact example_normal_wf |].
  destruct (C1_initialize_nursery_low_fill_mark 1 Example.normal
              example_normal_wf) as (_ & Hretry & _ & Hexact).
  split.
  - apply Hretry. lia.
  - apply Hexact. vm_compute. split; [discriminate | reflexivity].
Defined.

(** C2 does not hold from every non-negative consumption: below 16 the
    shift gives 0 and the limit stays where it is, at 0 if it was 0; and
    from 215 the fiftieth abort finds the limit at 15 already. *)
Lemma C2_counterexample :
  0 <= 15 /\
  ~ simulated_aborts 1 15 < simulated_aborts 0 15 /\
  simulated_aborts 1 0 = 0 /\
  ~ simulated_aborts 50 215 < simulated_aborts 49 215.
Proof.
  split; [lia |]. split; [| split; [reflexivity |]];
    vm_compute; intros H; discriminate H.
Qed.

Lemma C2_witness :
  is_long 400000 /\ FIFTY_SHRINKS_FROM <= 400000 /\ (49 < 50)%nat /\
  simulated_aborts 50 400000 < simulated_aborts 49 400000 /\
  0 < simulated_aborts 50 400000.
Proof.
  assert (H1 : is_long 400000) by (int64_unfold; lia).
  assert (H2 : FIFTY_SHRINKS_FROM <= 400000)
    by (unfold FIFTY_SHRINKS_FROM; lia).
  assert (H3 : (49 < 50)%nat) by lia.
  split; [exact H1 |]. split; [exact H2 |]. split; [exact H3 |].
  exact (C2_fifty_aborts_shrink 400000 49 H1 H2 H3).
Defined.

Lemma C3_witness :
  Double.valid Double.one /\
  0 <= pypy_transaction_length
         (pypy_stm_set_transaction_length Example.NURSERY_SIZE Double.one
            Example.normal)
    <= Example.NURSERY_SIZE * 3 / 4.
Proof.
  assert (Hv : Double.valid Double.one) by reflexivity.
  split; [exact Hv |].
  apply (C3_transaction_length_bounded Example.NURSERY_SIZE Double.one
           Example.normal Hv); [reflexivity | reflexivity |].
  vm_compute. split; [discriminate | reflexivity].
Defined.

Lemma C4_witness :
  pypy_stm_nursery_low_fill_mark Example.normal <> UNLIMITED /\
  0 < to_long (pypy_stm_nursery_low_fill_mark Example.normal) /\
  pypy_stm_nursery_low_fill_mark (stmcb_commit_soon Example.normal) = 0 /\
  pypy_stm_nursery_low_fill_mark (stmcb_commit_soon Example.atomic)
    = UNLIMITED /\
  pypy_stm_nursery_low_fill_mark_saved (stmcb_commit_soon Example.atomic) = 0.
Proof.
  assert (H1 : pypy_stm_nursery_low_fill_mark Example.normal <> UNLIMITED)
    by (vm_compute; discriminate).
  assert (H2 : 0 < to_long (pypy_stm_nursery_low_fill_mark Example.normal))
    by (vm_compute; reflexivity).
  split; [exact H1 |]. split; [exact H2 |].
  destruct (C4_stmcb_commit_soon Example.normal) as (Hb & _).
  destruct (C4_stmcb_commit_soon Example.atomic) as (_ & Ha & _).
  split; [apply (Hb H1 H2) |].
  destruct (Ha eq_refl) as (Hm & Hs & _).
  split; [exact Hm | apply Hs; vm_compute; reflexivity].
Defined.

Lemma C5_witness :
  exists st2,
    _pypy_stm_become_inevitable false Example.engine
      (Some "entering foreign code"%string) Example.atomic = Ok tt st2 /\
    pypy_stm_nursery_low_fill_mark st2 = UNLIMITED /\
    pypy_stm_nursery_low_fill_mark_saved st2 = 8192 + (408192 - 8192) / 4 /\
    events st2 = [Ev_stm_become_inevitable "entering foreign code"].
Proof.
  destruct (C5_become_inevitable false Example.engine
              (Some "entering foreign code"%string) Example.atomic
              (or_intror (or_intror eq_refl)))
    as (st1 & st2 & _ & _ & Hrun & _ & Hatomic & _ & _ & _ & Hev).
  exists st2. split; [exact Hrun |].
  assert (Hne : pypy_stm_ready_atomic Example.atomic <> 1)
    by (simpl; lia).
  destruct (Hatomic Hne) as (Hsaved & Hmark).
  split; [exact Hmark |]. split; [rewrite Hsaved; reflexivity | exact Hev].
Defined.

Lemma C6_witness :
  exists st' arg1 arg2 arg3 evs1 evs2 evs3 tail,
    pypy_stm_perform_transaction false Example.engine Example.should_break
      7 (Example.plain 2) 3 42 Example.normal = Ok tt st' /\
    events st'
    = events Example.normal
      ++ [Ev_stm_commit_transaction; Ev_stm_start_transaction 7;
          Ev_callback arg1 0] ++ evs1
      ++ [Ev_stm_commit_transaction; Ev_stm_start_transaction 7;
          Ev_callback arg2 0] ++ evs2
      ++ [Ev_stm_commit_transaction; Ev_stm_start_transaction 7;
          Ev_callback arg3 0] ++ evs3
      ++ tail /\
    forallb own_call (evs1 ++ evs2 ++ evs3) = true /\
    (tail = []
     \/ tail = [Ev_stm_become_inevitable
                  "perform_transaction left with inevitable"]).
Proof.
  destruct (C6_perform_transaction_rounds false Example.engine
              Example.should_break 7 (Example.plain 2))
    as (_ & _ & Hscenario).
  destruct (Hscenario example_engine_keeps_roots example_engine_keeps_arena
              (example_plain_returns 2 0) (example_plain_returns 2 1)
              (example_plain_returns 2 2)
              3%nat 42 Example.normal (le_n 3) example_steady)
    as (st' & _ & _ & _ & a1 & a2 & a3 & evs1 & evs2 & evs3 & tail & Hrun
        & _ & _ & _ & Hown1 & Hown2 & Hown3 & _ & Htail & Hev).
  exists st', a1, a2, a3, evs1, evs2, evs3, tail.
  split; [exact Hrun |]. split; [exact (Hev example_should_break) |].
  split; [| exact Htail].
  rewrite !forallb_app, Hown1, Hown2, Hown3. reflexivity.
Defined.

(** C7 does not hold of the reason: the engine is given
    "perform_transaction left with inevitable". *)
Lemma C7_counterexample :
  exists st',
    leave_perform_transaction false Example.engine 7 0 Example.running
      = Ok tt st' /\
    jmpbuf_is_ours 7 Example.running = true /\
    events st'
      = [Ev_stm_become_inevitable "perform_transaction left with inevitable"] /\
    ~ In (Ev_stm_become_inevitable "perform_transaction exiting") (events st').
Proof.
  eexists. split; [reflexivity |]. split; [reflexivity |].
  split; [reflexivity |]. simpl. intros [H | []]. discriminate H.
Qed.

Lemma C7_witness :
  exists st',
    leave_perform_transaction false Example.engine 7 0 Example.running
      = Ok tt st' /\
    jmpbuf_is_ours 7 Example.running = true /\
    events st'
      = events Example.running
        ++ [Ev_stm_become_inevitable
              "perform_transaction left with inevitable"] /\
    pypy_stm_nursery_low_fill_mark st'
      = pypy_stm_nursery_low_fill_mark Example.running.
Proof.
  destruct (C7_perform_transaction_exit false Example.engine
              Example.should_break 7 Example.idle) as (Hexit & Hret & _).
  destruct (Hret 0 Example.running) as (st' & Hleave).
  { right. split; [intros H; elim H; reflexivity |].
    split; [exact example_engine_keeps_roots | reflexivity]. }
  exists st'. split; [exact Hleave |]. split; [reflexivity |].
  destruct (Hexit 0 Example.running st' Hleave) as (Hours & _ & _ & Hm & _).
  split; [apply Hours; reflexivity | exact Hm].
Defined.

(** C8 does not hold of the budget: in normal mode [enter] begins an
    inevitable transaction, whose budget is computed anew and shrunk. *)
Lemma C8_counterexample :
  exists st1 st2,
    pypy_stm_enter_callback_call false Example.engine Example.normal
      = Ok 0 st1 /\
    pypy_stm_leave_callback_call false Example.engine 0 st1 = Ok tt st2 /\
    pypy_stm_nursery_low_fill_mark Example.normal = 408192 /\
    pypy_stm_nursery_low_fill_mark st2 = 108192 /\
    pypy_stm_nursery_low_fill_mark st2
      <> pypy_stm_nursery_low_fill_mark Example.normal.
Proof.
  eexists _, _. split; [reflexivity |]. split; [reflexivity |].
  split; [reflexivity |]. split; [reflexivity |].
  vm_compute. discriminate.
Qed.

Lemma C8_witness :
  pypy_stm_ready_atomic Example.atomic <> 0 /\
  exists st1 st2,
    pypy_stm_enter_callback_call false Example.engine Example.atomic
      = Ok 0 st1 /\
    pypy_stm_leave_callback_call false Example.engine 0 st1 = Ok tt st2 /\
    pypy_stm_ready_atomic st2 = 2 /\
    pypy_stm_nursery_low_fill_mark st2 = UNLIMITED.
Proof.
  assert (Hreg : pypy_stm_ready_atomic Example.atomic <> 0) by (simpl; lia).
  assert (Hinv : false = true \/ mode_budget_inv Example.atomic)
    by (right; intros _; reflexivity).
  split; [exact Hreg |].
  destruct (C8_enter_leave_callback_call false Example.engine Example.atomic
              Hreg Hinv)
    as (_ & st1 & st2 & Henter & Hleave & Hmode & Hatomic & _).
  exists st1, st2. split; [exact Henter |]. split; [exact Hleave |].
  split; [exact Hmode |].
  apply Hatomic. simpl. lia.
Defined.

(** One abort on the first try (8): the retry sees the attempt counter
    1, and its budget is the arena start plus the consumption at the
    abort less its sixteenth. *)
Lemma abort_then_retry_scenario :
  exists st,
    pypy_stm_perform_transaction false Example.engine Example.should_break
      7 Example.flaky 2 42 Example.normal = Ok tt st /\
    events st
    = [Ev_stm_commit_transaction; Ev_stm_start_transaction 7;
       Ev_callback 42 0;
       Ev_stm_start_transaction 7; Ev_callback 42 1;
       Ev_stm_become_inevitable "perform_transaction left with inevitable"] /\
    pypy_stm_nursery_low_fill_mark st = 8192 + (160000 - Z.shiftr 160000 4).
Proof.
  eexists. split; [vm_compute; reflexivity |]. split; reflexivity.
Qed.

(** A foreign call inside an atomic section (8, last scenario): the
    budget restored on leaving the section is the shrunk one. *)
Lemma atomic_foreign_call_scenario :
  exists st,
    (enter_atomic ;;
     token <- pypy_stm_enter_callback_call false Example.engine ;;
     pypy_stm_leave_callback_call false Example.engine token ;;
     leave_atomic) Example.normal = Ok tt st /\
    pypy_stm_ready_atomic st = 1 /\
    pypy_stm_nursery_low_fill_mark Example.normal = 8192 + 400000 /\
    pypy_stm_nursery_low_fill_mark st = 8192 + 100000 /\
    events st = [Ev_stm_become_inevitable "commit_if_not_atomic in atomic"].
Proof.
  eexists. split; [vm_compute; reflexivity |]. repeat split.
Qed.

(** C9 does not hold of the inevitable mode: with token 1 the engine is
    called to commit and to deregister, and for nothing else. *)
Lemma C9_counterexample :
  exists st',
    pypy_stm_leave_callback_call false Example.engine 1 Example.atomic = Ok tt st' /\
    events st' = [Ev_stm_commit_transaction; Ev_unregister_thread_local] /\
    (forall msg, ~ In (Ev_stm_become_inevitable msg) (events st')) /\
    ~ In Ev_stm_start_inevitable_transaction (events st').
Proof.
  eexists. split; [reflexivity |]. split; [reflexivity |].
  split; [intros msg |]; simpl; intros [H | [H | []]]; discriminate H.
Qed.

Lemma C10_witness :
  exists st,
    reachable false Example.NURSERY_SIZE Example.engine st /\
    pypy_stm_ready_atomic st = 2 /\
    pypy_stm_nursery_low_fill_mark st = UNLIMITED.
Proof.
  assert (Hreach :
    exists st,
      reachable false Example.NURSERY_SIZE Example.engine st /\
      pypy_stm_ready_atomic st = 2).
  { eexists. split.
    - eapply reach_op with (o := Op_enter_atomic); [| reflexivity |].
      + eapply reach_op with (o := Op_start_transaction 7 0);
          [| reflexivity |].
        * eapply reach_op with (o := Op_set_transaction_length Double.one);
            [| reflexivity |].
          -- eapply reach_setup with (st := Example.unregistered).
             vm_compute. reflexivity.
          -- vm_compute. reflexivity.
        * vm_compute. reflexivity.
      + vm_compute. reflexivity.
    - reflexivity. }
  destruct Hreach as (st & Hr & Hmode).
  exists st. split; [exact Hr |]. split; [exact Hmode |].
  destruct (C10_mode_budget_invariant false Example.NURSERY_SIZE
              Example.engine) as (Hinv & _).
  apply (proj1 (Hinv st Hr)). rewrite Hmode. discriminate.
Defined.

(** ** The further properties at work *)

Lemma example_engine_drops_checkpoint :
  engine_drops_checkpoint Example.engine.
Proof. intros history e. reflexivity. Qed.

Lemma example_stubborn_keeps_depth (k : nat) :
  callback_keeps_depth (Example.stubborn k).
Proof.
  intros n arg c st. unfold Example.stubborn.
  destruct (n <? k)%nat; reflexivity.
Qed.

Lemma retry_budget_within_consumption_witness :
  wf_state Example.normal /\ 1 <> 0 /\
  pypy_stm_nursery_low_fill_mark
    (_pypy_stm_initialize_nursery_low_fill_mark 1 Example.normal)
  = 8192 + (160000 - 10000).
Proof.
  split; [exact example_normal_wf |]. split; [discriminate |].
  assert (H0 : 0 <= last_abort__bytes_in_nursery (eng Example.normal))
    by (simpl; lia).
  assert (H1 : _stm_nursery_start (eng Example.normal)
               + last_abort__bytes_in_nursery (eng Example.normal) < modulus)
    by (int64_unfold; simpl; lia).
  destruct (retry_budget_within_consumption 1 Example.normal
              example_normal_wf ltac:(discriminate) H0 H1) as (Hm & _).
  exact Hm.
Defined.

Lemma inev_state_keeps_side_witness :
  exists st',
    _pypy_stm_inev_state false Example.normal = Ok tt st' /\
    8192 <= pypy_stm_nursery_low_fill_mark st' <= 408192.
Proof.
  assert (Hs : 0 <= _stm_nursery_start (eng Example.normal) < half_modulus)
    by (int64_unfold; simpl; lia).
  assert (Hb : 0 <= pypy_stm_nursery_low_fill_mark Example.normal
               < half_modulus)
    by (int64_unfold; simpl; lia).
  destruct (inev_state_keeps_side false Example.normal Hs Hb
              (or_intror (or_introl eq_refl))) as (st' & Hrun & Hup & _).
  exists st'. split; [exact Hrun |]. apply Hup. simpl. lia.
Defined.

Lemma repeated_escalation_reaches_arena_start_witness :
  exists st',
    inev_states false 32 Example.normal = Ok tt st' /\
    pypy_stm_nursery_low_fill_mark st' = 8192.
Proof.
  assert (Hs : is_uintptr (_stm_nursery_start (eng Example.normal)))
    by (int64_unfold; simpl; lia).
  assert (Hb : _stm_nursery_start (eng Example.normal)
               <= pypy_stm_nursery_low_fill_mark Example.normal
               < half_modulus)
    by (int64_unfold; simpl; lia).
  destruct (repeated_escalation_reaches_arena_start false 32 Example.normal
              eq_refl Hs Hb) as (st' & Hrun & _ & Hend).
  exists st'. split; [exact Hrun |]. apply Hend. lia.
Defined.

Lemma commit_soon_survives_escalation_witness :
  (exists st',
     _pypy_stm_become_inevitable false Example.engine None
       (stmcb_commit_soon Example.normal) = Ok tt st' /\
     pypy_stm_nursery_low_fill_mark st' < 8192) /\
  (exists st',
     _pypy_stm_become_inevitable false Example.engine None Example.normal
       = Ok tt st' /\
     pypy_stm_nursery_low_fill_mark (stmcb_commit_soon st') = 0).
Proof.
  assert (Hs : 0 < _stm_nursery_start (eng Example.normal))
    by (simpl; lia).
  assert (Hb : _stm_nursery_start (eng Example.normal)
               <= pypy_stm_nursery_low_fill_mark Example.normal
               < half_modulus)
    by (int64_unfold; simpl; lia).
  exact (commit_soon_survives_escalation false Example.engine None
           Example.normal eq_refl Hs Hb).
Defined.

Lemma unlimited_until_configured_witness :
  exists st1,
    pypy_stm_start_transaction Example.engine 7 0
      (pypy_stm_set_transaction_length Example.NURSERY_SIZE
         (Double.opp (Double.of_int 10000)) Example.normal) = Ok 1 st1 /\
    pypy_transaction_length st1 = -4000000000 /\
    stmcb_commit_soon st1 = st1.
Proof.
  assert (HN : 0 <= Example.NURSERY_SIZE * 3 < modulus)
    by (unfold Example.NURSERY_SIZE; int64_unfold; lia).
  assert (Hs : 0 <= _stm_nursery_start
                      (Example.engine (events Example.normal)
                         (Ev_stm_start_transaction 7) (eng Example.normal))
               < 3999999999)
    by (simpl; lia).
  destruct (unlimited_until_configured Example.NURSERY_SIZE Example.engine 7
              Example.normal HN Hs) as (st1 & Hrun & Hl & _ & _ & Hcs).
  exists st1. split; [exact Hrun |]. split; [exact Hl | exact Hcs].
Defined.

Lemma first_callback_needs_configured_length_witness :
  pypy_stm_ready_atomic Example.unregistered = 0 /\
  pypy_stm_enter_callback_call false Example.engine
    (pypy_stm_set_transaction_length Example.NURSERY_SIZE
       (Double.opp (Double.of_int 10000)) Example.unregistered)
  = AssertFailed 96.
Proof.
  split; [reflexivity |].
  assert (HN : 0 <= Example.NURSERY_SIZE * 3 < modulus)
    by (unfold Example.NURSERY_SIZE; int64_unfold; lia).
  destruct (first_callback_needs_configured_length false
              Example.NURSERY_SIZE Example.engine Example.unregistered
              eq_refl eq_refl) as (_ & Hsetup).
  exact (Hsetup HN).
Defined.

Lemma globally_unique_shrinks_once_witness :
  exists st1 st2,
    pypy_stm_become_globally_unique_transaction false Example.engine
      Example.running = Ok tt st1 /\
    pypy_stm_become_globally_unique_transaction false Example.engine st1
      = Ok tt st2 /\
    pypy_stm_nursery_low_fill_mark st2 = pypy_stm_nursery_low_fill_mark st1.
Proof.
  destruct (globally_unique_shrinks_once false Example.engine Example.running
              example_engine_drops_checkpoint (or_intror (or_introl eq_refl)))
    as (st1 & st2 & H1 & H2 & _ & Hm & _).
  exists st1, st2. split; [exact H1 |]. split; [exact H2 | exact Hm].
Defined.

Lemma positive_results_repeat_rounds_witness :
  exists st' new,
    pypy_stm_perform_transaction false Example.engine Example.should_break
      7 (Example.chatty 3) 4 42 Example.normal = Ok tt st' /\
    events st' = events Example.normal ++ new /\
    callback_counters new = [0; 0; 0; 0] /\
    count_events is_commit new = 4%nat /\
    count_events is_start new = 4%nat.
Proof.
  assert (Hpos : forall i, (i < 3)%nat ->
            exists r, 0 < to_int r /\ work_returns (Example.chatty 3) i r).
  { intros i Hi. exists 1. split; [reflexivity |].
    pose proof (example_chatty_returns 3 i) as H.
    apply Nat.ltb_lt in Hi. rewrite Hi in H. exact H. }
  assert (Hlast : exists r,
            to_int r <= 0 /\ work_returns (Example.chatty 3) 3 r).
  { exists 0. split; [vm_compute; discriminate |].
    exact (example_chatty_returns 3 3). }
  destruct (positive_results_repeat_rounds false Example.engine
              Example.should_break 7 (Example.chatty 3) 3 4 42 Example.normal
              example_engine_keeps_roots example_engine_keeps_arena
              Hpos Hlast (le_n 4) example_steady)
    as (st' & new & Hrun & Hev & Hc & Heq & _ & Hall).
  exists st', new. split; [exact Hrun |]. split; [exact Hev |].
  split; [exact Hc |]. specialize (Hall example_should_break).
  split; [exact Hall |]. rewrite <- Heq. exact Hall.
Defined.

Lemma aborts_retry_with_rising_counter_witness :
  exists st' new,
    pypy_stm_perform_transaction false Example.engine Example.should_break
      7 (Example.conflict 3) 4 42 Example.normal = Ok tt st' /\
    events st' = events Example.normal ++ new /\
    callback_counters new = [0; 1; 2; 3] /\
    count_events is_commit new = 1%nat /\
    count_events is_start new = 4%nat.
Proof.
  assert (Hr : to_int 0 <= 0) by (vm_compute; discriminate).
  assert (Hk : Z.of_nat 3 < 2147483648) by reflexivity.
  exact (aborts_retry_with_rising_counter false Example.engine
           Example.should_break 7 (Example.conflict 3) 3 4 0 42
           Example.normal example_engine_keeps_roots
           example_engine_keeps_arena example_engine_binds_checkpoint
           example_should_break
           (fun i Hi => example_conflict_aborts 3 i Hi)
           (example_conflict_returns 3) Hr (le_n 4) Hk example_steady).
Defined.

Lemma roots_stay_balanced_witness :
  exists st',
    pypy_stm_perform_transaction false Example.engine Example.should_break
      7 (Example.stubborn 2) 3 42 Example.normal = Ok tt st' /\
    shadowstack (eng st') = shadowstack (eng Example.normal).
Proof.
  pose proof (roots_stay_balanced false Example.engine Example.should_break
                7 (Example.stubborn 2) 3 42 Example.normal
                example_engine_keeps_roots (example_stubborn_keeps_depth 2))
    as H.
  assert (E : exists st',
            pypy_stm_perform_transaction false Example.engine
              Example.should_break 7 (Example.stubborn 2) 3 42 Example.normal
            = Ok tt st')
    by (eexists; vm_compute; reflexivity).
  destruct E as (st' & E). rewrite E in H.
  exists st'. split; [exact E | exact H].
Defined.
